(** * Inventory management client: mutation handlers, sign-in and access gate

    A shallow embedding of the page handlers of the inventory/POS web client
    (React + Firestore) and the properties stated about them.

    Modelling conventions.
    - A JavaScript [number] is an exact rational ([Qc]); NaN and the
      infinities are not represented, so every division in a theorem is by a
      quantity shown to be non-zero.  The doubles of the program round:
      their sums, differences and products agree with the model on safe
      integers ([Number.isSafeInteger]) and need not on fractions, so a
      theorem that cancels one operation against another is stated for safe
      integers; a theorem that states the value of the expression the code
      evaluates, or only compares numbers, is not restricted.
    - A string is the sequence of its UTF-16 code units, each below 256;
      lengths and lower-casing are the program's on ASCII text.  Document
      and user identifiers are non-empty.
    - A Firestore document is a finite map from field names to values;
      [updateDoc] merges the given fields into the stored document, [addDoc]
      stores a new document under an identifier not yet used in the
      collection, [setDoc] overwrites, [deleteDoc] removes.  [updateDoc] on a
      missing document throws.  Inventory documents are read back by the
      handlers as [InventoryItem]s, so the inventory collection is kept typed.
    - Network failures are not modelled.  The security rules of the
      repository guard the users collection in the sign-in handler, whose
      requests are made by the identity that signs in.  The handlers of the
      stock pages and of the user pages are modelled for a session whose
      requests the rules admit (an administrator's: the rules give the other
      role no delete and no update of a profile).
    - Each handler is a state transformer on a [World] (the store and the
      notifications shown so far); [await] is sequential composition, [throw],
      early [return] and [try]/[catch] are explicit.
    - [Timestamp.now()] is the clock reading [now] passed to the handler, and
      [auth.currentUser.uid] the signed-in user's id [uid].
    - The state a page holds (the listed items and records, the form fields)
      is an argument of the handler; it need not agree with the store.
    - A button with a [disabled] attribute is modelled by a click: nothing
      happens while the attribute holds, otherwise the [onClick] handler
      runs. *)

From Stdlib Require Import QArith Qcanon.
From stdpp Require Import gmap strings list fin_maps numbers.

Local Open Scope Qc_scope.

(** ** JavaScript values and Firestore documents *)

#[warnings="-register-all"] Inductive Value :=
  | VNull
  | VNum (x : Qc)
  | VStr (s : string)
  | VTime (t : Z)
  | VArray (elements : list Value)
  | VObject (fields : list (string * Value)).

Abbreviation Doc := (gmap string Value).
Abbreviation Collection := (gmap string Doc).

(** An object literal [{k1: v1, ..., kn: vn}]. *)
Definition obj (fields : list (string * Value)) : Doc := list_to_map fields.
Arguments obj : simpl never.

(** [!s] is false exactly for the non-empty strings. *)
Definition nonEmpty (s : string) : bool := negb (String.eqb s "").

(** [text.includes(pattern)] *)
Fixpoint includes (pattern text : string) : bool :=
  String.prefix pattern text
  || match text with
     | EmptyString => false
     | String _ rest => includes pattern rest
     end.

(** Text of ASCII characters only: its [length] in the program is the
    number of its characters. *)
Fixpoint asciiOnly (s : string) : bool :=
  match s with
  | EmptyString => true
  | String c rest => (Ascii.nat_of_ascii c <? 128)%nat && asciiOnly rest
  end.

(** A form field of type [number | ''] and JavaScript's [Number(_)] on it. *)
Inductive NumField :=
  | Blank
  | Typed (x : Qc).

Definition Number (f : NumField) : Qc :=
  match f with
  | Blank => 0
  | Typed x => x
  end.

(** A form field of type [Date | null]; a [Date] may be invalid. *)
Inductive DateField :=
  | NoDate
  | InvalidDate
  | ValidDate (t : Z).

(** [d && d instanceof Date && !isNaN(d.getTime())] *)
Definition validDate (d : DateField) : option Z :=
  match d with
  | ValidDate t => Some t
  | _ => None
  end.

(** [x || 0] on an optional number: [undefined] and [0] are falsy. *)
Definition orZero (x : option Qc) : Qc :=
  match x with
  | Some c => if decide (c = 0) then 0 else c
  | None => 0
  end.

(** The interface [InventoryItem] shared by all pages. *)
Record InventoryItem := {
  id : string;
  name : string;
  quantity : Qc;
  price : Qc;
  avgCost : option Qc;
  category : string
}.

(** A stored inventory document: the item's fields without its id, plus the
    [lastUpdated] stamp some handlers write. *)
Record InventoryDoc := {
  d_name : string;
  d_quantity : Qc;
  d_price : Qc;
  d_avgCost : option Qc;
  d_category : string;
  d_lastUpdated : option Z
}.

(** The partial object passed to [updateDoc] on an inventory document. *)
Record InventoryPatch := {
  p_quantity : option Qc;
  p_price : option Qc;
  p_avgCost : option Qc;
  p_lastUpdated : option Z
}.

Definition patchInventory (p : InventoryPatch) (d : InventoryDoc) : InventoryDoc :=
  {| d_name := d_name d;
     d_quantity := default (d_quantity d) (p_quantity p);
     d_price := default (d_price d) (p_price p);
     d_avgCost := match p_avgCost p with Some c => Some c | None => d_avgCost d end;
     d_category := d_category d;
     d_lastUpdated := match p_lastUpdated p with Some t => Some t | None => d_lastUpdated d end |}.

(** [{ quantity: q }] *)
Definition quantityOnly (q : Qc) : InventoryPatch :=
  {| p_quantity := Some q; p_price := None; p_avgCost := None; p_lastUpdated := None |}.

(** ** The store *)

Record Firestore := {
  users : gmap string Doc;
  inventory : gmap string InventoryDoc;
  sales : gmap string Doc;
  purchases : gmap string Doc;
  adjustments : gmap string Doc
}.

(** The untyped collections, addressed by name as in [collection(db, name)]. *)
Inductive CollectionName :=
  | Users
  | Sales
  | Purchases
  | Adjustments.

Definition coll (c : CollectionName) (s : Firestore) : gmap string Doc :=
  match c with
  | Users => users s
  | Sales => sales s
  | Purchases => purchases s
  | Adjustments => adjustments s
  end.

Definition setColl (c : CollectionName) (m : gmap string Doc) (s : Firestore) : Firestore :=
  match c with
  | Users =>
      {| users := m; inventory := inventory s; sales := sales s;
         purchases := purchases s; adjustments := adjustments s |}
  | Sales =>
      {| users := users s; inventory := inventory s; sales := m;
         purchases := purchases s; adjustments := adjustments s |}
  | Purchases =>
      {| users := users s; inventory := inventory s; sales := sales s;
         purchases := m; adjustments := adjustments s |}
  | Adjustments =>
      {| users := users s; inventory := inventory s; sales := sales s;
         purchases := purchases s; adjustments := m |}
  end.

Definition setInventory (m : gmap string InventoryDoc) (s : Firestore) : Firestore :=
  {| users := users s; inventory := m; sales := sales s;
     purchases := purchases s; adjustments := adjustments s |}.

(** The identifier Firestore assigns to an added document: any identifier not
    in use; here the first unused one. *)
Definition autoId (c : gmap string Doc) : string := fresh (dom c).

(** ** Notifications and the handler monad *)

Inductive Severity :=
  | success
  | error.

Inductive Notice :=
  | Snackbar (message : string) (severity : Severity)
  | ErrorText (message : string)
  | SuccessText (message : string).

Record World := {
  db : Firestore;
  notices : list Notice
}.

(** How a piece of handler code ends: it falls through with a value, executes
    [return], or throws. *)
Inductive Flow (A : Type) :=
  | Next (a : A)
  | Return
  | Throw (message : string).
Arguments Next {A} a.
Arguments Return {A}.
Arguments Throw {A} message.

Definition Handler (A : Type) : Type := World → Flow A * World.

#[global] Instance Handler_ret : MRet Handler := λ A a w, (Next a, w).

#[global] Instance Handler_bind : MBind Handler := λ A B k m w,
  match m w with
  | (Next a, w') => k a w'
  | (Return, w') => (Return, w')
  | (Throw e, w') => (Throw e, w')
  end.

Definition return_ {A} : Handler A := λ w, (Return, w).
Definition throw {A} (e : string) : Handler A := λ w, (Throw e, w).

(** [try { body } catch (e) { handler e }] *)
Definition tryCatch (body : Handler unit) (handler : string → Handler unit) : Handler unit :=
  λ w,
    match body w with
    | (Throw e, w') => handler e w'
    | r => r
    end.

(** Running an event handler from the world [w] to the world it leaves. *)
Definition run (h : Handler unit) (w : World) : World := (h w).2.

Definition notify (n : Notice) : Handler unit :=
  λ w, (Next (), {| db := db w; notices := notices w ++ [n] |}).

Definition setSnackbar (message : string) (severity : Severity) : Handler unit :=
  notify (Snackbar message severity).

Definition setError (message : string) : Handler unit := notify (ErrorText message).

Definition setSuccess (message : string) : Handler unit := notify (SuccessText message).

Definition modifyDb (f : Firestore → Firestore) : Handler unit :=
  λ w, (Next (), {| db := f (db w); notices := notices w |}).

(** *** The Firestore client calls *)

Definition getDoc (c : CollectionName) (k : string) : Handler (option Doc) :=
  λ w, (Next (coll c (db w) !! k), w).

Definition addDoc (c : CollectionName) (fields : Doc) : Handler unit :=
  modifyDb (λ s, setColl c (<[autoId (coll c s) := fields]> (coll c s)) s).

Definition setDoc (c : CollectionName) (k : string) (fields : Doc) : Handler unit :=
  modifyDb (λ s, setColl c (<[k := fields]> (coll c s)) s).

Definition updateDoc (c : CollectionName) (k : string) (fields : Doc) : Handler unit :=
  λ w,
    match coll c (db w) !! k with
    | Some d => modifyDb (λ s, setColl c (<[k := fields ∪ d]> (coll c s)) s) w
    | None => (Throw "No document to update", w)
    end.

Definition deleteDoc (c : CollectionName) (k : string) : Handler unit :=
  modifyDb (λ s, setColl c (delete k (coll c s)) s).

Definition getInventoryDoc (k : string) : Handler (option InventoryDoc) :=
  λ w, (Next (inventory (db w) !! k), w).

Definition updateInventoryDoc (k : string) (p : InventoryPatch) : Handler unit :=
  λ w,
    match inventory (db w) !! k with
    | Some d => modifyDb (λ s, setInventory (<[k := patchInventory p d]> (inventory s)) s) w
    | None => (Throw "No document to update", w)
    end.

(** ** The Inventory page (sell, purchase and adjust dialogs) *)

Module InventoryPage.

(** [handleSell] *)
Definition handleSell (sellItem : option InventoryItem) (sellQuantity : Qc)
    (sellPrice : NumField) (customerName customerMobile uid : string) (now : Z)
    : Handler unit :=
  match sellItem with
  | Some sellItem =>
      if decide (sellQuantity ≤ 0 ∨ Number sellPrice ≤ 0) then
        setError "Please select an item and enter valid quantity and price"
      else
        tryCatch
          (let saleRecord := obj [
             ("itemId", VStr (id sellItem));
             ("name", VStr (name sellItem));
             ("quantity", VNum sellQuantity);
             ("price", VNum (Number sellPrice));
             ("total", VNum (sellQuantity * Number sellPrice));
             ("soldAt", VTime now);
             ("category", VStr (category sellItem));
             ("profit", VNum ((Number sellPrice - orZero (avgCost sellItem)) * sellQuantity));
             ("customerName", VStr customerName);
             ("customerMobile", VStr customerMobile);
             ("createdBy", VStr uid) ] in
           updateInventoryDoc (id sellItem)
             {| p_quantity := Some (quantity sellItem - sellQuantity);
                p_price := None; p_avgCost := None; p_lastUpdated := Some now |};;
           addDoc Sales saleRecord)
          (λ _, setError "Failed to sell item. Please try again.")
  | None => setError "Please select an item and enter valid quantity and price"
  end.

(** [handlePurchase].  When the listed and the purchased quantity add up to
    zero the code divides by zero and stores an infinity or NaN, for which
    the model has no value: what is stated of the stored average cost
    assumes that sum is not zero. *)
Definition handlePurchase (purchaseItem : option InventoryItem) (purchaseQuantity : Qc)
    (purchasePrice : NumField) (uid : string) (now : Z) : Handler unit :=
  match purchaseItem with
  | Some purchaseItem =>
      if decide (purchaseQuantity ≤ 0 ∨ Number purchasePrice ≤ 0) then
        setError "Please select an item and enter valid quantity and price"
      else
        tryCatch
          (let purchaseRecord := obj [
             ("itemId", VStr (id purchaseItem));
             ("name", VStr (name purchaseItem));
             ("quantity", VNum purchaseQuantity);
             ("price", VNum (Number purchasePrice));
             ("total", VNum (purchaseQuantity * Number purchasePrice));
             ("purchasedAt", VTime now);
             ("category", VStr (category purchaseItem));
             ("createdBy", VStr uid) ] in
           let currentTotalCost := orZero (avgCost purchaseItem) * quantity purchaseItem in
           let purchaseTotalCost := purchaseQuantity * Number purchasePrice in
           let newTotalQuantity := quantity purchaseItem + purchaseQuantity in
           let newAvgCost := (currentTotalCost + purchaseTotalCost) / newTotalQuantity in
           updateInventoryDoc (id purchaseItem)
             {| p_quantity := Some (quantity purchaseItem + purchaseQuantity);
                p_price := None; p_avgCost := Some newAvgCost; p_lastUpdated := Some now |};;
           addDoc Purchases purchaseRecord)
          (λ _, setError "Failed to purchase item. Please try again.")
  | None => setError "Please select an item and enter valid quantity and price"
  end.

(** [handleAdjust] *)
Definition handleAdjust (adjustItem : option InventoryItem) (adjustQuantity : NumField)
    (adjustReason adjustDate uid : string) (now : Z) : Handler unit :=
  let invalid :=
    setSnackbar "Please enter a valid non-zero quantity, reason, and date for adjustment." error in
  match adjustItem, adjustQuantity with
  | Some adjustItem, Typed _ =>
      if decide (Number adjustQuantity = 0) then invalid
      else if negb (nonEmpty adjustReason) || negb (nonEmpty adjustDate) then invalid
      else
        let quantityChange := Number adjustQuantity in
        let newQuantity := quantity adjustItem + quantityChange in
        if decide (newQuantity < 0) then
          setSnackbar "Adjustment would result in negative inventory quantity." error
        else
          tryCatch
            (updateInventoryDoc (id adjustItem) (quantityOnly newQuantity);;
             let adjustmentRecord := obj [
               ("itemId", VStr (id adjustItem));
               ("name", VStr (name adjustItem));
               ("quantity", VNum quantityChange);
               ("reason", VStr adjustReason);
               ("date", VStr adjustDate);
               ("category", VStr (category adjustItem));
               ("createdAt", VTime now);
               ("createdBy", VStr uid) ] in
             addDoc Adjustments adjustmentRecord;;
             setSnackbar "Inventory adjusted!" success)
            (λ _, setSnackbar "Error adjusting inventory!" error)
  | _, _ => invalid
  end.

(** The [disabled] attribute of the three dialog buttons. *)
Definition sellDisabled (sellItem : option InventoryItem) (sellQuantity : Qc)
    (sellPrice : NumField) : bool :=
  bool_decide (sellQuantity = 0)
  || match sellItem with
     | Some sellItem => bool_decide (orZero (Some (quantity sellItem)) < sellQuantity)
     | None => false
     end
  || match sellPrice with Blank => true | Typed _ => false end.

Definition purchaseDisabled (purchaseQuantity : Qc) (purchasePrice : NumField) : bool :=
  bool_decide (purchaseQuantity = 0)
  || match purchasePrice with Blank => true | Typed _ => false end.

Definition adjustDisabled (adjustQuantity : NumField) : bool :=
  match adjustQuantity with Blank => true | Typed _ => false end.

(** A click on the Sell, Purchase or Adjust button of a dialog: nothing
    happens while the button is disabled, otherwise its [onClick] handler
    runs. *)
Definition clickSell (sellItem : option InventoryItem) (sellQuantity : Qc)
    (sellPrice : NumField) (customerName customerMobile uid : string) (now : Z)
    : Handler unit :=
  if sellDisabled sellItem sellQuantity sellPrice then mret ()
  else handleSell sellItem sellQuantity sellPrice customerName customerMobile uid now.

Definition clickPurchase (purchaseItem : option InventoryItem) (purchaseQuantity : Qc)
    (purchasePrice : NumField) (uid : string) (now : Z) : Handler unit :=
  if purchaseDisabled purchaseQuantity purchasePrice then mret ()
  else handlePurchase purchaseItem purchaseQuantity purchasePrice uid now.

Definition clickAdjust (adjustItem : option InventoryItem) (adjustQuantity : NumField)
    (adjustReason adjustDate uid : string) (now : Z) : Handler unit :=
  if adjustDisabled adjustQuantity then mret ()
  else handleAdjust adjustItem adjustQuantity adjustReason adjustDate uid now.

End InventoryPage.

(** ** The Sales page (sale history: add, edit, delete) *)

Module SalesPage.

Record SaleRecord := {
  sale_id : string;
  sale_itemId : string;
  sale_name : string;
  sale_quantity : Qc;
  sale_price : Qc;
  sale_total : Qc;
  sale_soldAt : Z;
  sale_category : string;
  sale_profit : Qc;
  sale_customerName : option string;
  sale_customerMobile : option string
}.

Record SaleFormData := {
  f_itemId : string;
  f_name : string;
  f_quantity : Qc;
  f_price : Qc;
  f_soldAt : DateField;
  f_customerName : string;
  f_customerMobile : string
}.

(** The [errors] object built at the top of [handleSubmitSale], as the list
    of its keys with their messages. *)
Definition validationErrors (saleFormData : SaleFormData) : list (string * string) :=
  (if nonEmpty (f_itemId saleFormData) then [] else [("itemId", "Please select an item.")]) ++
  (if decide (f_quantity saleFormData ≤ 0) then [("quantity", "Quantity must be positive.")] else []) ++
  (if decide (f_price saleFormData ≤ 0) then [("price", "Sell Price must be positive.")] else []) ++
  (match validDate (f_soldAt saleFormData) with
   | Some _ => []
   | None => [("soldAt", "Please select a valid date and time.")]
   end).

Definition saleRecordToSave (selectedItem : InventoryItem) (saleFormData : SaleFormData)
    (soldAt : Z) : Doc :=
  obj [
    ("itemId", VStr (f_itemId saleFormData));
    ("name", VStr (name selectedItem));
    ("quantity", VNum (f_quantity saleFormData));
    ("price", VNum (f_price saleFormData));
    ("total", VNum (f_quantity saleFormData * f_price saleFormData));
    ("soldAt", VTime soldAt);
    ("category", VStr (category selectedItem));
    ("profit", VNum (match avgCost selectedItem with
                     | Some c => (f_price saleFormData - c) * f_quantity saleFormData
                     | None => f_quantity saleFormData * f_price saleFormData
                     end));
    ("customerName", VStr (f_customerName saleFormData));
    ("customerMobile", VStr (f_customerMobile saleFormData)) ].

(** [handleSubmitSale] *)
Definition handleSubmitSale (inventoryItems : list InventoryItem)
    (editingSale : option SaleRecord) (saleFormData : SaleFormData) : Handler unit :=
  if decide (validationErrors saleFormData ≠ []) then
    setSnackbar "Please fix the errors in the form." error
  else
    tryCatch
      (match List.find (λ item, bool_decide (id item = f_itemId saleFormData)) inventoryItems with
       | None => setSnackbar "Selected inventory item not found." error;; return_
       | Some selectedItem =>
           match validDate (f_soldAt saleFormData) with
           | None => setSnackbar "Please select a valid date and time." error;; return_
           | Some soldAt =>
               let record := saleRecordToSave selectedItem saleFormData soldAt in
               match editingSale with
               | Some editingSale =>
                   updateDoc Sales (sale_id editingSale) record;;
                   let oldQuantity := sale_quantity editingSale in
                   let newQuantity := f_quantity saleFormData in
                   let quantityDifference := oldQuantity - newQuantity in
                   inventoryDoc ← getInventoryDoc (id selectedItem);
                   match inventoryDoc with
                   | Some data =>
                       let currentInventoryQuantity := d_quantity data in
                       let updatedInventoryQuantity :=
                         currentInventoryQuantity + quantityDifference in
                       updateInventoryDoc (id selectedItem) (quantityOnly updatedInventoryQuantity)
                   | None => mret ()
                   end;;
                   setSnackbar "Sale record updated and inventory adjusted!" success
               | None =>
                   addDoc Sales record;;
                   inventoryDoc ← getInventoryDoc (id selectedItem);
                   match inventoryDoc with
                   | Some data =>
                       let currentInventoryQuantity := d_quantity data in
                       if decide (f_quantity saleFormData ≤ currentInventoryQuantity) then
                         let updatedInventoryQuantity :=
                           currentInventoryQuantity - f_quantity saleFormData in
                         updateInventoryDoc (id selectedItem) (quantityOnly updatedInventoryQuantity);;
                         setSnackbar "Sale record added and inventory updated!" success
                       else
                         setSnackbar "Sale record added, but insufficient stock in inventory!" error
                   | None =>
                       setSnackbar "Sale record added, but linked inventory item not found!" error
                   end
               end
           end
       end)
      (λ _, setSnackbar "Error saving sale record!" error).

(** [handleDeleteSale] *)
Definition handleDeleteSale (sales : list SaleRecord) (k : string) : Handler unit :=
  tryCatch
    (match List.find (λ sale, bool_decide (sale_id sale = k)) sales with
     | Some saleToDelete =>
         inventoryDoc ← getInventoryDoc (sale_itemId saleToDelete);
         match inventoryDoc with
         | Some data =>
             let currentInventoryQuantity := d_quantity data in
             let updatedInventoryQuantity :=
               currentInventoryQuantity + sale_quantity saleToDelete in
             updateInventoryDoc (sale_itemId saleToDelete) (quantityOnly updatedInventoryQuantity)
         | None => mret ()
         end
     | None => mret ()
     end;;
     deleteDoc Sales k;;
     setSnackbar "Sale record deleted!" success)
    (λ _, setSnackbar "Error deleting sale record!" error).

End SalesPage.

(** ** The Purchases page (purchase history: add, edit, delete) *)

Module PurchasesPage.

Record PurchaseRecord := {
  pur_id : string;
  pur_itemId : string;
  pur_name : string;
  pur_quantity : Qc;
  pur_price : Qc;
  pur_total : Qc;
  pur_purchasedAt : Z;
  pur_category : string
}.

Record PurchaseFormData := {
  f_itemId : string;
  f_quantity : Qc;
  f_price : Qc;
  f_purchasedAt : DateField
}.

Definition validationErrors (purchaseFormData : PurchaseFormData) : list (string * string) :=
  (if nonEmpty (f_itemId purchaseFormData) then [] else [("itemId", "Please select an item.")]) ++
  (if decide (f_quantity purchaseFormData ≤ 0) then [("quantity", "Quantity must be positive.")] else []) ++
  (if decide (f_price purchaseFormData < 0) then [("price", "Price cannot be negative.")] else []) ++
  (match validDate (f_purchasedAt purchaseFormData) with
   | Some _ => []
   | None => [("purchasedAt", "Please select a valid date and time.")]
   end).

Definition purchaseRecordToSave (selectedItem : InventoryItem)
    (purchaseFormData : PurchaseFormData) (purchasedAt : Z) : Doc :=
  obj [
    ("itemId", VStr (f_itemId purchaseFormData));
    ("name", VStr (name selectedItem));
    ("quantity", VNum (f_quantity purchaseFormData));
    ("price", VNum (f_price purchaseFormData));
    ("total", VNum (f_quantity purchaseFormData * f_price purchaseFormData));
    ("purchasedAt", VTime purchasedAt);
    ("category", VStr (category selectedItem)) ].

(** [{ quantity: q, price: p }] *)
Definition quantityAndPrice (q p : Qc) : InventoryPatch :=
  {| p_quantity := Some q; p_price := Some p; p_avgCost := None; p_lastUpdated := None |}.

(** [handleSubmitPurchase] *)
Definition handleSubmitPurchase (inventoryItems : list InventoryItem)
    (purchases : list PurchaseRecord) (editingPurchase : option PurchaseRecord)
    (purchaseFormData : PurchaseFormData) : Handler unit :=
  if decide (validationErrors purchaseFormData ≠ []) then
    setSnackbar "Please fix the errors in the form." error
  else
    tryCatch
      (match List.find (λ item, bool_decide (id item = f_itemId purchaseFormData)) inventoryItems with
       | None => setSnackbar "Selected inventory item not found." error;; return_
       | Some selectedItem =>
           match validDate (f_purchasedAt purchaseFormData) with
           | None => setSnackbar "Please select a valid date and time." error;; return_
           | Some purchasedAt =>
               let record := purchaseRecordToSave selectedItem purchaseFormData purchasedAt in
               inventoryDoc ← getInventoryDoc (id selectedItem);
               match inventoryDoc with
               | None =>
                   setSnackbar "Linked inventory item not found for update!" error;; return_
               | Some currentInventoryData =>
                   let currentInventoryQuantity := d_quantity currentInventoryData in
                   match editingPurchase with
                   | Some editingPurchase =>
                       updateDoc Purchases (pur_id editingPurchase) record;;
                       match List.find (λ pur, bool_decide (pur_id pur = pur_id editingPurchase))
                               purchases with
                       | Some originalPurchase =>
                           let oldQuantity := pur_quantity originalPurchase in
                           let newQuantity := f_quantity purchaseFormData in
                           let quantityChange := newQuantity - oldQuantity in
                           let updatedInventoryQuantity :=
                             currentInventoryQuantity + quantityChange in
                           if decide (updatedInventoryQuantity < 0) then
                             setSnackbar "Purchase edit would result in negative inventory quantity. Operation cancelled." error;;
                             return_
                           else
                             updateInventoryDoc (id selectedItem)
                               (quantityAndPrice updatedInventoryQuantity (f_price purchaseFormData));;
                             setSnackbar "Purchase record updated and inventory adjusted!" success
                       | None =>
                           setSnackbar "Error finding original purchase record for inventory update." error;;
                           return_
                       end
                   | None =>
                       addDoc Purchases record;;
                       let updatedInventoryQuantity :=
                         currentInventoryQuantity + f_quantity purchaseFormData in
                       updateInventoryDoc (id selectedItem)
                         (quantityAndPrice updatedInventoryQuantity (f_price purchaseFormData));;
                       setSnackbar "Purchase record added and inventory updated!" success
                   end
               end
           end
       end)
      (λ _, setSnackbar "Error saving purchase record!" error).

(** [handleDeletePurchase] *)
Definition handleDeletePurchase (purchases : list PurchaseRecord) (k : string) : Handler unit :=
  tryCatch
    (match List.find (λ pur, bool_decide (pur_id pur = k)) purchases with
     | Some purchaseToDelete =>
         inventoryDoc ← getInventoryDoc (pur_itemId purchaseToDelete);
         match inventoryDoc with
         | Some data =>
             let currentInventoryQuantity := d_quantity data in
             let updatedInventoryQuantity :=
               currentInventoryQuantity - pur_quantity purchaseToDelete in
             if decide (updatedInventoryQuantity < 0) then
               setSnackbar "Deleting purchase would result in negative inventory quantity. Operation cancelled." error;;
               return_
             else
               updateInventoryDoc (pur_itemId purchaseToDelete)
                 (quantityOnly updatedInventoryQuantity)
         | None =>
             setSnackbar "Linked inventory item not found for inventory update!" error
         end
     | None => mret ()
     end;;
     deleteDoc Purchases k;;
     setSnackbar "Purchase record deleted!" success)
    (λ _, setSnackbar "Error deleting purchase record!" error).

End PurchasesPage.

(** ** The Adjustments page (adjustment history: add, edit, delete) *)

Module AdjustmentsPage.

Record AdjustmentRecord := {
  adj_id : string;
  adj_itemId : string;
  adj_name : string;
  adj_quantity : Qc;
  adj_reason : string;
  adj_date : string;
  adj_category : string;
  adj_createdAt : Z
}.

Record AdjustmentFormData := {
  f_itemId : string;
  f_quantity : Qc;
  f_reason : string;
  f_date : string
}.

(** The first guard of [handleSubmitAdjustment]: every field filled in and a
    non-zero quantity. *)
Definition formComplete (adjustmentFormData : AdjustmentFormData) : bool :=
  nonEmpty (f_itemId adjustmentFormData)
  && negb (bool_decide (f_quantity adjustmentFormData = 0))
  && nonEmpty (f_reason adjustmentFormData)
  && nonEmpty (f_date adjustmentFormData).

Definition adjustmentRecordToSave (selectedItem : InventoryItem)
    (adjustmentFormData : AdjustmentFormData) (now : Z) : Doc :=
  obj [
    ("itemId", VStr (f_itemId adjustmentFormData));
    ("name", VStr (name selectedItem));
    ("quantity", VNum (f_quantity adjustmentFormData));
    ("reason", VStr (f_reason adjustmentFormData));
    ("date", VStr (f_date adjustmentFormData));
    ("category", VStr (category selectedItem));
    ("createdAt", VTime now) ].

(** [handleSubmitAdjustment] *)
Definition handleSubmitAdjustment (inventoryItems : list InventoryItem)
    (adjustments : list AdjustmentRecord) (editingAdjustment : option AdjustmentRecord)
    (adjustmentFormData : AdjustmentFormData) (now : Z) : Handler unit :=
  if negb (formComplete adjustmentFormData) then
    setSnackbar "Please fill all required fields (Item, Quantity, Reason, Date). Quantity cannot be zero." error
  else
    tryCatch
      (match List.find (λ item, bool_decide (id item = f_itemId adjustmentFormData))
               inventoryItems with
       | None => setSnackbar "Selected inventory item not found." error;; return_
       | Some selectedItem =>
           let record := adjustmentRecordToSave selectedItem adjustmentFormData now in
           match editingAdjustment with
           | Some editingAdjustment =>
               updateDoc Adjustments (adj_id editingAdjustment) record;;
               match List.find (λ adj, bool_decide (adj_id adj = adj_id editingAdjustment))
                       adjustments with
               | Some originalAdjustment =>
                   let oldQuantityChange := adj_quantity originalAdjustment in
                   let newQuantityChange := f_quantity adjustmentFormData in
                   let inventoryChange := newQuantityChange - oldQuantityChange in
                   inventoryDoc ← getInventoryDoc (id selectedItem);
                   match inventoryDoc with
                   | Some data =>
                       let currentInventoryQuantity := d_quantity data in
                       let updatedInventoryQuantity :=
                         currentInventoryQuantity + inventoryChange in
                       if decide (updatedInventoryQuantity < 0) then
                         setSnackbar "Adjustment edit would result in negative inventory quantity. Operation cancelled." error;;
                         return_
                       else
                         updateInventoryDoc (id selectedItem)
                           (quantityOnly updatedInventoryQuantity);;
                         setSnackbar "Adjustment record updated and inventory adjusted!" success
                   | None =>
                       setSnackbar "Adjustment record updated, but linked inventory item not found!" error
                   end
               | None =>
                   setSnackbar "Error finding original adjustment record for inventory update." error;;
                   return_
               end
           | None =>
               addDoc Adjustments record;;
               inventoryDoc ← getInventoryDoc (id selectedItem);
               match inventoryDoc with
               | Some data =>
                   let currentInventoryQuantity := d_quantity data in
                   let updatedInventoryQuantity :=
                     currentInventoryQuantity + f_quantity adjustmentFormData in
                   (if decide (updatedInventoryQuantity < 0) then
                      setSnackbar "Adjustment record added, but would result in negative inventory quantity!" error
                    else
                      setSnackbar "Adjustment record added and inventory updated!" success);;
                   updateInventoryDoc (id selectedItem) (quantityOnly updatedInventoryQuantity)
               | None =>
                   setSnackbar "Adjustment record added, but linked inventory item not found!" error
               end
           end
       end)
      (λ _, setSnackbar "Error saving adjustment record!" error).

(** [handleDeleteAdjustment] *)
Definition handleDeleteAdjustment (adjustments : list AdjustmentRecord) (k : string)
    : Handler unit :=
  tryCatch
    (match List.find (λ adj, bool_decide (adj_id adj = k)) adjustments with
     | Some adjustmentToDelete =>
         inventoryDoc ← getInventoryDoc (adj_itemId adjustmentToDelete);
         match inventoryDoc with
         | Some data =>
             let currentInventoryQuantity := d_quantity data in
             let updatedInventoryQuantity :=
               currentInventoryQuantity - adj_quantity adjustmentToDelete in
             if decide (updatedInventoryQuantity < 0) then
               setSnackbar "Deleting adjustment would result in negative inventory quantity. Operation cancelled." error;;
               return_
             else
               updateInventoryDoc (adj_itemId adjustmentToDelete)
                 (quantityOnly updatedInventoryQuantity)
         | None => mret ()
         end
     | None => mret ()
     end;;
     deleteDoc Adjustments k;;
     setSnackbar "Adjustment record deleted!" success)
    (λ _, setSnackbar "Error deleting adjustment record!" error).

End AdjustmentsPage.

(** ** The staff dashboard (quick sale) *)

Module StaffDashboard.

(** [handleCreateSale]; [salePrice] is the text of the price box, [None]
    when it is empty. *)
Definition handleCreateSale (selectedItem : option InventoryItem) (saleQuantity : Qc)
    (salePrice : option Qc) (uid : string) (now : Z) : Handler unit :=
  match selectedItem, salePrice with
  | Some selectedItem, Some price =>
      if decide (saleQuantity ≤ 0) then
        setError "Please select an item and enter valid quantity and price"
      else
        tryCatch
          (if decide (quantity selectedItem < saleQuantity) then
             setError "Not enough stock available";; return_
           else
             let total := saleQuantity * price in
             addDoc Sales (obj [
               ("items", VArray [VObject [
                  ("itemId", VStr (id selectedItem));
                  ("name", VStr (name selectedItem));
                  ("quantity", VNum saleQuantity);
                  ("price", VNum price) ]]);
               ("total", VNum total);
               ("date", VTime now);
               ("createdBy", VStr uid) ]);;
             updateInventoryDoc (id selectedItem)
               {| p_quantity := Some (quantity selectedItem - saleQuantity);
                  p_price := None; p_avgCost := None; p_lastUpdated := Some now |};;
             setSuccess "Sale created successfully")
          (λ _, setError "Failed to create sale")
  | _, _ => setError "Please select an item and enter valid quantity and price"
  end.

(** [handleUpdateQuantity] *)
Definition handleUpdateQuantity (itemId : string) (newQuantity : Qc) (now : Z)
    : Handler unit :=
  if decide (newQuantity < 0) then setError "Quantity cannot be negative"
  else
    tryCatch
      (updateInventoryDoc itemId
         {| p_quantity := Some newQuantity; p_price := None; p_avgCost := None;
            p_lastUpdated := Some now |};;
       setSuccess "Quantity updated successfully")
      (λ _, setError "Failed to update quantity").

End StaffDashboard.

(** ** Sign-in and the access gate *)

(** The session identity issued by the auth provider. *)
Record User := {
  user_uid : string;
  user_email : option string
}.

(** JavaScript truthiness of a field read from a document ([undefined] when
    the field is absent). *)
Definition truthy (v : option Value) : bool :=
  match v with
  | None | Some VNull => false
  | Some (VNum x) => negb (bool_decide (x = 0))
  | Some (VStr s) => nonEmpty s
  | Some _ => true
  end.

(** [v === r] for a value [v] that may be [null] and a string [r]. *)
Definition isRole (v : option Value) (r : string) : bool :=
  match v with
  | Some (VStr s) => bool_decide (s = r)
  | _ => false
  end.

(** [getUserRole] of the Firebase configuration module. *)
Definition getUserRole (userId : option string) : Handler Value :=
  match userId with
  | None => throw "User ID is required"
  | Some userId =>
      userDocSnap ← getDoc Users userId;
      match userDocSnap with
      | Some userData =>
          match userData !! "role" with
          | Some role => if truthy (Some role) then mret role else throw "User role not found"
          | None => throw "User role not found"
          end
      | None => throw "User document not found"
      end
  end.

(** ** The security rules of the users collection

    [match /users/{userId}] of the repository's rules, for a request made by
    the signed-in identity [auth] ([request.auth.uid]) against the store
    [s]. *)

Module Rules.

(** [getUserRole(userId)]: the role field of the profile of [userId];
    nothing when the profile or the field is missing. *)
Definition getUserRole (s : Firestore) (userId : string) : option Value :=
  match users s !! userId with
  | Some data => data !! "role"
  | None => None
  end.

(** [hasRole(role)] *)
Definition hasRole (s : Firestore) (auth : option string) (role : string) : bool :=
  match auth with
  | Some uid => isRole (getUserRole s uid) role
  | None => false
  end.

Inductive Access :=
  | Read
  | Create
  | Update
  | Delete.

(** The [allow] statements of the users collection. *)
Definition allow (s : Firestore) (auth : option string) (userId : string) (access : Access)
    : bool :=
  match access with
  | Read =>
      bool_decide (auth = Some userId) || hasRole s auth "admin" || hasRole s auth "staff"
  | Create => bool_decide (auth = Some userId)
  | Update | Delete => hasRole s auth "admin"
  end.
Arguments allow : simpl never.

(** The error of a request the rules deny. *)
Definition denied {A : Type} : Handler A := throw "Missing or insufficient permissions.".

(** [getDoc], [setDoc] and [updateDoc] on a profile, the request made by
    [auth].  A [setDoc] creates the document when there is none and updates
    it otherwise. *)
Definition getUserDoc (auth : option string) (userId : string) : Handler (option Doc) :=
  λ w, if allow (db w) auth userId Read then getDoc Users userId w else denied w.

Definition setUserDoc (auth : option string) (userId : string) (fields : Doc)
    : Handler unit :=
  λ w,
    let access :=
      match users (db w) !! userId with
      | Some _ => Update
      | None => Create
      end in
    if allow (db w) auth userId access then setDoc Users userId fields w else denied w.

Definition updateUserDoc (auth : option string) (userId : string) (fields : Doc)
    : Handler unit :=
  λ w, if allow (db w) auth userId Update then updateDoc Users userId fields w else denied w.

End Rules.

Module Login.

(** [signInWithEmailAndPassword]: the provider either issues an identity or
    rejects with a message. *)
Definition signInWithEmailAndPassword (provider : string → string → User + string)
    (email password : string) : Handler User :=
  match provider email password with
  | inl user => mret user
  | inr message => throw message
  end.

(** [handleSubmit]; the requests to the users collection are made by the
    identity just signed in. *)
Definition handleSubmit (provider : string → string → User + string)
    (email password : string) (now : Z) : Handler unit :=
  if negb (nonEmpty email) || negb (nonEmpty password) then
    setError "Please enter both email and password."
  else if (String.length password <? 6)%nat then
    setError "Password must be at least 6 characters."
  else
    tryCatch
      (user ← signInWithEmailAndPassword provider email password;
       let auth := Some (user_uid user) in
       userDocSnap ← Rules.getUserDoc auth (user_uid user);
       match userDocSnap with
       | None =>
           tryCatch
             (Rules.setUserDoc auth (user_uid user) (obj [
                ("uid", VStr (user_uid user));
                ("email", from_option VStr VNull (user_email user));
                ("role", VStr "staff");
                ("createdAt", VTime now) ]))
             (λ _, throw "Failed to create user profile")
       | Some userData =>
           if truthy (userData !! "role") then mret ()
           else Rules.updateUserDoc auth (user_uid user) (obj [("role", VStr "staff")])
       end;;
       updatedUserDoc ← Rules.getUserDoc auth (user_uid user);
       match updatedUserDoc with
       | Some data =>
           if truthy (data !! "role") then mret () else throw "Failed to verify user role"
       | None => throw "Failed to verify user role"
       end;;
       setSnackbar "Login successful!" success)
      (λ message,
         let errorMessage :=
           if nonEmpty message then message else "An unexpected error occurred." in
         setSnackbar errorMessage error;;
         setError errorMessage).

(** The text of the form's alert for the error state [error]:
    [error.includes('auth/') ? 'Invalid email or password' : error]. *)
Definition alertText (error : string) : string :=
  if includes "auth/" error then "Invalid email or password" else error.

End Login.

Module ProtectedRoute.

(** The component's state: the pair delivered by [useAuthState], the three
    [useState] cells, and [lookupInFlight], a ghost flag that is set while a
    call of [getUserRole] started by the effect has not settled.  Nothing
    reads the ghost flag. *)
Record State := {
  user : option User;
  loading : bool;
  userRole : option Value;
  isRoleLoading : bool;
  roleError : option string;
  lookupInFlight : bool
}.

Inductive View :=
  | Spinner
  | ErrorMessage (message : string)
  | NavigateToLogin
  | AccessDenied
  | Outlet.

(** The body of the component after its hooks: what it returns. *)
Definition render (requiredRole : option string) (s : State) : View :=
  if loading s || isRoleLoading s then Spinner
  else if nonEmpty (default "" (roleError s)) then ErrorMessage (default "" (roleError s))
  else
    match user s with
    | None => NavigateToLogin
    | Some _ =>
        match requiredRole with
        | Some required =>
            if nonEmpty required && negb (isRole (userRole s) required)
            then AccessDenied else Outlet
        | None => Outlet
        end
    end.

(** [fetchRole] up to its first [await]: run by the effect after mounting
    and after every change of [user]. *)
Definition fetchRole_start (s : State) : State :=
  match user s with
  | None =>
      {| user := user s; loading := loading s; userRole := None;
         isRoleLoading := false; roleError := roleError s; lookupInFlight := false |}
  | Some _ =>
      {| user := user s; loading := loading s; userRole := userRole s;
         isRoleLoading := isRoleLoading s; roleError := roleError s;
         lookupInFlight := true |}
  end.

(** [fetchRole] after [await getUserRole(user.uid)] has settled with a role
    or with an exception: the [try], [catch] and [finally] blocks. *)
Definition fetchRole_settle (result : option Value) (s : State) : State :=
  match result with
  | Some role =>
      {| user := user s; loading := loading s; userRole := Some role;
         isRoleLoading := false; roleError := None; lookupInFlight := false |}
  | None =>
      {| user := user s; loading := loading s; userRole := None;
         isRoleLoading := false;
         roleError := Some "Failed to verify user role. Please try logging in again.";
         lookupInFlight := false |}
  end.

(** The component as mounted, [useAuthState] returning [(user0, loading0)];
    the effect has run once. *)
Definition mount (user0 : option User) (loading0 : bool) : State :=
  fetchRole_start
    {| user := user0; loading := loading0; userRole := None; isRoleLoading := true;
       roleError := None; lookupInFlight := false |}.

Inductive Event :=
  | AuthStateChanged (u : option User)
  | RoleLookupSettled (result : option Value).

(** One event: the auth hook delivers the identity (the component renders
    again and, [user] having changed, the effect restarts [fetchRole]; the
    clean-up of the previous effect makes a lookup still in flight lose its
    result), or the lookup in flight settles. *)
Definition step (s : State) (e : Event) : State :=
  match e with
  | AuthStateChanged u =>
      fetchRole_start
        {| user := u; loading := false; userRole := userRole s;
           isRoleLoading := isRoleLoading s; roleError := roleError s;
           lookupInFlight := false |}
  | RoleLookupSettled result =>
      if lookupInFlight s then fetchRole_settle result s else s
  end.

Definition steps (s : State) (es : list Event) : State := foldl step s es.

End ProtectedRoute.

(** ** List views: the sort comparators of the history tables *)

Module ListViews.

Inductive Order :=
  | asc
  | desc.

(** [String.prototype.toLowerCase] on ASCII text. *)
Definition lowerChar (c : Ascii.ascii) : Ascii.ascii :=
  let n := Ascii.nat_of_ascii c in
  if (65 <=? n)%nat && (n <=? 90)%nat then Ascii.ascii_of_nat (n + 32) else c.

Fixpoint toLowerCase (s : string) : string :=
  match s with
  | EmptyString => EmptyString
  | String c rest => String (lowerChar c) (toLowerCase rest)
  end.

(** [v == null]: true for [undefined] (an absent field) and [null]. *)
Definition isNullish (v : option Value) : bool :=
  match v with
  | None | Some VNull => true
  | Some _ => false
  end.

(** [v instanceof Timestamp ? v.toDate().getTime() : 0] *)
Definition timeOf (v : option Value) : Z :=
  match v with
  | Some (VTime t) => t
  | _ => 0%Z
  end.

(** The comparator shared by the three history tables; [timestampColumn] is
    the column compared as a timestamp. *)
Definition comparator (timestampColumn : string) (order : Order) (orderBy : string)
    (a b : Doc) : Qc :=
  let valueA := a !! orderBy in
  let valueB := b !! orderBy in
  let ifAsc (x y : Qc) := match order with asc => x | desc => y end in
  if isNullish valueA && isNullish valueB then 0
  else if isNullish valueA then ifAsc (-1) 1
  else if isNullish valueB then ifAsc 1 (-1)
  else if bool_decide (orderBy = timestampColumn) then
    let dateA := timeOf valueA in
    let dateB := timeOf valueB in
    ifAsc (Qc_of_Z (dateA - dateB)) (Qc_of_Z (dateB - dateA))
  else
    match valueA, valueB with
    | Some (VNum x), Some (VNum y) => ifAsc (x - y) (y - x)
    | Some (VStr x), Some (VStr y) =>
        let stringA := toLowerCase x in
        let stringB := toLowerCase y in
        if String.ltb stringB stringA then ifAsc 1 (-1)
        else if String.ltb stringA stringB then ifAsc (-1) 1
        else 0
    | _, _ => 0
    end.

(** The comparators of [sortedSales], [sortedPurchases], [sortedAdjustments]. *)
Definition salesComparator := comparator "soldAt".
Definition purchasesComparator := comparator "purchasedAt".
Definition adjustmentsComparator := comparator "createdAt".

End ListViews.

(** ** Sample data

    The example scenario of the specification: an item with quantity 10 and
    average cost 5, bought at 5. *)

Module Sample.

Definition widget : InventoryItem :=
  {| id := "i1"; name := "Widget"; quantity := Qc_of_Z 10; price := Qc_of_Z 5;
     avgCost := Some (Qc_of_Z 5); category := "tools" |}.

Definition widgetDoc : InventoryDoc :=
  {| d_name := "Widget"; d_quantity := Qc_of_Z 10; d_price := Qc_of_Z 5;
     d_avgCost := Some (Qc_of_Z 5); d_category := "tools"; d_lastUpdated := None |}.

(** A purchase of 4 units at 5, as listed on the Purchases page, and its
    stored document. *)
Definition purchase : PurchasesPage.PurchaseRecord :=
  {| PurchasesPage.pur_id := "p1"; PurchasesPage.pur_itemId := "i1";
     PurchasesPage.pur_name := "Widget"; PurchasesPage.pur_quantity := Qc_of_Z 4;
     PurchasesPage.pur_price := Qc_of_Z 5; PurchasesPage.pur_total := Qc_of_Z 20;
     PurchasesPage.pur_purchasedAt := 1000%Z; PurchasesPage.pur_category := "tools" |}.

Definition purchaseDoc : Doc :=
  obj [ ("itemId", VStr "i1"); ("name", VStr "Widget"); ("quantity", VNum (Qc_of_Z 4));
        ("price", VNum (Qc_of_Z 5)); ("total", VNum (Qc_of_Z 20));
        ("purchasedAt", VTime 1000); ("category", VStr "tools") ].

(** A sale of 3 units at 12, as listed on the Sales page, and its stored
    document. *)
Definition sale : SalesPage.SaleRecord :=
  {| SalesPage.sale_id := "s1"; SalesPage.sale_itemId := "i1";
     SalesPage.sale_name := "Widget"; SalesPage.sale_quantity := Qc_of_Z 3;
     SalesPage.sale_price := Qc_of_Z 12; SalesPage.sale_total := Qc_of_Z 36;
     SalesPage.sale_soldAt := 2000%Z; SalesPage.sale_category := "tools";
     SalesPage.sale_profit := Qc_of_Z 21; SalesPage.sale_customerName := None;
     SalesPage.sale_customerMobile := None |}.

Definition saleDoc : Doc :=
  obj [ ("itemId", VStr "i1"); ("name", VStr "Widget"); ("quantity", VNum (Qc_of_Z 3));
        ("price", VNum (Qc_of_Z 12)); ("total", VNum (Qc_of_Z 36));
        ("soldAt", VTime 2000); ("category", VStr "tools");
        ("profit", VNum (Qc_of_Z 21)) ].

Definition store : Firestore :=
  {| users := ∅;
     inventory := {[ "i1" := widgetDoc ]};
     sales := {[ "s1" := saleDoc ]};
     purchases := {[ "p1" := purchaseDoc ]};
     adjustments := ∅ |}.

Definition world : World := {| db := store; notices := [] |}.

End Sample.

(** ** Reference definitions taken from the specification's wording *)

(** The profit of selling [q] units at price [p] against average cost [c]:
    [(p - c) * q], or [p * q] when the average cost is undefined. *)
Definition spec_profit (p q : Qc) (c : option Qc) : Qc :=
  match c with
  | Some c => (p - c) * q
  | None => p * q
  end.

Module SampleUsers.

(** An auth provider that accepts every credential as the identity "u1". *)
Definition provider (email password : string) : User + string :=
  inl {| user_uid := "u1"; user_email := Some email |}.

(** A profile document written without a role. *)
Definition roleless : Doc := obj [("uid", VStr "u1"); ("email", VStr "a@shop.example")].

Definition withRoleless : World :=
  {| db := setColl Users {[ "u1" := roleless ]} Sample.store; notices := [] |}.

End SampleUsers.

(** "The edit overwrites every stored field of the record": every field the
    stored record [old] had holds, in the record [new] the edit leaves, the
    value the edit saved for it. *)
Definition overwrites_every_field (old new saved : Doc) : Prop :=
  ∀ field, is_Some (old !! field) → new !! field = saved !! field.

(** The fields written by an edit on the Adjustments page. *)
Definition adjustmentFormFields : list string :=
  ["itemId"; "name"; "quantity"; "reason"; "date"; "category"; "createdAt"].

Module SampleAdjustment.

(** The store after user "u1" adjusted the widget by -2 from the Inventory
    page at time 5000. *)
Definition adjusted : World :=
  run (InventoryPage.handleAdjust (Some Sample.widget) (Typed (Qc_of_Z (-2)))
         "Correction" "2024-01-05" "u1" 5000) Sample.world.

(** That adjustment as the Adjustments page lists it. *)
Definition listed : AdjustmentsPage.AdjustmentRecord :=
  {| AdjustmentsPage.adj_id := autoId (adjustments Sample.store);
     AdjustmentsPage.adj_itemId := "i1"; AdjustmentsPage.adj_name := "Widget";
     AdjustmentsPage.adj_quantity := Qc_of_Z (-2);
     AdjustmentsPage.adj_reason := "Correction";
     AdjustmentsPage.adj_date := "2024-01-05";
     AdjustmentsPage.adj_category := "tools";
     AdjustmentsPage.adj_createdAt := 5000%Z |}.

(** The edit form: the quantity corrected to -1. *)
Definition form : AdjustmentsPage.AdjustmentFormData :=
  {| AdjustmentsPage.f_itemId := "i1"; AdjustmentsPage.f_quantity := Qc_of_Z (-1);
     AdjustmentsPage.f_reason := "Recount"; AdjustmentsPage.f_date := "2024-01-06" |}.

(** The store after the edit, made at time 9000. *)
Definition edited : World :=
  run (AdjustmentsPage.handleSubmitAdjustment [Sample.widget] [listed] (Some listed)
         form 9000) adjusted.

End SampleAdjustment.

(** "Rejected before any write": no sale record is inserted and the
    inventory is unchanged. *)
Definition rejected_before_any_write (w w' : World) : Prop :=
  sales (db w') = sales (db w) ∧ inventory (db w') = inventory (db w).

Module SampleSale.

(** A Sales-page form asking for 15 widgets at 12 when 10 are in stock. *)
Definition oversell : SalesPage.SaleFormData :=
  {| SalesPage.f_itemId := "i1"; SalesPage.f_name := "Widget";
     SalesPage.f_quantity := Qc_of_Z 15; SalesPage.f_price := Qc_of_Z 12;
     SalesPage.f_soldAt := ValidDate 2500; SalesPage.f_customerName := "";
     SalesPage.f_customerMobile := "" |}.

End SampleSale.

(** The average cost after buying [q] units at price [p] into a stock of
    [Q0] units held at average cost [c0]. *)
Definition spec_avgCost (c0 Q0 p q : Qc) : Qc := (c0 * Q0 + p * q) / (Q0 + q).

Module SamplePurchase.

(** A Purchases-page form buying 5 widgets at 7. *)
Definition form : PurchasesPage.PurchaseFormData :=
  {| PurchasesPage.f_itemId := "i1"; PurchasesPage.f_quantity := Qc_of_Z 5;
     PurchasesPage.f_price := Qc_of_Z 7; PurchasesPage.f_purchasedAt := ValidDate 2500 |}.

End SamplePurchase.

Module SampleGate.

(** A signed-in administrator. *)
Definition admin : User := {| user_uid := "u1"; user_email := Some "admin@shop.example" |}.

(** A page load with a persisted session: the gate mounts while the auth
    hook is still loading, then the hook delivers the identity. *)
Definition pageLoad : ProtectedRoute.State :=
  ProtectedRoute.steps (ProtectedRoute.mount None true)
    [ProtectedRoute.AuthStateChanged (Some admin)].

End SampleGate.

(** ** The guarded inventory mutations

    The entry points that change a stored quantity behind a check (or by a
    positive amount), each with the arguments its handler takes.  The edit
    of a sale and the addition of an adjustment on the Adjustments page are
    not among them. *)

Inductive Mutation :=
  | SellStock (sellItem : option InventoryItem) (sellQuantity : Qc) (sellPrice : NumField)
      (customerName customerMobile uid : string) (now : Z)
  | AdjustStock (adjustItem : option InventoryItem) (adjustQuantity : NumField)
      (adjustReason adjustDate uid : string) (now : Z)
  | PurchaseStock (purchaseItem : option InventoryItem) (purchaseQuantity : Qc)
      (purchasePrice : NumField) (uid : string) (now : Z)
  | AddSale (inventoryItems : list InventoryItem) (saleFormData : SalesPage.SaleFormData)
  | DeleteSale (saleList : list SalesPage.SaleRecord) (k : string)
  | SubmitPurchase (inventoryItems : list InventoryItem)
      (purchaseList : list PurchasesPage.PurchaseRecord)
      (editingPurchase : option PurchasesPage.PurchaseRecord)
      (purchaseFormData : PurchasesPage.PurchaseFormData)
  | DeletePurchase (purchaseList : list PurchasesPage.PurchaseRecord) (k : string)
  | EditAdjustment (inventoryItems : list InventoryItem)
      (adjustmentList : list AdjustmentsPage.AdjustmentRecord)
      (editingAdjustment : AdjustmentsPage.AdjustmentRecord)
      (adjustmentFormData : AdjustmentsPage.AdjustmentFormData) (now : Z)
  | DeleteAdjustment (adjustmentList : list AdjustmentsPage.AdjustmentRecord) (k : string)
  | QuickSale (selectedItem : option InventoryItem) (saleQuantity : Qc)
      (salePrice : option Qc) (uid : string) (now : Z)
  | UpdateQuantity (itemId : string) (newQuantity : Qc) (now : Z).

(** The handler a mutation runs. *)
Definition perform (m : Mutation) : Handler unit :=
  match m with
  | SellStock sellItem sellQuantity sellPrice customerName customerMobile uid now =>
      InventoryPage.clickSell sellItem sellQuantity sellPrice customerName customerMobile
        uid now
  | AdjustStock adjustItem adjustQuantity adjustReason adjustDate uid now =>
      InventoryPage.clickAdjust adjustItem adjustQuantity adjustReason adjustDate uid now
  | PurchaseStock purchaseItem purchaseQuantity purchasePrice uid now =>
      InventoryPage.clickPurchase purchaseItem purchaseQuantity purchasePrice uid now
  | AddSale inventoryItems saleFormData =>
      SalesPage.handleSubmitSale inventoryItems None saleFormData
  | DeleteSale saleList k => SalesPage.handleDeleteSale saleList k
  | SubmitPurchase inventoryItems purchaseList editingPurchase purchaseFormData =>
      PurchasesPage.handleSubmitPurchase inventoryItems purchaseList editingPurchase
        purchaseFormData
  | DeletePurchase purchaseList k => PurchasesPage.handleDeletePurchase purchaseList k
  | EditAdjustment inventoryItems adjustmentList editingAdjustment adjustmentFormData now =>
      AdjustmentsPage.handleSubmitAdjustment inventoryItems adjustmentList
        (Some editingAdjustment) adjustmentFormData now
  | DeleteAdjustment adjustmentList k => AdjustmentsPage.handleDeleteAdjustment adjustmentList k
  | QuickSale selectedItem saleQuantity salePrice uid now =>
      StaffDashboard.handleCreateSale selectedItem saleQuantity salePrice uid now
  | UpdateQuantity itemId newQuantity now =>
      StaffDashboard.handleUpdateQuantity itemId newQuantity now
  end.

(** The quantity the requested change would produce: the quantity the
    operation starts from (the stored one, or the one the page lists, as the
    handler reads it) plus the requested change.  Undefined when the item or
    the history record the request refers to cannot be found. *)
Definition requested (m : Mutation) (w : World) : option Qc :=
  match m with
  | SellStock sellItem sellQuantity _ _ _ _ _ =>
      item ← sellItem; Some (quantity item - sellQuantity)
  | AdjustStock adjustItem adjustQuantity _ _ _ _ =>
      item ← adjustItem; Some (quantity item + Number adjustQuantity)
  | PurchaseStock purchaseItem purchaseQuantity _ _ _ =>
      item ← purchaseItem; Some (quantity item + purchaseQuantity)
  | AddSale inventoryItems form =>
      item ← List.find (λ it, bool_decide (id it = SalesPage.f_itemId form)) inventoryItems;
      d ← inventory (db w) !! id item;
      Some (d_quantity d - SalesPage.f_quantity form)
  | DeleteSale saleList k =>
      sale ← List.find (λ s, bool_decide (SalesPage.sale_id s = k)) saleList;
      d ← inventory (db w) !! SalesPage.sale_itemId sale;
      Some (d_quantity d + SalesPage.sale_quantity sale)
  | SubmitPurchase inventoryItems purchaseList editingPurchase form =>
      item ← List.find (λ it, bool_decide (id it = PurchasesPage.f_itemId form))
                inventoryItems;
      d ← inventory (db w) !! id item;
      match editingPurchase with
      | Some editing =>
          original ← List.find (λ p, bool_decide (PurchasesPage.pur_id p
                                                    = PurchasesPage.pur_id editing))
                        purchaseList;
          Some (d_quantity d
                + (PurchasesPage.f_quantity form - PurchasesPage.pur_quantity original))
      | None => Some (d_quantity d + PurchasesPage.f_quantity form)
      end
  | DeletePurchase purchaseList k =>
      purchase ← List.find (λ p, bool_decide (PurchasesPage.pur_id p = k)) purchaseList;
      d ← inventory (db w) !! PurchasesPage.pur_itemId purchase;
      Some (d_quantity d - PurchasesPage.pur_quantity purchase)
  | EditAdjustment inventoryItems adjustmentList editing form _ =>
      item ← List.find (λ it, bool_decide (id it = AdjustmentsPage.f_itemId form))
                inventoryItems;
      original ← List.find (λ a, bool_decide (AdjustmentsPage.adj_id a
                                                = AdjustmentsPage.adj_id editing))
                    adjustmentList;
      d ← inventory (db w) !! id item;
      Some (d_quantity d
            + (AdjustmentsPage.f_quantity form - AdjustmentsPage.adj_quantity original))
  | DeleteAdjustment adjustmentList k =>
      adjustment ← List.find (λ a, bool_decide (AdjustmentsPage.adj_id a = k)) adjustmentList;
      d ← inventory (db w) !! AdjustmentsPage.adj_itemId adjustment;
      Some (d_quantity d - AdjustmentsPage.adj_quantity adjustment)
  | QuickSale selectedItem saleQuantity _ _ _ =>
      item ← selectedItem; Some (quantity item - saleQuantity)
  | UpdateQuantity _ newQuantity _ => Some newQuantity
  end.

(** The mutations whose check comes before their first write. *)
Definition checksBeforeWriting (m : Mutation) : bool :=
  match m with
  | SellStock _ _ _ _ _ _ _ | AdjustStock _ _ _ _ _ _ | DeletePurchase _ _
  | DeleteAdjustment _ _ | QuickSale _ _ _ _ _ | UpdateQuantity _ _ _ => true
  | _ => false
  end.

(** What the pages list is sane: a listed item has a non-negative quantity
    and a listed sale a non-negative quantity.  Only the two mutations that
    add a listed amount without checking the result depend on it. *)
Definition listedSane (m : Mutation) : Prop :=
  match m with
  | PurchaseStock (Some item) _ _ _ _ => 0 ≤ quantity item
  | DeleteSale saleList _ => Forall (λ s, 0 ≤ SalesPage.sale_quantity s) saleList
  | _ => True
  end.

(** Every stored quantity is non-negative. *)
Definition stockNonNegative (s : Firestore) : Prop :=
  ∀ k d, inventory s !! k = Some d → 0 ≤ d_quantity d.

(** What is promised of a handler [h] run from [w], asked for the quantity
    [request]: no stored quantity is negative afterwards, and if the
    requested quantity is negative the inventory is as before, the whole
    store being as before when the handler checks before writing. *)
Definition safeRun (h : Handler unit) (request : option Qc) (checksFirst : bool)
    (w : World) : Prop :=
  let w' := run h w in
  stockNonNegative (db w')
  ∧ ∀ Q', request = Some Q' → Q' < 0 →
      inventory (db w') = inventory (db w)
      ∧ (checksFirst = true → db w' = db w).

Definition safeOutcome (m : Mutation) (w : World) : Prop :=
  safeRun (perform m) (requested m w) (checksBeforeWriting m) w.

(** ** Safe integers

    [Number.isSafeInteger(x)]: on these numbers the sums and differences of
    the program's doubles are exact as long as the result is one of them. *)

Definition isSafeInteger (x : Qc) : Prop :=
  ∃ z : Z, x = Qc_of_Z z ∧ (-9007199254740991 ≤ z ≤ 9007199254740991)%Z.

(** ** Every operation on the stock

    The guarded mutations together with the two unguarded paths: the edit
    of a sale and the addition of an adjustment on the Adjustments page. *)

Inductive Operation :=
  | Guarded (m : Mutation)
  | EditSale (inventoryItems : list InventoryItem) (editingSale : SalesPage.SaleRecord)
      (saleFormData : SalesPage.SaleFormData)
  | AddAdjustment (inventoryItems : list InventoryItem)
      (adjustmentList : list AdjustmentsPage.AdjustmentRecord)
      (adjustmentFormData : AdjustmentsPage.AdjustmentFormData) (now : Z).

Definition execute (op : Operation) : Handler unit :=
  match op with
  | Guarded m => perform m
  | EditSale inventoryItems editingSale saleFormData =>
      SalesPage.handleSubmitSale inventoryItems (Some editingSale) saleFormData
  | AddAdjustment inventoryItems adjustmentList adjustmentFormData now =>
      AdjustmentsPage.handleSubmitAdjustment inventoryItems adjustmentList None
        adjustmentFormData now
  end.

(** From [s] to [s'] the users are untouched and at most one inventory
    document is patched. *)
Definition patchesOneItem (s s' : Firestore) : Prop :=
  users s' = users s
  ∧ (inventory s' = inventory s
     ∨ ∃ k d p, inventory s !! k = Some d
                ∧ inventory s' = <[k := patchInventory p d]> (inventory s)).

(** ** The gate on top of the store *)

(** What [await getUserRole(uid)] settles with against the store of [w]: the
    role, or nothing when the call throws. *)
Definition lookupRole (w : World) (userId : string) : option Value :=
  match (getUserRole (Some userId) w).1 with
  | Next role => Some role
  | _ => None
  end.

(** The view of a gate mounted with the identity [u] already known, once its
    role lookup has settled against the store of [w]. *)
Definition settledView (requiredRole : option string) (u : User) (w : World)
    : ProtectedRoute.View :=
  ProtectedRoute.render requiredRole
    (ProtectedRoute.steps (ProtectedRoute.mount (Some u) false)
       [ProtectedRoute.RoleLookupSettled (lookupRole w (user_uid u))]).


(** ** Managing users

    Both user pages write profile documents of the users collection.  The
    role of a form is one of the two entries of its select.  Account
    creation is in the hands of the identity provider, which issues an
    identity or rejects with a message.  The pages reload their list of
    users after a write; the list is display state and is left out. *)

Inductive Role :=
  | admin
  | staff.

Definition roleName (r : Role) : string :=
  match r with
  | admin => "admin"
  | staff => "staff"
  end.

(** [createUserWithEmailAndPassword]: the provider issues the identity of
    the new account or rejects with a message.  What the call does to the
    browser session is outside the store and is not modelled. *)
Definition createUserWithEmailAndPassword (provider : string → string → User + string)
    (email password : string) : Handler User :=
  match provider email password with
  | inl user => mret user
  | inr message => throw message
  end.

(** *** The User Management page *)

Module UserManagement.

Record UserRecord := {
  ur_id : string;
  ur_email : string;
  ur_role : Role
}.

(** [handleSaveRole] *)
Definition handleSaveRole (editingUser : option UserRecord) (selectedRole : Role)
    : Handler unit :=
  match editingUser with
  | Some editingUser =>
      tryCatch
        (updateDoc Users (ur_id editingUser) (obj [("role", VStr (roleName selectedRole))]);;
         setSnackbar "User role updated successfully!" success)
        (λ _, setSnackbar "Failed to update user role." error)
  | None => mret ()
  end.

(** The [disabled] attribute of the Save button of the edit dialog. *)
Definition saveDisabled (currentUserRole : option Value) : bool :=
  negb (isRole currentUserRole "admin").

(** A click on Save: nothing happens while the button is disabled. *)
Definition clickSaveRole (currentUserRole : option Value) (editingUser : option UserRecord)
    (selectedRole : Role) : Handler unit :=
  if saveDisabled currentUserRole then mret ()
  else handleSaveRole editingUser selectedRole.

(** [handleAddNewUser] *)
Definition handleAddNewUser (provider : string → string → User + string)
    (newUserEmail newUserPassword : string) (newUserRole : Role) : Handler unit :=
  tryCatch
    (user ← createUserWithEmailAndPassword provider newUserEmail newUserPassword;
     setDoc Users (user_uid user) (obj [
       ("email", VStr newUserEmail);
       ("role", VStr (roleName newUserRole)) ]);;
     setSnackbar "User added successfully!" success)
    (λ message, setSnackbar ("Failed to add user: " ++ message) error).

End UserManagement.

(** *** The Admin page *)

Module AdminPage.

(** The row a dialog was opened for, as the interface [AppUser] declares
    it; the handlers read its [id] and [email] only.  The table sorts the
    rows as the raw documents they are, see [comparator]. *)
Record AppUser := {
  au_id : string;
  au_email : string;
  au_role : Role;
  au_uid : string
}.

Record NewUserFormData := {
  nu_email : string;
  nu_password : string;
  nu_role : Role
}.

(** [handleCreateUser] *)
Definition handleCreateUser (provider : string → string → User + string)
    (newUserFormData : NewUserFormData) : Handler unit :=
  if negb (nonEmpty (nu_email newUserFormData))
     || negb (nonEmpty (nu_password newUserFormData)) then
    setSnackbar "Please fill in all fields" error
  else
    tryCatch
      (firebaseUser ← createUserWithEmailAndPassword provider
                        (nu_email newUserFormData) (nu_password newUserFormData);
       setDoc Users (user_uid firebaseUser) (obj [
         ("uid", VStr (user_uid firebaseUser));
         ("email", VStr (nu_email newUserFormData));
         ("role", VStr (roleName (nu_role newUserFormData))) ]);;
       setSnackbar "User created successfully!" success)
      (λ message, setSnackbar ("Error creating user: " ++ message) error).

(** [handleDeleteUser] *)
Definition handleDeleteUser (userToDelete : option AppUser) : Handler unit :=
  match userToDelete with
  | None => mret ()
  | Some userToDelete =>
      tryCatch
        (deleteDoc Users (au_id userToDelete);;
         setSnackbar "User deleted successfully!" success)
        (λ message, setSnackbar ("Error deleting user: " ++ message) error)
  end.

(** [handleSaveEditedRole] *)
Definition handleSaveEditedRole (userToEdit : option AppUser) (editingRole : Role)
    : Handler unit :=
  match userToEdit with
  | None => mret ()
  | Some userToEdit =>
      tryCatch
        (updateDoc Users (au_id userToEdit) (obj [("role", VStr (roleName editingRole))]);;
         setSnackbar (au_email userToEdit ++ "'s role updated to " ++ roleName editingRole ++ "!")
           success)
        (λ message, setSnackbar ("Error updating user role: " ++ message) error)
  end.

(** [x < y] on two values read from documents, as far as it is modelled:
    two strings compare by their code units; an absent field reads as
    [undefined], which converts to NaN and makes every comparison false.
    The other combinations go through the numeric conversions of the
    language and are left out. *)
Definition lessThan (x y : option Value) : option bool :=
  match x, y with
  | Some (VStr a), Some (VStr b) => Some (String.ltb a b)
  | None, None | None, Some (VStr _) | Some (VStr _), None => Some false
  | _, _ => None
  end.

(** The comparator of [sortedUsers], on the rows as they come from the
    store: [{ id: doc.id, ...doc.data() }] cast to [AppUser] without a check.
    It is defined where both comparisons are. *)
Definition comparator (order : ListViews.Order) (orderBy : string) (a b : Doc) : option Z :=
  let valueA := a !! orderBy in
  let valueB := b !! orderBy in
  match lessThan valueB valueA, lessThan valueA valueB with
  | Some true, _ =>
      Some (match order with ListViews.asc => 1 | ListViews.desc => -1 end)%Z
  | Some false, Some true =>
      Some (match order with ListViews.asc => -1 | ListViews.desc => 1 end)%Z
  | Some false, Some false => Some 0%Z
  | _, _ => None
  end.

End AdminPage.

(** ** Table headers and pages

    The five tables (inventory, sales, purchases, adjustments, users) share
    the code of their sort headers and of their pagination. *)

Module TableView.

(** The [order] and [orderBy] cells of a table, over the keys of its rows. *)
Record SortState (K : Type) := {
  order : ListViews.Order;
  orderBy : K
}.
Arguments order {K} s.
Arguments orderBy {K} s.

(** [handleRequestSort] *)
Definition handleRequestSort {K : Type} `{EqDecision K} (s : SortState K) (property : K)
    : SortState K :=
  let isAsc :=
    bool_decide (orderBy s = property)
    && match order s with ListViews.asc => true | ListViews.desc => false end in
  {| order := if isAsc then ListViews.desc else ListViews.asc; orderBy := property |}.

(** [rows.slice(start, end)] for indices [0 <= start <= end]. *)
Definition slice {A : Type} (start end_ : nat) (rows : list A) : list A :=
  take (end_ - start) (drop start rows).

(** The rows of the page shown:
    [rows.slice(page * rowsPerPage, page * rowsPerPage + rowsPerPage)]. *)
Definition visibleRows {A : Type} (page rowsPerPage : nat) (rows : list A) : list A :=
  slice (page * rowsPerPage) (page * rowsPerPage + rowsPerPage) rows.

End TableView.

(** ** The item form of the Inventory page *)

Module InventoryForm.

(** The [formData] of the add/edit dialog. *)
Record FormData := {
  form_name : string;
  form_quantity : Qc;
  form_price : Qc;
  form_category : string
}.

(** The document [addDoc(collection(db, 'inventory'), formData)] stores. *)
Definition added (formData : FormData) : InventoryDoc :=
  {| d_name := form_name formData; d_quantity := form_quantity formData;
     d_price := form_price formData; d_avgCost := None;
     d_category := form_category formData; d_lastUpdated := None |}.

(** The document [data] after [updateDoc(_, formData)]. *)
Definition updated (formData : FormData) (data : InventoryDoc) : InventoryDoc :=
  {| d_name := form_name formData; d_quantity := form_quantity formData;
     d_price := form_price formData; d_avgCost := d_avgCost data;
     d_category := form_category formData; d_lastUpdated := d_lastUpdated data |}.

(** [handleSubmit] *)
Definition handleSubmit (editingItem : option InventoryItem) (formData : FormData)
    : Handler unit :=
  tryCatch
    (match editingItem with
     | Some editingItem =>
         data ← getInventoryDoc (id editingItem);
         match data with
         | Some data =>
             modifyDb (λ s, setInventory
                              (<[id editingItem := updated formData data]> (inventory s)) s)
         | None => throw "No document to update"
         end;;
         setSnackbar "Item updated!" success
     | None =>
         modifyDb (λ s, setInventory
                          (<[fresh (dom (inventory s)) := added formData]> (inventory s)) s);;
         setSnackbar "Item added!" success
     end)
    (λ _, setSnackbar "Error occurred!" error).

(** [handleDelete] *)
Definition handleDelete (k : string) : Handler unit :=
  tryCatch
    (modifyDb (λ s, setInventory (delete k (inventory s)) s);;
     setSnackbar "Item deleted!" success)
    (λ _, setSnackbar "Error occurred!" error).

(** The row of the inventory table for the document [data] stored under
    [k]: [{ id: doc.id, ...doc.data() }]. *)
Definition row (k : string) (data : InventoryDoc) : InventoryItem :=
  {| id := k; name := d_name data; quantity := d_quantity data; price := d_price data;
     avgCost := d_avgCost data; category := d_category data |}.

End InventoryForm.

(** ** The stock counts of the dashboard *)

Module Dashboard.

(** [inventorySnapshot.docs.map(doc => doc.data())] *)
Definition items (s : Firestore) : list InventoryDoc := (map_to_list (inventory s)).*2.

(** [(item.quantity || 0)] *)
Definition quantityOf (item : InventoryDoc) : Qc := orZero (Some (d_quantity item)).

Definition count (test : Qc → bool) (items : list InventoryDoc) : nat :=
  length (List.filter (λ item, test (quantityOf item)) items).

(** The counts of [stats]. *)
Definition totalItems (items : list InventoryDoc) : nat := length items.
Definition lowStock : list InventoryDoc → nat :=
  count (λ q, bool_decide (q < Qc_of_Z 10) && bool_decide (0 < q)).
Definition outOfStock : list InventoryDoc → nat := count (λ q, bool_decide (q = 0)).

(** The "In Stock" slice of [pieData]; its other two slices are [lowStock]
    and [outOfStock]. *)
Definition pieInStock : list InventoryDoc → nat := count (λ q, bool_decide (0 < q)).

(** The "Low Stock" bar of [barData]; its other two bars are [totalItems]
    and [outOfStock]. *)
Definition barLowStock : list InventoryDoc → nat := count (λ q, bool_decide (q < Qc_of_Z 10)).

End Dashboard.
(** * Properties *)

(** ** Basic facts about the store and the handler monad *)

Lemma autoId_fresh (c : gmap string Doc) : c !! autoId c = None.
Proof. apply not_elem_of_dom. unfold autoId. apply is_fresh. Qed.

Lemma quantityOnly_quantity (x : Qc) (d : InventoryDoc) :
  d_quantity (patchInventory (quantityOnly x) d) = x.
Proof. reflexivity. Qed.

Lemma orZero_quantity (x : Qc) : orZero (Some x) = x.
Proof. simpl. by destruct (decide (x = 0)) as [-> | _]. Qed.

Lemma find_by_key {A} (key : A → string) (k : string) (l : list A) (x : A) :
  List.find (λ y, bool_decide (key y = k)) l = Some x → key x = k ∧ In x l.
Proof.
  intros H. apply List.find_some in H as [Hin Hk].
  split; [by apply bool_decide_eq_true in Hk | done].
Qed.

Lemma obj_lookup_cons (k k' : string) (v : Value) (rest : list (string * Value)) :
  obj ((k', v) :: rest) !! k = if decide (k' = k) then Some v else obj rest !! k.
Proof. unfold obj. simpl. apply lookup_insert. Qed.

Lemma updateDoc_merge (fields d : Doc) (k : string) :
  (∀ v, fields !! k = Some v → (fields ∪ d) !! k = Some v)
  ∧ (fields !! k = None → (fields ∪ d) !! k = d !! k).
Proof.
  split.
  - intros v Hv. by apply lookup_union_Some_l.
  - intros Hn. by apply lookup_union_r.
Qed.

(** Unfolding of the monad's plumbing, used by the handler proofs. *)
Ltac handler_unfold :=
  unfold run, tryCatch, mbind, Handler_bind, mret, Handler_ret, return_, throw,
    setSnackbar, setError, setSuccess, notify, getDoc, addDoc, setDoc, deleteDoc,
    getInventoryDoc, modifyDb in *.

Ltac handler_simpl := handler_unfold; simpl in *.

(** ** Deleting a purchase record *)



(** ** Editing a sale record *)

Lemma sale_form_valid (form : SalesPage.SaleFormData) :
  SalesPage.validationErrors form = [] →
  nonEmpty (SalesPage.f_itemId form) = true
  ∧ 0 < SalesPage.f_quantity form
  ∧ 0 < SalesPage.f_price form
  ∧ ∃ t, validDate (SalesPage.f_soldAt form) = Some t.
Proof.
  unfold SalesPage.validationErrors. intros H.
  destruct (nonEmpty (SalesPage.f_itemId form)); [|discriminate].
  destruct (decide (SalesPage.f_quantity form ≤ 0)) as [|Hq]; [discriminate|].
  destruct (decide (SalesPage.f_price form ≤ 0)) as [|Hp]; [discriminate|].
  destruct (validDate (SalesPage.f_soldAt form)) as [t|]; [|discriminate].
  repeat split; [by apply Qcnot_le_lt | by apply Qcnot_le_lt | by exists t].
Qed.

(** C5.  Editing an existing sale record (its document is in the sales
    collection) whose listed quantity is [q1], with a valid form asking for
    quantity [q2]: the inventory document of the item selected in the form,
    stored with quantity [Q] before the edit, is stored with quantity
    [Q + (q1 - q2)] after it, and no other inventory document changes. *)
Theorem edit_sale_adjusts_stock
    (inventoryItems : list InventoryItem) (editingSale : SalesPage.SaleRecord)
    (form : SalesPage.SaleFormData) (item : InventoryItem) (stored : Doc)
    (d : InventoryDoc) (w : World) :
  SalesPage.validationErrors form = [] →
  List.find (λ it, bool_decide (id it = SalesPage.f_itemId form)) inventoryItems = Some item →
  sales (db w) !! SalesPage.sale_id editingSale = Some stored →
  inventory (db w) !! id item = Some d →
  let q1 := SalesPage.sale_quantity editingSale in
  let q2 := SalesPage.f_quantity form in
  let w' := run (SalesPage.handleSubmitSale inventoryItems (Some editingSale) form) w in
  (∃ d', inventory (db w') !! id item = Some d'
         ∧ d_quantity d' = d_quantity d + (q1 - q2))
  ∧ ∀ other, other ≠ id item → inventory (db w') !! other = inventory (db w) !! other.
Proof.
  intros Hvalid Hfind Hsale Hdoc q1 q2 w'. subst q1 q2 w'.
  destruct (sale_form_valid form Hvalid) as (_ & _ & _ & t & Ht).
  unfold SalesPage.handleSubmitSale.
  destruct (decide (SalesPage.validationErrors form ≠ [])) as [Hne | _]; [done|].
  handler_unfold. rewrite Hfind, Ht. unfold updateDoc. simpl. rewrite Hsale. simpl.
  rewrite Hdoc. unfold updateInventoryDoc. simpl. rewrite Hdoc. simpl.
  split.
  - eexists. rewrite lookup_insert_eq. split; reflexivity.
  - intros other Hother. by rewrite lookup_insert_ne.
Qed.

Lemma edit_sale_adjusts_stock_witness :
  let form :=
    {| SalesPage.f_itemId := "i1"; SalesPage.f_name := "Widget";
       SalesPage.f_quantity := Qc_of_Z 5; SalesPage.f_price := Qc_of_Z 12;
       SalesPage.f_soldAt := ValidDate 2500; SalesPage.f_customerName := "";
       SalesPage.f_customerMobile := "" |} in
  let w' := run (SalesPage.handleSubmitSale [Sample.widget] (Some Sample.sale) form)
              Sample.world in
  (∃ d', inventory (db w') !! "i1" = Some d'
         ∧ d_quantity d' = Qc_of_Z 10 + (Qc_of_Z 3 - Qc_of_Z 5))
  ∧ ∀ other, other ≠ "i1" → inventory (db w') !! other = inventory Sample.store !! other.
Proof.
  intros form w'.
  apply (edit_sale_adjusts_stock [Sample.widget] Sample.sale form Sample.widget
           Sample.saleDoc Sample.widgetDoc Sample.world).
  - vm_compute. reflexivity.
  - reflexivity.
  - vm_compute. reflexivity.
  - vm_compute. reflexivity.
Defined.

(** ** The profit recorded with a sale *)

Lemma orZero_profit (p q : Qc) (c : option Qc) :
  (p - orZero c) * q = spec_profit p q c.
Proof.
  destruct c as [c|]; simpl.
  - destruct (decide (c = 0)) as [-> | _]; reflexivity.
  - ring.
Qed.

Lemma saleRecordToSave_profit (item : InventoryItem) (form : SalesPage.SaleFormData) (t : Z) :
  SalesPage.saleRecordToSave item form t !! "profit"
  = Some (VNum (spec_profit (SalesPage.f_price form) (SalesPage.f_quantity form) (avgCost item))).
Proof.
  unfold SalesPage.saleRecordToSave. rewrite !obj_lookup_cons. simpl.
  f_equal. f_equal. destruct (avgCost item); simpl; [reflexivity | ring].
Qed.

Lemma handleSell_record (item : InventoryItem) (q : Qc) (p : NumField)
    (customerName customerMobile uid : string) (now : Z) (d : InventoryDoc) (w : World) :
  0 < q → 0 < Number p → inventory (db w) !! id item = Some d →
  ∃ record,
    sales (db (run (InventoryPage.handleSell (Some item) q p customerName customerMobile
                      uid now) w)) !! autoId (sales (db w)) = Some record
    ∧ record !! "profit" = Some (VNum (spec_profit (Number p) q (avgCost item))).
Proof.
  intros Hq Hp Hdoc. unfold InventoryPage.handleSell.
  destruct (decide (q ≤ 0 ∨ Number p ≤ 0)) as [[H | H] | _].
  - by apply Qcle_not_lt in H.
  - by apply Qcle_not_lt in H.
  - handler_unfold. unfold updateInventoryDoc. rewrite Hdoc. simpl.
    eexists. rewrite lookup_insert_eq. split; [reflexivity|].
    rewrite !obj_lookup_cons. simpl. by rewrite orZero_profit.
Qed.

Lemma handleSubmitSale_add_record (inventoryItems : list InventoryItem)
    (form : SalesPage.SaleFormData) (item : InventoryItem) (w : World) :
  SalesPage.validationErrors form = [] →
  List.find (λ it, bool_decide (id it = SalesPage.f_itemId form)) inventoryItems = Some item →
  ∃ t, validDate (SalesPage.f_soldAt form) = Some t
       ∧ sales (db (run (SalesPage.handleSubmitSale inventoryItems None form) w))
         = <[autoId (sales (db w)) := SalesPage.saleRecordToSave item form t]> (sales (db w)).
Proof.
  intros Hvalid Hfind.
  destruct (sale_form_valid form Hvalid) as (_ & _ & _ & t & Ht).
  exists t. split; [done|].
  unfold SalesPage.handleSubmitSale.
  destruct (decide (SalesPage.validationErrors form ≠ [])) as [Hne | _]; [done|].
  handler_unfold. rewrite Hfind, Ht. simpl.
  destruct (inventory (db w) !! id item) as [d|] eqn:Hdoc; simpl; [|done].
  destruct (decide (SalesPage.f_quantity form ≤ d_quantity d)); simpl; [|done].
  unfold updateInventoryDoc. simpl. rewrite Hdoc. by simpl.
Qed.

Lemma handleSubmitSale_edit_record (inventoryItems : list InventoryItem)
    (editingSale : SalesPage.SaleRecord) (form : SalesPage.SaleFormData)
    (item : InventoryItem) (stored : Doc) (w : World) :
  SalesPage.validationErrors form = [] →
  List.find (λ it, bool_decide (id it = SalesPage.f_itemId form)) inventoryItems = Some item →
  sales (db w) !! SalesPage.sale_id editingSale = Some stored →
  ∃ t, validDate (SalesPage.f_soldAt form) = Some t
       ∧ sales (db (run (SalesPage.handleSubmitSale inventoryItems (Some editingSale) form) w))
         = <[SalesPage.sale_id editingSale := SalesPage.saleRecordToSave item form t ∪ stored]>
             (sales (db w)).
Proof.
  intros Hvalid Hfind Hsale.
  destruct (sale_form_valid form Hvalid) as (_ & _ & _ & t & Ht).
  exists t. split; [done|].
  unfold SalesPage.handleSubmitSale.
  destruct (decide (SalesPage.validationErrors form ≠ [])) as [Hne | _]; [done|].
  handler_unfold. rewrite Hfind, Ht. unfold updateDoc. simpl. rewrite Hsale. simpl.
  destruct (inventory (db w) !! id item) as [d|] eqn:Hdoc; simpl; [|done].
  unfold updateInventoryDoc. simpl. rewrite Hdoc. by simpl.
Qed.

Lemma handleCreateSale_record (item : InventoryItem) (q price : Qc) (uid : string)
    (now : Z) (d : InventoryDoc) (w : World) :
  0 < q → q ≤ quantity item → inventory (db w) !! id item = Some d →
  sales (db (run (StaffDashboard.handleCreateSale (Some item) q (Some price) uid now) w))
  = <[autoId (sales (db w))
        := obj [ ("items", VArray [VObject [ ("itemId", VStr (id item));
                                              ("name", VStr (name item));
                                              ("quantity", VNum q);
                                              ("price", VNum price) ]]);
                 ("total", VNum (q * price));
                 ("date", VTime now);
                 ("createdBy", VStr uid) ]]> (sales (db w)).
Proof.
  intros Hq Hstock Hdoc. unfold StaffDashboard.handleCreateSale.
  destruct (decide (q ≤ 0)) as [Hle|_]; [by apply Qcle_not_lt in Hle|].
  destruct (decide (quantity item < q)) as [Hlt|_]; [by apply Qcle_not_lt in Hstock|].
  handler_unfold. unfold updateInventoryDoc. simpl. rewrite Hdoc. by simpl.
Qed.

(** C4, as stated, fails for the quick sale of the staff dashboard: selling
    3 widgets (average cost 5) at 12 stores a sale record with no [profit]
    field, where the claim asks for the profit [(12 - 5) * 3 = 21].  The
    record has the shape of the dashboard's own [Sale] type, which has no
    profit. *)
Lemma quick_sale_records_no_profit :
  let w' := run (StaffDashboard.handleCreateSale (Some Sample.widget) (Qc_of_Z 3)
                   (Some (Qc_of_Z 12)) "u1" 3000) Sample.world in
  sales Sample.store !! autoId (sales Sample.store) = None
  ∧ spec_profit (Qc_of_Z 12) (Qc_of_Z 3) (avgCost Sample.widget) = Qc_of_Z 21
  ∧ ∃ record,
      sales (db w') !! autoId (sales Sample.store) = Some record
      ∧ record !! "total" = Some (VNum (Qc_of_Z 3 * Qc_of_Z 12))
      ∧ record !! "profit" = None
      ∧ record !! "profit" ≠ Some (VNum (Qc_of_Z 21)).
Proof.
  intros w'. split; [apply autoId_fresh|].
  split; [apply Qc_is_canon; vm_compute; reflexivity|].
  subst w'.
  rewrite (handleCreateSale_record Sample.widget (Qc_of_Z 3) (Qc_of_Z 12) "u1" 3000%Z
             Sample.widgetDoc Sample.world);
    [| vm_compute; reflexivity | vm_compute; discriminate | reflexivity].
  eexists. split; [apply lookup_insert_eq|].
  rewrite !obj_lookup_cons. simpl. repeat split. discriminate.
Qed.

(** C4, amended.  The profit stored with a sale of [q] units at price [p]
    against an item of average cost [c] is [(p - c) * q], and [p * q] when
    the item has no average cost ([spec_profit]), for the record inserted by
    the sell dialog of the Inventory page, for the record inserted by the
    Sales page, and for the record rewritten by an edit on the Sales page. *)
Theorem sale_profit_recorded (item : InventoryItem) (w : World) :
  (∀ q p customerName customerMobile uid now d,
     0 < q → 0 < Number p → inventory (db w) !! id item = Some d →
     ∃ record,
       sales (db (run (InventoryPage.handleSell (Some item) q p customerName customerMobile
                         uid now) w)) !! autoId (sales (db w)) = Some record
       ∧ record !! "profit" = Some (VNum (spec_profit (Number p) q (avgCost item))))
  ∧ (∀ inventoryItems form,
       SalesPage.validationErrors form = [] →
       List.find (λ it, bool_decide (id it = SalesPage.f_itemId form)) inventoryItems
         = Some item →
       ∃ record,
         sales (db (run (SalesPage.handleSubmitSale inventoryItems None form) w))
           !! autoId (sales (db w)) = Some record
         ∧ record !! "profit"
           = Some (VNum (spec_profit (SalesPage.f_price form) (SalesPage.f_quantity form)
                           (avgCost item))))
  ∧ (∀ inventoryItems editingSale form stored,
       SalesPage.validationErrors form = [] →
       List.find (λ it, bool_decide (id it = SalesPage.f_itemId form)) inventoryItems
         = Some item →
       sales (db w) !! SalesPage.sale_id editingSale = Some stored →
       ∃ record,
         sales (db (run (SalesPage.handleSubmitSale inventoryItems (Some editingSale) form) w))
           !! SalesPage.sale_id editingSale = Some record
         ∧ record !! "profit"
           = Some (VNum (spec_profit (SalesPage.f_price form) (SalesPage.f_quantity form)
                           (avgCost item)))).
Proof.
  split; [|split].
  - intros. by eapply handleSell_record.
  - intros items form Hvalid Hfind.
    destruct (handleSubmitSale_add_record items form item w Hvalid Hfind) as (t & _ & ->).
    eexists. rewrite lookup_insert_eq. split; [reflexivity|].
    apply saleRecordToSave_profit.
  - intros items editingSale form stored Hvalid Hfind Hsale.
    destruct (handleSubmitSale_edit_record items editingSale form item stored w
                Hvalid Hfind Hsale) as (t & _ & ->).
    eexists. rewrite lookup_insert_eq. split; [reflexivity|].
    apply lookup_union_Some_l, saleRecordToSave_profit.
Qed.

Lemma sale_profit_recorded_witness :
  let form :=
    {| SalesPage.f_itemId := "i1"; SalesPage.f_name := "Widget";
       SalesPage.f_quantity := Qc_of_Z 3; SalesPage.f_price := Qc_of_Z 12;
       SalesPage.f_soldAt := ValidDate 2500; SalesPage.f_customerName := "";
       SalesPage.f_customerMobile := "" |} in
  (∃ record,
     sales (db (run (InventoryPage.handleSell (Some Sample.widget) (Qc_of_Z 3)
                       (Typed (Qc_of_Z 12)) "" "" "u1" 3000) Sample.world))
       !! autoId (sales Sample.store) = Some record
     ∧ record !! "profit"
       = Some (VNum (spec_profit (Qc_of_Z 12) (Qc_of_Z 3) (Some (Qc_of_Z 5)))))
  ∧ (∃ record,
       sales (db (run (SalesPage.handleSubmitSale [Sample.widget] None form) Sample.world))
         !! autoId (sales Sample.store) = Some record
       ∧ record !! "profit"
         = Some (VNum (spec_profit (Qc_of_Z 12) (Qc_of_Z 3) (Some (Qc_of_Z 5)))))
  ∧ (∃ record,
       sales (db (run (SalesPage.handleSubmitSale [Sample.widget] (Some Sample.sale) form)
                    Sample.world)) !! "s1" = Some record
       ∧ record !! "profit"
         = Some (VNum (spec_profit (Qc_of_Z 12) (Qc_of_Z 3) (Some (Qc_of_Z 5))))).
Proof.
  intros form.
  destruct (sale_profit_recorded Sample.widget Sample.world) as (Hsell & Hadd & Hedit).
  split; [|split].
  - apply (Hsell (Qc_of_Z 3) (Typed (Qc_of_Z 12)) "" "" "u1" 3000%Z Sample.widgetDoc);
      vm_compute; reflexivity.
  - apply (Hadd [Sample.widget] form); vm_compute; reflexivity.
  - apply (Hedit [Sample.widget] Sample.sale form Sample.saleDoc); vm_compute; reflexivity.
Defined.

(** ** Null handling of the sort comparators *)

Lemma comparator_null_left (timestampColumn : string) (order : ListViews.Order)
    (orderBy : string) (a b : Doc) :
  ListViews.isNullish (a !! orderBy) = true →
  ListViews.isNullish (b !! orderBy) = false →
  ListViews.comparator timestampColumn order orderBy a b
  = match order with ListViews.asc => -1 | ListViews.desc => 1 end.
Proof. intros Ha Hb. unfold ListViews.comparator. by rewrite Ha, Hb. Qed.

Lemma comparator_null_right (timestampColumn : string) (order : ListViews.Order)
    (orderBy : string) (a b : Doc) :
  ListViews.isNullish (a !! orderBy) = false →
  ListViews.isNullish (b !! orderBy) = true →
  ListViews.comparator timestampColumn order orderBy a b
  = match order with ListViews.asc => 1 | ListViews.desc => -1 end.
Proof. intros Ha Hb. unfold ListViews.comparator. by rewrite Ha, Hb. Qed.

(** C9.  In the comparators of the sales, purchases and adjustments tables,
    when the record [a] has no value in the sort column (the field is
    absent, which reads as undefined) or has null there, and the record [b]
    holds a value [v] other than null, whatever its type, then [a] compares
    before [b] in ascending order (the comparator returns -1 with [a] on the
    left and 1 with [a] on the right) and after it in descending order (1
    and -1). *)
Theorem null_sorts_first
    (cmp : ListViews.Order → string → Doc → Doc → Qc)
    (order : ListViews.Order) (orderBy : string) (a b : Doc) (v : Value) :
  In cmp [ListViews.salesComparator; ListViews.purchasesComparator;
          ListViews.adjustmentsComparator] →
  a !! orderBy = None ∨ a !! orderBy = Some VNull →
  b !! orderBy = Some v → v ≠ VNull →
  match order with
  | ListViews.asc =>
      cmp order orderBy a b = -1 ∧ cmp order orderBy b a = 1
      ∧ cmp order orderBy a b < 0 ∧ 0 < cmp order orderBy b a
  | ListViews.desc =>
      cmp order orderBy a b = 1 ∧ cmp order orderBy b a = -1
      ∧ 0 < cmp order orderBy a b ∧ cmp order orderBy b a < 0
  end.
Proof.
  intros Hcmp Ha Hb Hv.
  assert (∃ column, cmp = ListViews.comparator column) as [column ->].
  { simpl in Hcmp. destruct Hcmp as [<- | [<- | [<- | []]]]; eexists; reflexivity. }
  assert (ListViews.isNullish (a !! orderBy) = true) as Hna
    by (by destruct Ha as [-> | ->]).
  assert (ListViews.isNullish (b !! orderBy) = false) as Hnb
    by (rewrite Hb; by destruct v).
  rewrite (comparator_null_left column order orderBy a b Hna Hnb).
  rewrite (comparator_null_right column order orderBy b a Hnb Hna).
  destruct order; repeat split.
Qed.

Lemma null_sorts_first_witness :
  let absent : Doc := obj [("name", VStr "Widget")] in
  let null : Doc := obj [("name", VStr "Widget"); ("soldAt", VNull)] in
  let b : Doc := obj [("name", VStr "Gadget"); ("soldAt", VTime 2000)] in
  (ListViews.salesComparator ListViews.asc "soldAt" absent b = -1
   ∧ ListViews.salesComparator ListViews.asc "soldAt" b absent = 1)
  ∧ (ListViews.salesComparator ListViews.desc "soldAt" null b = 1
     ∧ ListViews.salesComparator ListViews.desc "soldAt" b null = -1).
Proof.
  intros absent null b. split.
  - destruct (null_sorts_first ListViews.salesComparator ListViews.asc "soldAt" absent b
                (VTime 2000)) as (Hleft & Hright & _).
    + simpl. left. reflexivity.
    + left. reflexivity.
    + reflexivity.
    + discriminate.
    + split; [exact Hleft | exact Hright].
  - destruct (null_sorts_first ListViews.salesComparator ListViews.desc "soldAt" null b
                (VTime 2000)) as (Hleft & Hright & _).
    + simpl. left. reflexivity.
    + right. reflexivity.
    + reflexivity.
    + discriminate.
    + split; [exact Hleft | exact Hright].
Defined.

(** ** Sign-in: the profile document *)

Lemma own_profile_readable (s : Firestore) (uid : string) :
  Rules.allow s (Some uid) uid Rules.Read = true.
Proof. unfold Rules.allow. by rewrite (bool_decide_eq_true_2 _ (eq_refl (Some uid))). Qed.

Lemma own_profile_creatable (s : Firestore) (uid : string) :
  Rules.allow s (Some uid) uid Rules.Create = true.
Proof. unfold Rules.allow. by rewrite (bool_decide_eq_true_2 _ (eq_refl (Some uid))). Qed.

Lemma role_patch_denied (s : Firestore) (uid : string) (d : Doc) :
  users s !! uid = Some d → truthy (d !! "role") = false →
  Rules.allow s (Some uid) uid Rules.Update = false.
Proof.
  intros Hdoc Hrole. unfold Rules.allow, Rules.hasRole, Rules.getUserRole. rewrite Hdoc.
  destruct (d !! "role") as [[| |role| | |]|]; try done.
  simpl in Hrole. apply bool_decide_eq_false_2. intros ->. discriminate.
Qed.

(** What an accepted sign-in leaves, by the profile it finds: a new profile
    with the role "staff" when there was none; nothing new when the profile
    has a role; and, when the profile has no role, the store as it was and
    the error of the denied role update. *)
Lemma handleSubmit_accepted (provider : string → string → User + string)
    (email password : string) (now : Z) (user : User) (w : World) :
  nonEmpty email = true → nonEmpty password = true → (6 ≤ String.length password)%nat →
  provider email password = inl user →
  run (Login.handleSubmit provider email password now) w
  = match users (db w) !! user_uid user with
    | None =>
        {| db := setColl Users
                   (<[user_uid user
                        := obj [ ("uid", VStr (user_uid user));
                                 ("email", from_option VStr VNull (user_email user));
                                 ("role", VStr "staff"); ("createdAt", VTime now) ]]>
                      (users (db w))) (db w);
           notices := notices w ++ [Snackbar "Login successful!" success] |}
    | Some d =>
        if truthy (d !! "role") then
          {| db := db w; notices := notices w ++ [Snackbar "Login successful!" success] |}
        else
          {| db := db w;
             notices := notices w
                        ++ [Snackbar "Missing or insufficient permissions." error;
                            ErrorText "Missing or insufficient permissions."] |}
    end.
Proof.
  intros Hemail Hpassword Hlen Hprovider.
  unfold Login.handleSubmit. rewrite Hemail, Hpassword. simpl.
  apply Nat.ltb_ge in Hlen. rewrite Hlen.
  unfold Login.signInWithEmailAndPassword. rewrite Hprovider.
  unfold Rules.getUserDoc, Rules.setUserDoc, Rules.updateUserDoc, Rules.denied.
  handler_unfold. cbv beta. rewrite !own_profile_readable. simpl.
  destruct (users (db w) !! user_uid user) as [d|] eqn:Hdoc.
  - destruct (truthy (d !! "role")) eqn:Hrole.
    + simpl. rewrite own_profile_readable. simpl. rewrite Hdoc, Hrole. by simpl.
    + rewrite (role_patch_denied (db w) (user_uid user) d Hdoc Hrole). simpl.
      by rewrite <- app_assoc.
  - rewrite Hdoc. rewrite own_profile_creatable. simpl.
    rewrite own_profile_readable. simpl.
    rewrite lookup_insert_eq, !obj_lookup_cons. simpl. by destruct (db w).
Qed.

(** C7.  A sign-in that passes the form checks and is accepted by the auth
    provider as [user].  If the users collection has no document for
    [user], the collection afterwards is the old one with exactly one
    document added, under the user's id, and its role is "staff".  If the
    document exists without a role, the handler asks for the update
    [{role: "staff"}], the rules of the users collection deny it (an update
    needs the caller's own role to be "admin"), and the handler ends in its
    [catch]: the whole store, that profile included, is as it was and the
    permission error is shown.  The other collections are untouched in both
    cases. *)
Theorem sign_in_role_patch_denied
    (provider : string → string → User + string) (email password : string) (now : Z)
    (user : User) (w : World) :
  nonEmpty email = true →
  nonEmpty password = true →
  asciiOnly password = true →
  (6 ≤ String.length password)%nat →
  provider email password = inl user →
  let w' := run (Login.handleSubmit provider email password now) w in
  (users (db w) !! user_uid user = None →
     ∃ created,
       users (db w') = <[user_uid user := created]> (users (db w))
       ∧ size (users (db w')) = S (size (users (db w)))
       ∧ created !! "role" = Some (VStr "staff"))
  ∧ (∀ d, users (db w) !! user_uid user = Some d → truthy (d !! "role") = false →
       Rules.allow (db w) (Some (user_uid user)) (user_uid user) Rules.Update = false
       ∧ db w' = db w
       ∧ users (db w') !! user_uid user = Some d
       ∧ notices w'
         = notices w ++ [Snackbar "Missing or insufficient permissions." error;
                         ErrorText "Missing or insufficient permissions."])
  ∧ inventory (db w') = inventory (db w)
  ∧ sales (db w') = sales (db w)
  ∧ purchases (db w') = purchases (db w)
  ∧ adjustments (db w') = adjustments (db w).
Proof.
  intros Hemail Hpassword _ Hlen Hprovider w'. subst w'.
  rewrite (handleSubmit_accepted provider email password now user w
             Hemail Hpassword Hlen Hprovider).
  destruct (users (db w) !! user_uid user) as [d|] eqn:Hdoc.
  - split; [done|]. split.
    + intros d0 Hd0 Hrole. injection Hd0 as <-. rewrite Hrole. simpl.
      split; [by apply (role_patch_denied (db w) (user_uid user) d)|].
      by rewrite Hdoc.
    + by destruct (truthy (d !! "role")).
  - simpl. split; [|done]. intros _. eexists. split; [reflexivity|].
    split; [by apply map_size_insert_None|].
    by rewrite !obj_lookup_cons.
Qed.

Lemma sign_in_role_patch_denied_witness :
  let w' := run (Login.handleSubmit SampleUsers.provider "a@shop.example" "secret" 4000)
              SampleUsers.withRoleless in
  SampleUsers.roleless !! "role" = None
  ∧ db w' = db SampleUsers.withRoleless
  ∧ users (db w') !! "u1" = Some SampleUsers.roleless
  ∧ notices w' = [Snackbar "Missing or insufficient permissions." error;
                  ErrorText "Missing or insufficient permissions."].
Proof.
  intros w'. split; [reflexivity|].
  destruct (sign_in_role_patch_denied SampleUsers.provider "a@shop.example" "secret" 4000%Z
              {| user_uid := "u1"; user_email := Some "a@shop.example" |}
              SampleUsers.withRoleless)
    as (_ & Hroleless & _); [reflexivity | reflexivity | reflexivity | simpl; lia | reflexivity |].
  destruct (Hroleless SampleUsers.roleless) as (_ & Hdb & Hprofile & Hnotices);
    [reflexivity | reflexivity |].
  split; [exact Hdb|]. split; [exact Hprofile | exact Hnotices].
Defined.

(** ** Editing an adjustment record *)

(** C10, as stated, fails: an adjustment made from the Inventory page stores
    [createdBy]; an edit from the Adjustments page saves no such field, and
    the stored [createdBy] survives the edit (while [createdAt] moves from
    5000 to the time of the edit, 9000). *)
Lemma edit_adjustment_keeps_createdBy :
  ∃ old new,
    adjustments (db SampleAdjustment.adjusted) !! "0" = Some old
    ∧ adjustments (db SampleAdjustment.edited) !! "0" = Some new
    ∧ old !! "createdAt" = Some (VTime 5000)
    ∧ new !! "createdAt" = Some (VTime 9000)
    ∧ new !! "createdBy" = Some (VStr "u1")
    ∧ ¬ overwrites_every_field old new
          (AdjustmentsPage.adjustmentRecordToSave Sample.widget SampleAdjustment.form 9000).
Proof.
  eexists. eexists.
  split; [vm_compute; reflexivity|].
  split; [vm_compute; reflexivity|].
  split; [vm_compute; reflexivity|].
  split; [vm_compute; reflexivity|].
  split; [vm_compute; reflexivity|].
  intros H. specialize (H "createdBy").
  vm_compute in H. discriminate H. by eexists.
Qed.

Lemma adjustment_edit_stored (inventoryItems : list InventoryItem)
    (adjustmentList : list AdjustmentsPage.AdjustmentRecord)
    (editing : AdjustmentsPage.AdjustmentRecord) (form : AdjustmentsPage.AdjustmentFormData)
    (now : Z) (item : InventoryItem) (old : Doc) (w : World) :
  AdjustmentsPage.formComplete form = true →
  List.find (λ it, bool_decide (id it = AdjustmentsPage.f_itemId form)) inventoryItems
    = Some item →
  adjustments (db w) !! AdjustmentsPage.adj_id editing = Some old →
  adjustments (db (run (AdjustmentsPage.handleSubmitAdjustment inventoryItems adjustmentList
                          (Some editing) form now) w))
  = <[AdjustmentsPage.adj_id editing
        := AdjustmentsPage.adjustmentRecordToSave item form now ∪ old]> (adjustments (db w)).
Proof.
  intros Hform Hfind Hold. unfold AdjustmentsPage.handleSubmitAdjustment.
  rewrite Hform. simpl. handler_unfold. rewrite Hfind. unfold updateDoc. simpl.
  rewrite Hold. simpl.
  destruct (List.find _ adjustmentList) as [original|]; simpl; [|done].
  destruct (inventory (db w) !! id item) as [d|] eqn:Hdoc; simpl; [|done].
  destruct (decide (d_quantity d
                    + (AdjustmentsPage.f_quantity form - AdjustmentsPage.adj_quantity original)
                    < 0)); simpl; [done|].
  unfold updateInventoryDoc. simpl. rewrite Hdoc. by simpl.
Qed.

(** C10, amended.  An edit on the Adjustments page (complete form, item in
    the page's list, record present in the store) rewrites the seven fields
    itemId, name, quantity, reason, date, category and createdAt of the
    stored record; createdAt becomes the time of the edit, so the original
    creation time is lost.  Every other stored field, createdBy among them,
    keeps its value. *)
Theorem edit_adjustment_rewrites_form_fields (inventoryItems : list InventoryItem)
    (adjustmentList : list AdjustmentsPage.AdjustmentRecord)
    (editing : AdjustmentsPage.AdjustmentRecord) (form : AdjustmentsPage.AdjustmentFormData)
    (now : Z) (item : InventoryItem) (old : Doc) (w : World) :
  AdjustmentsPage.formComplete form = true →
  List.find (λ it, bool_decide (id it = AdjustmentsPage.f_itemId form)) inventoryItems
    = Some item →
  adjustments (db w) !! AdjustmentsPage.adj_id editing = Some old →
  let w' := run (AdjustmentsPage.handleSubmitAdjustment inventoryItems adjustmentList
                   (Some editing) form now) w in
  ∃ new,
    adjustments (db w') !! AdjustmentsPage.adj_id editing = Some new
    ∧ new !! "itemId" = Some (VStr (AdjustmentsPage.f_itemId form))
    ∧ new !! "name" = Some (VStr (name item))
    ∧ new !! "quantity" = Some (VNum (AdjustmentsPage.f_quantity form))
    ∧ new !! "reason" = Some (VStr (AdjustmentsPage.f_reason form))
    ∧ new !! "date" = Some (VStr (AdjustmentsPage.f_date form))
    ∧ new !! "category" = Some (VStr (category item))
    ∧ new !! "createdAt" = Some (VTime now)
    ∧ ∀ field, field ∉ adjustmentFormFields → new !! field = old !! field.
Proof.
  intros Hform Hfind Hold w'. subst w'.
  rewrite (adjustment_edit_stored _ _ _ _ now item old w Hform Hfind Hold).
  eexists. split; [apply lookup_insert_eq|].
  unfold AdjustmentsPage.adjustmentRecordToSave.
  repeat (split; [apply lookup_union_Some_l; rewrite !obj_lookup_cons; reflexivity|]).
  intros field Hfield. apply lookup_union_r.
  unfold adjustmentFormFields in Hfield.
  rewrite !obj_lookup_cons.
  repeat (case_decide; [subst field; exfalso; apply Hfield; set_solver|]).
  reflexivity.
Qed.

Lemma edit_adjustment_rewrites_form_fields_witness :
  ∃ new,
    adjustments (db SampleAdjustment.edited) !! "0" = Some new
    ∧ new !! "quantity" = Some (VNum (Qc_of_Z (-1)))
    ∧ new !! "createdAt" = Some (VTime 9000)
    ∧ new !! "createdBy" = Some (VStr "u1").
Proof.
  destruct (edit_adjustment_rewrites_form_fields [Sample.widget] [SampleAdjustment.listed]
              SampleAdjustment.listed SampleAdjustment.form 9000%Z Sample.widget
              (obj [ ("itemId", VStr "i1"); ("name", VStr "Widget");
                     ("quantity", VNum (Qc_of_Z (-2))); ("reason", VStr "Correction");
                     ("date", VStr "2024-01-05"); ("category", VStr "tools");
                     ("createdAt", VTime 5000); ("createdBy", VStr "u1") ])
              SampleAdjustment.adjusted)
    as (new & Hnew & _ & _ & Hq & _ & _ & _ & Hat & Hrest);
    [reflexivity | reflexivity | vm_compute; reflexivity |].
  exists new. split; [exact Hnew|]. split; [exact Hq|]. split; [exact Hat|].
  rewrite Hrest; [reflexivity|]. unfold adjustmentFormFields.
  rewrite !not_elem_of_cons. repeat split; try discriminate. apply not_elem_of_nil.
Defined.

(** ** Selling more than the stock *)

(** C2, as stated, fails: on the Sales page a sale of 15 units against a
    stock of 10 passes the form checks; the sale record is inserted first
    and only the inventory write is withheld. *)
Lemma oversold_sale_is_recorded :
  let w' := run (SalesPage.handleSubmitSale [Sample.widget] None SampleSale.oversell)
              Sample.world in
  (∃ d, inventory Sample.store !! "i1" = Some d
        ∧ d_quantity d < SalesPage.f_quantity SampleSale.oversell)
  ∧ sales Sample.store !! "0" = None
  ∧ sales (db w') !! "0"
    = Some (SalesPage.saleRecordToSave Sample.widget SampleSale.oversell 2500)
  ∧ inventory (db w') = inventory Sample.store
  ∧ ¬ rejected_before_any_write Sample.world w'.
Proof.
  intros w'.
  assert (sales (db w') !! "0"
          = Some (SalesPage.saleRecordToSave Sample.widget SampleSale.oversell 2500)) as Hrec
    by (vm_compute; reflexivity).
  split; [eexists; split; vm_compute; reflexivity|].
  split; [vm_compute; reflexivity|].
  split; [exact Hrec|].
  split; [vm_compute; reflexivity|].
  intros [Hsales _]. rewrite Hsales in Hrec. vm_compute in Hrec. discriminate Hrec.
Qed.

(** C2, amended.  When the requested quantity exceeds the stock the
    operation reads: the sell dialog of the Inventory page (its button is
    disabled) and the quick sale of the staff dashboard write nothing at
    all; the Sales page's add path leaves the inventory unchanged and
    inserts the sale record. *)
Theorem oversell_leaves_stock_unchanged (item : InventoryItem) (w : World) :
  (∀ sellQuantity sellPrice customerName customerMobile uid now,
     quantity item < sellQuantity →
     db (run (InventoryPage.clickSell (Some item) sellQuantity sellPrice customerName
                customerMobile uid now) w)
     = db w)
  ∧ (∀ saleQuantity salePrice uid now,
     quantity item < saleQuantity →
     db (run (StaffDashboard.handleCreateSale (Some item) saleQuantity salePrice uid now) w)
     = db w)
  ∧ (∀ inventoryItems form d,
       SalesPage.validationErrors form = [] →
       List.find (λ it, bool_decide (id it = SalesPage.f_itemId form)) inventoryItems
         = Some item →
       inventory (db w) !! id item = Some d →
       d_quantity d < SalesPage.f_quantity form →
       let w' := run (SalesPage.handleSubmitSale inventoryItems None form) w in
       inventory (db w') = inventory (db w)
       ∧ ∃ t, validDate (SalesPage.f_soldAt form) = Some t
              ∧ sales (db w')
                = <[autoId (sales (db w)) := SalesPage.saleRecordToSave item form t]>
                    (sales (db w))).
Proof.
  split; [|split].
  - intros sellQuantity sellPrice customerName customerMobile uid now Hshort.
    unfold InventoryPage.clickSell, InventoryPage.sellDisabled.
    rewrite orZero_quantity, (bool_decide_eq_true_2 _ Hshort).
    by rewrite orb_true_r.
  - intros saleQuantity salePrice uid now Hshort.
    unfold StaffDashboard.handleCreateSale.
    destruct salePrice as [salePrice|]; [|done].
    destruct (decide (saleQuantity ≤ 0)); [done|].
    handler_unfold.
    destruct (decide (quantity item < saleQuantity)); [done|]. done.
  - intros inventoryItems form d Hvalid Hfind Hdoc Hshort w'. subst w'.
    split.
    + destruct (sale_form_valid form Hvalid) as (_ & _ & _ & t & Ht).
      unfold SalesPage.handleSubmitSale.
      destruct (decide (SalesPage.validationErrors form ≠ [])) as [Hne | _]; [done|].
      handler_unfold. rewrite Hfind, Ht. simpl. rewrite Hdoc.
      destruct (decide (SalesPage.f_quantity form ≤ d_quantity d)) as [Hle | _]; [|done].
      by apply Qcle_not_lt in Hle.
    + apply handleSubmitSale_add_record; done.
Qed.

Lemma oversell_leaves_stock_unchanged_witness :
  db (run (InventoryPage.clickSell (Some Sample.widget) (Qc_of_Z 15) (Typed (Qc_of_Z 12))
             "" "" "u1" 3000) Sample.world) = Sample.store
  ∧ db (run (StaffDashboard.handleCreateSale (Some Sample.widget) (Qc_of_Z 15)
             (Some (Qc_of_Z 12)) "u1" 3000) Sample.world) = Sample.store
  ∧ inventory (db (run (SalesPage.handleSubmitSale [Sample.widget] None SampleSale.oversell)
                     Sample.world)) = inventory Sample.store.
Proof.
  destruct (oversell_leaves_stock_unchanged Sample.widget Sample.world)
    as (Hsell & Hquick & Hadd).
  split; [|split].
  - apply Hsell. vm_compute. reflexivity.
  - apply Hquick. vm_compute. reflexivity.
  - apply (Hadd [Sample.widget] SampleSale.oversell Sample.widgetDoc);
      vm_compute; reflexivity.
Defined.

(** ** Purchases: quantity, price and average cost *)

(** The purchase dialog of the Inventory page stores the weighted average
    cost of the specification, computed from the item as the page lists it;
    buying into an empty stock gives the purchase price. *)
Lemma handlePurchase_blend (item : InventoryItem) (q : Qc) (p : NumField) (uid : string)
    (now : Z) (d : InventoryDoc) (w : World) :
  0 < q → 0 < Number p → inventory (db w) !! id item = Some d →
  ∃ d', inventory (db (run (InventoryPage.handlePurchase (Some item) q p uid now) w))
          !! id item = Some d'
        ∧ d_quantity d' = quantity item + q
        ∧ d_avgCost d' = Some (spec_avgCost (orZero (avgCost item)) (quantity item)
                                 (Number p) q)
        ∧ d_price d' = d_price d.
Proof.
  intros Hq Hp Hdoc. unfold InventoryPage.handlePurchase.
  destruct (decide (q ≤ 0 ∨ Number p ≤ 0)) as [[H | H] | _].
  - by apply Qcle_not_lt in H.
  - by apply Qcle_not_lt in H.
  - handler_unfold. unfold updateInventoryDoc. rewrite Hdoc. simpl.
    eexists. rewrite lookup_insert_eq. split; [reflexivity|]. simpl.
    split; [done|]. split; [|done].
    unfold spec_avgCost. by rewrite (Qcmult_comm q).
Qed.

Lemma spec_avgCost_empty_stock (c0 p q : Qc) : q ≠ 0 → spec_avgCost c0 0 p q = p.
Proof. intros Hq. unfold spec_avgCost. field. done. Qed.

(** C3 fails on the code at the specification's own example (stock 10 at
    average cost 5 and price 5; 5 units bought at 7; the specified average
    cost is 17/3).  The Purchases page raises the quantity to 15 and the
    price to 7 and leaves the average cost at 5.  The purchase dialog of the
    Inventory page raises the quantity to 15 and the average cost to 17/3 and
    leaves the price at 5. *)
Theorem purchase_updates_only_one_of_price_and_avgCost :
  spec_avgCost (Qc_of_Z 5) (Qc_of_Z 10) (Qc_of_Z 7) (Qc_of_Z 5) = Q2Qc (17 # 3)
  ∧ (∃ d, inventory (db (run (PurchasesPage.handleSubmitPurchase [Sample.widget]
                                [Sample.purchase] None SamplePurchase.form) Sample.world))
            !! "i1" = Some d
          ∧ d_quantity d = Qc_of_Z 15
          ∧ d_price d = Qc_of_Z 7
          ∧ d_avgCost d = Some (Qc_of_Z 5))
  ∧ (∃ d, inventory (db (run (InventoryPage.clickPurchase (Some Sample.widget) (Qc_of_Z 5)
                                (Typed (Qc_of_Z 7)) "u1" 3000) Sample.world))
            !! "i1" = Some d
          ∧ d_quantity d = Qc_of_Z 15
          ∧ d_price d = Qc_of_Z 5
          ∧ d_avgCost d = Some (Q2Qc (17 # 3))).
Proof.
  split; [apply Qc_is_canon; vm_compute; reflexivity|].
  split.
  - eexists. split; [vm_compute; reflexivity|]. simpl.
    split; [apply Qc_is_canon; vm_compute; reflexivity|].
    split; [apply Qc_is_canon; vm_compute; reflexivity|].
    reflexivity.
  - eexists. split; [vm_compute; reflexivity|]. simpl.
    split; [apply Qc_is_canon; vm_compute; reflexivity|].
    split; [apply Qc_is_canon; vm_compute; reflexivity|].
    f_equal. apply Qc_is_canon. vm_compute. reflexivity.
Qed.

(** ** The access gate *)

(** The role lookup settles with the stored role when the profile document
    carries one, and throws when the document or its role is missing. *)
Lemma getUserRole_found (userId role : string) (d : Doc) (w : World) :
  users (db w) !! userId = Some d → d !! "role" = Some (VStr role) → nonEmpty role = true →
  getUserRole (Some userId) w = (Next (VStr role), w).
Proof.
  intros Hdoc Hrole Hne. unfold getUserRole. handler_unfold. simpl.
  by rewrite Hdoc, Hrole, Hne.
Qed.

Lemma getUserRole_missing (userId : string) (w : World) :
  users (db w) !! userId = None →
  getUserRole (Some userId) w = (Throw "User document not found", w).
Proof. intros Hdoc. unfold getUserRole. handler_unfold. simpl. by rewrite Hdoc. Qed.

(** Once identity and role are loaded without error, a staff identity is
    refused a route that requires "admin". *)
Lemma gate_denies_staff (s : ProtectedRoute.State) (u : User) :
  ProtectedRoute.loading s = false →
  ProtectedRoute.isRoleLoading s = false →
  ProtectedRoute.roleError s = None →
  ProtectedRoute.user s = Some u →
  ProtectedRoute.userRole s = Some (VStr "staff") →
  ProtectedRoute.render (Some "admin") s = ProtectedRoute.AccessDenied.
Proof.
  intros Hl Hr He Hu Hrole. unfold ProtectedRoute.render.
  by rewrite Hl, Hr, He, Hu, Hrole.
Qed.

(** Without a session identity, once the auth hook has answered and no error
    is displayed, the gate redirects to the login view. *)
Lemma gate_redirects_without_session (requiredRole : option string)
    (s : ProtectedRoute.State) :
  ProtectedRoute.loading s = false →
  ProtectedRoute.isRoleLoading s = false →
  ProtectedRoute.roleError s = None →
  ProtectedRoute.user s = None →
  ProtectedRoute.render requiredRole s = ProtectedRoute.NavigateToLogin.
Proof.
  intros Hl Hr He Hu. unfold ProtectedRoute.render. by rewrite Hl, Hr, He, Hu.
Qed.

(** While the auth hook is loading the gate shows the spinner, and a gate
    mounted with the identity already known shows the spinner until the role
    lookup settles. *)
Lemma gate_spinner (requiredRole : option string) (s : ProtectedRoute.State) :
  ProtectedRoute.loading s = true ∨ ProtectedRoute.isRoleLoading s = true →
  ProtectedRoute.render requiredRole s = ProtectedRoute.Spinner.
Proof.
  intros [H | H]; unfold ProtectedRoute.render; rewrite H; [done|].
  by destruct (ProtectedRoute.loading s).
Qed.

Lemma gate_mounted_with_identity (requiredRole : option string) (u : User) :
  ProtectedRoute.lookupInFlight (ProtectedRoute.mount (Some u) false) = true
  ∧ ProtectedRoute.render requiredRole (ProtectedRoute.mount (Some u) false)
    = ProtectedRoute.Spinner.
Proof. split; reflexivity. Qed.

(** An error left by a failed role lookup is not cleared when the session
    ends: the gate then shows the error message instead of redirecting. *)
Lemma gate_error_outlives_session (requiredRole : option string) (u : User) :
  let s := ProtectedRoute.steps (ProtectedRoute.mount (Some u) false)
             [ProtectedRoute.RoleLookupSettled None; ProtectedRoute.AuthStateChanged None] in
  ProtectedRoute.user s = None
  ∧ ProtectedRoute.render requiredRole s
    = ProtectedRoute.ErrorMessage "Failed to verify user role. Please try logging in again.".
Proof. split; reflexivity. Qed.

(** C8 fails on the code in its third part.  The gate is mounted while the
    auth hook is still loading (a page load with a persisted session); the
    effect runs with no user and clears [isRoleLoading].  When the hook then
    delivers the identity of an administrator, the role lookup starts and,
    while it is in flight, the gate renders the access-denied message on a
    route requiring "admin" and the protected content on a route with no
    required role; the spinner is not shown.  When the lookup settles with
    "admin" the same gate renders the content, so the refusal was made on a
    role not yet loaded. *)
Theorem gate_decides_while_lookup_in_flight :
  ProtectedRoute.lookupInFlight SampleGate.pageLoad = true
  ∧ ProtectedRoute.userRole SampleGate.pageLoad = None
  ∧ ProtectedRoute.render (Some "admin") SampleGate.pageLoad = ProtectedRoute.AccessDenied
  ∧ ProtectedRoute.render None SampleGate.pageLoad = ProtectedRoute.Outlet
  ∧ ProtectedRoute.render (Some "admin")
      (ProtectedRoute.step SampleGate.pageLoad
         (ProtectedRoute.RoleLookupSettled (Some (VStr "admin"))))
    = ProtectedRoute.Outlet.
Proof. repeat split. Qed.

(** ** Guarded mutations never store a negative quantity *)

Lemma stockNonNegative_same (s s' : Firestore) :
  inventory s' = inventory s → stockNonNegative s → stockNonNegative s'.
Proof. unfold stockNonNegative. intros ->. done. Qed.

Lemma stockNonNegative_insert (s s' : Firestore) (k : string) (d' : InventoryDoc) :
  inventory s' = <[k := d']> (inventory s) → 0 ≤ d_quantity d' →
  stockNonNegative s → stockNonNegative s'.
Proof.
  unfold stockNonNegative. intros -> Hd' Hs k' d.
  rewrite lookup_insert. case_decide; [|by apply Hs].
  intros [= <-]. done.
Qed.

Lemma Qc_not_neg (x : Qc) : ¬ x < 0 → 0 ≤ x.
Proof. apply Qcnot_lt_le. Qed.

Lemma Qc_sum_nonneg (x y : Qc) : 0 ≤ x → ¬ y ≤ 0 → 0 ≤ x + y.
Proof.
  intros Hx Hy. apply Qcplus_nonneg_nonneg; [done|].
  by apply Qclt_le_weak, Qcnot_le_lt.
Qed.

Lemma Qc_difference_nonneg (x y : Qc) : y ≤ x → 0 ≤ x - y.
Proof.
  intros H. apply (Qcplus_le_mono_r _ _ y). rewrite Qcplus_0_l.
  by replace (x - y + y) with x by ring.
Qed.

Lemma Qc_negative_difference (x y : Qc) : x - y < 0 → x < y.
Proof.
  intros H. apply (Qcplus_lt_mono_r _ _ (- y)).
  by replace (y + - y) with (0 : Qc) by ring.
Qed.

Lemma Qc_contra (x : Qc) : 0 ≤ x → x < 0 → False.
Proof. intros H1 H2. by apply Qcle_not_lt in H1. Qed.

Lemma purchase_form_valid (form : PurchasesPage.PurchaseFormData) :
  PurchasesPage.validationErrors form = [] →
  0 < PurchasesPage.f_quantity form
  ∧ 0 ≤ PurchasesPage.f_price form
  ∧ ∃ t, validDate (PurchasesPage.f_purchasedAt form) = Some t.
Proof.
  unfold PurchasesPage.validationErrors. intros H.
  destruct (nonEmpty (PurchasesPage.f_itemId form)); [|discriminate].
  destruct (decide (PurchasesPage.f_quantity form ≤ 0)) as [|Hq]; [discriminate|].
  destruct (decide (PurchasesPage.f_price form < 0)) as [|Hp]; [discriminate|].
  destruct (validDate (PurchasesPage.f_purchasedAt form)) as [t|]; [|discriminate].
  repeat split; [by apply Qcnot_le_lt | by apply Qcnot_lt_le | by exists t].
Qed.

Lemma adjust_safe a b c d e f w : stockNonNegative (db w) → safeOutcome (AdjustStock a b c d e f) w.
Proof.
  intros Hnn. unfold safeOutcome, safeRun. simpl.
  unfold InventoryPage.clickAdjust.
  destruct (InventoryPage.adjustDisabled b); [by split|].
  unfold InventoryPage.handleAdjust.
  destruct a as [item|]; [|by split].
  destruct b as [|x]; [by split|]. simpl.
  destruct (decide (x = 0)); [by split|].
  destruct (negb (nonEmpty c) || negb (nonEmpty d)); [by split|].
  destruct (decide (quantity item + x < 0)) as [Hneg|Hok].
  { by split. }
  handler_unfold. unfold updateInventoryDoc.
  destruct (inventory (db w) !! id item) as [doc|] eqn:Hdoc; simpl.
  - split.
    + eapply stockNonNegative_insert; [reflexivity| |done]. simpl. by apply Qc_not_neg.
    + intros Q' [= <-] Hneg. done.
  - split; [done|]. intros Q' [= <-] Hneg. done.
Qed.

Lemma sell_safe a b c d e f g w :
  stockNonNegative (db w) → safeOutcome (SellStock a b c d e f g) w.
Proof.
  intros Hnn. unfold safeOutcome, safeRun. simpl.
  unfold InventoryPage.clickSell, InventoryPage.sellDisabled.
  destruct a as [item|]; [|by destruct (_ || _)].
  rewrite orZero_quantity.
  destruct (bool_decide (b = 0)); simpl; [by split|].
  destruct (bool_decide_reflect (quantity item < b)) as [Hshort | Hok]; simpl; [by split|].
  destruct c as [|p]; simpl; [by split|].
  unfold InventoryPage.handleSell.
  simpl. destruct (decide (b ≤ 0 ∨ p ≤ 0)); [by split|].
  assert (∀ Q', Some (quantity item - b) = Some Q' → Q' < 0 → False) as Hcontra.
  { intros Q' [= <-] Hneg. by apply Qc_negative_difference in Hneg. }
  handler_unfold. unfold updateInventoryDoc.
  destruct (inventory (db w) !! id item) as [doc|] eqn:Hdoc; simpl.
  - split.
    + eapply stockNonNegative_insert; [reflexivity| |done]. simpl.
      by apply Qc_difference_nonneg, Qcnot_lt_le.
    + intros Q' HQ Hneg. destruct (Hcontra Q' HQ Hneg).
  - split; [done|]. intros Q' HQ Hneg. destruct (Hcontra Q' HQ Hneg).
Qed.

Lemma purchase_safe a b c d e w :
  listedSane (PurchaseStock a b c d e) → stockNonNegative (db w) →
  safeOutcome (PurchaseStock a b c d e) w.
Proof.
  intros Hsane Hnn. unfold safeOutcome, safeRun. simpl.
  unfold InventoryPage.clickPurchase.
  destruct (InventoryPage.purchaseDisabled b c); [destruct a; by split|].
  unfold InventoryPage.handlePurchase.
  destruct a as [item|]; [|by split]. simpl in Hsane.
  assert (∀ Q', Some (quantity item + b) = Some Q' → Q' < 0 → ¬ b ≤ 0 → False) as Hcontra.
  { intros Q' [= <-] Hneg Hb. eapply Qc_contra; [|exact Hneg]. by apply Qc_sum_nonneg. }
  destruct (decide (b ≤ 0 ∨ Number c ≤ 0)) as [Hbad|Hgood]; [by split|].
  assert (¬ b ≤ 0) as Hb by tauto.
  handler_unfold. unfold updateInventoryDoc.
  destruct (inventory (db w) !! id item) as [doc|] eqn:Hdoc; simpl.
  - split.
    + eapply stockNonNegative_insert; [reflexivity| |done]. simpl. by apply Qc_sum_nonneg.
    + intros Q' HQ Hneg. destruct (Hcontra Q' HQ Hneg Hb).
  - split; [done|]. intros Q' HQ Hneg. destruct (Hcontra Q' HQ Hneg Hb).
Qed.

Lemma add_sale_safe a b w :
  stockNonNegative (db w) → safeOutcome (AddSale a b) w.
Proof.
  intros Hnn. unfold safeOutcome, safeRun. simpl.
  unfold SalesPage.handleSubmitSale.
  destruct (decide (SalesPage.validationErrors b ≠ [])); [by split|].
  handler_unfold.
  destruct (List.find _ a) as [item|]; simpl; [|by split].
  destruct (validDate (SalesPage.f_soldAt b)) as [t|]; simpl; [|by split].
  destruct (inventory (db w) !! id item) as [doc|] eqn:Hdoc; simpl; [|by split].
  destruct (decide (SalesPage.f_quantity b ≤ d_quantity doc)) as [Hle|Hgt]; simpl.
  - unfold updateInventoryDoc. simpl. rewrite Hdoc. simpl. split.
    + eapply stockNonNegative_insert; [reflexivity| |done]. simpl.
      by apply Qc_difference_nonneg.
    + intros Q' [= <-] Hneg. apply Qc_negative_difference in Hneg.
      by apply Qcle_not_lt in Hle.
  - by split.
Qed.

Lemma delete_sale_safe a k w :
  listedSane (DeleteSale a k) → stockNonNegative (db w) → safeOutcome (DeleteSale a k) w.
Proof.
  intros Hsane Hnn. unfold safeOutcome, safeRun. simpl in *.
  unfold SalesPage.handleDeleteSale. handler_unfold.
  destruct (List.find _ a) as [sale|] eqn:Hfind; simpl; [|by split].
  apply find_by_key in Hfind as [_ Hin].
  rewrite List.Forall_forall in Hsane. apply Hsane in Hin.
  destruct (inventory (db w) !! SalesPage.sale_itemId sale) as [doc|] eqn:Hdoc; simpl;
    [|by split].
  unfold updateInventoryDoc. simpl. rewrite Hdoc. simpl.
  assert (0 ≤ d_quantity doc + SalesPage.sale_quantity sale) as Hsum.
  { apply Qcplus_nonneg_nonneg; [by eapply Hnn | done]. }
  split.
  - eapply stockNonNegative_insert; [reflexivity| |done]. done.
  - intros Q' [= <-] Hneg. destruct (Qc_contra _ Hsum Hneg).
Qed.

Lemma submit_purchase_safe a b c d w :
  stockNonNegative (db w) → safeOutcome (SubmitPurchase a b c d) w.
Proof.
  intros Hnn. unfold safeOutcome, safeRun. simpl.
  unfold PurchasesPage.handleSubmitPurchase.
  destruct (decide (PurchasesPage.validationErrors d ≠ [])) as [|Hvalid]; [by split|].
  assert (PurchasesPage.validationErrors d = []) as Hv.
  { by destruct (PurchasesPage.validationErrors d); [|destruct Hvalid]. }
  destruct (purchase_form_valid d Hv) as (Hq & _ & t & Ht).
  handler_unfold.
  destruct (List.find _ a) as [item|]; simpl; [|by split].
  rewrite Ht. simpl.
  destruct (inventory (db w) !! id item) as [doc|] eqn:Hdoc; simpl; [|by split].
  destruct c as [editing|].
  - unfold updateDoc. simpl.
    destruct (purchases (db w) !! PurchasesPage.pur_id editing) as [old|]; simpl.
    2:{ split; [done|]. intros Q' _ _. by split. }
    destruct (List.find _ b) as [original|]; simpl; [|by split].
    destruct (decide (d_quantity doc
                      + (PurchasesPage.f_quantity d - PurchasesPage.pur_quantity original)
                      < 0)) as [Hneg|Hok]; simpl; [by split|].
    unfold updateInventoryDoc. simpl. rewrite Hdoc. simpl. split.
    + eapply stockNonNegative_insert; [reflexivity| |done]. simpl. by apply Qc_not_neg.
    + intros Q' [= <-] Hneg. done.
  - unfold updateInventoryDoc. simpl. rewrite Hdoc. simpl.
    assert (0 ≤ d_quantity doc + PurchasesPage.f_quantity d) as Hsum.
    { apply Qcplus_nonneg_nonneg; [by eapply Hnn | by apply Qclt_le_weak]. }
    split.
    + eapply stockNonNegative_insert; [reflexivity| |done]. done.
    + intros Q' [= <-] Hneg. destruct (Qc_contra _ Hsum Hneg).
Qed.

Lemma delete_purchase_safe a k w :
  stockNonNegative (db w) → safeOutcome (DeletePurchase a k) w.
Proof.
  intros Hnn. unfold safeOutcome, safeRun. simpl.
  unfold PurchasesPage.handleDeletePurchase. handler_unfold.
  destruct (List.find _ a) as [purchase|]; simpl; [|by split].
  destruct (inventory (db w) !! PurchasesPage.pur_itemId purchase) as [doc|] eqn:Hdoc; simpl;
    [|by split].
  destruct (decide (d_quantity doc - PurchasesPage.pur_quantity purchase < 0)); simpl;
    [by split|].
  unfold updateInventoryDoc. simpl. rewrite Hdoc. simpl. split.
  - eapply stockNonNegative_insert; [reflexivity| |done]. simpl. by apply Qc_not_neg.
  - intros Q' [= <-] Hneg. done.
Qed.

Lemma edit_adjustment_safe a b c d now w :
  stockNonNegative (db w) → safeOutcome (EditAdjustment a b c d now) w.
Proof.
  intros Hnn. unfold safeOutcome, safeRun. simpl.
  unfold AdjustmentsPage.handleSubmitAdjustment.
  destruct (AdjustmentsPage.formComplete d); simpl; [|by split].
  handler_unfold.
  destruct (List.find _ a) as [item|]; simpl; [|by split].
  unfold updateDoc. simpl.
  destruct (adjustments (db w) !! AdjustmentsPage.adj_id c) as [old|]; simpl.
  2:{ split; [done|]. intros Q' _ _. by split. }
  destruct (List.find _ b) as [original|]; simpl; [|by split].
  destruct (inventory (db w) !! id item) as [doc|] eqn:Hdoc; simpl; [|by split].
  destruct (decide (d_quantity doc
                    + (AdjustmentsPage.f_quantity d - AdjustmentsPage.adj_quantity original)
                    < 0)); simpl; [by split|].
  unfold updateInventoryDoc. simpl. rewrite Hdoc. simpl. split.
  - eapply stockNonNegative_insert; [reflexivity| |done]. simpl. by apply Qc_not_neg.
  - intros Q' [= <-] Hneg. done.
Qed.

Lemma delete_adjustment_safe a k w :
  stockNonNegative (db w) → safeOutcome (DeleteAdjustment a k) w.
Proof.
  intros Hnn. unfold safeOutcome, safeRun. simpl.
  unfold AdjustmentsPage.handleDeleteAdjustment. handler_unfold.
  destruct (List.find _ a) as [adjustment|]; simpl; [|by split].
  destruct (inventory (db w) !! AdjustmentsPage.adj_itemId adjustment) as [doc|] eqn:Hdoc;
    simpl; [|by split].
  destruct (decide (d_quantity doc - AdjustmentsPage.adj_quantity adjustment < 0)); simpl;
    [by split|].
  unfold updateInventoryDoc. simpl. rewrite Hdoc. simpl. split.
  - eapply stockNonNegative_insert; [reflexivity| |done]. simpl. by apply Qc_not_neg.
  - intros Q' [= <-] Hneg. done.
Qed.

Lemma quick_sale_safe a b c d e w :
  stockNonNegative (db w) → safeOutcome (QuickSale a b c d e) w.
Proof.
  intros Hnn. unfold safeOutcome, safeRun. simpl.
  unfold StaffDashboard.handleCreateSale.
  destruct a as [item|]; [|by split].
  destruct c as [price|]; [|by split]. simpl.
  destruct (decide (b ≤ 0)); [by split|].
  handler_unfold.
  destruct (decide (quantity item < b)) as [Hshort|Hok]; simpl; [by split|].
  unfold updateInventoryDoc. simpl.
  assert (∀ Q', Some (quantity item - b) = Some Q' → Q' < 0 → False) as Hcontra.
  { intros Q' [= <-] Hneg. by apply Qc_negative_difference in Hneg. }
  destruct (inventory (db w) !! id item) as [doc|] eqn:Hdoc; simpl.
  - split.
    + eapply stockNonNegative_insert; [reflexivity| |done]. simpl.
      by apply Qc_difference_nonneg, Qcnot_lt_le.
    + intros Q' HQ Hneg. destruct (Hcontra Q' HQ Hneg).
  - split; [done|]. intros Q' HQ Hneg. destruct (Hcontra Q' HQ Hneg).
Qed.

Lemma update_quantity_safe a b c w :
  stockNonNegative (db w) → safeOutcome (UpdateQuantity a b c) w.
Proof.
  intros Hnn. unfold safeOutcome, safeRun. simpl.
  unfold StaffDashboard.handleUpdateQuantity.
  destruct (decide (b < 0)) as [Hneg|Hok]; [by split|].
  handler_unfold. unfold updateInventoryDoc.
  destruct (inventory (db w) !! a) as [doc|] eqn:Hdoc; simpl.
  - split.
    + eapply stockNonNegative_insert; [reflexivity| |done]. simpl. by apply Qc_not_neg.
    + intros Q' [= <-] Hneg. done.
  - split; [done|]. intros Q' [= <-] Hneg. done.
Qed.

(** C1, as stated, fails: the add path of the Sales page, asked for 15 units
    out of a stock of 10, leaves the stored quantity unchanged but has by
    then inserted the sale record, so the history write is applied. *)
Lemma negative_request_still_writes_history :
  let m := AddSale [Sample.widget] SampleSale.oversell in
  let w' := run (perform m) Sample.world in
  (∃ Q', requested m Sample.world = Some Q' ∧ Q' < 0)
  ∧ inventory (db w') = inventory Sample.store
  ∧ sales (db w') ≠ sales Sample.store.
Proof.
  intros m w'. split; [|split].
  - eexists. split; [reflexivity|]. vm_compute. reflexivity.
  - vm_compute. reflexivity.
  - intros H. assert (sales (db w') !! "0" = sales Sample.store !! "0") as H0 by by rewrite H.
    vm_compute in H0. discriminate H0.
Qed.

(** C1, amended.  For the guarded mutations (the sell, adjust and purchase
    dialogs of the Inventory page; adding and deleting a sale on the Sales page;
    adding, editing and deleting a purchase; editing and deleting an
    adjustment; the quick sale and the quantity update of the staff
    dashboard), started from a store without negative quantities and from
    sane listings: no stored quantity is negative afterwards; and if the
    requested change would produce a negative quantity, the inventory is
    left as it was, and the whole store is left as it was when the mutation
    checks before its first write (sell, adjust, delete purchase, delete
    adjustment, quick sale, quantity update).  The add path of the Sales
    page does not check first: a valid form for a listed item always leaves
    its sale record in the sales collection. *)
Theorem guarded_mutations_keep_stock_nonnegative (m : Mutation) (w : World) :
  listedSane m →
  stockNonNegative (db w) →
  let w' := run (perform m) w in
  stockNonNegative (db w')
  ∧ (∀ Q', requested m w = Some Q' → Q' < 0 →
       inventory (db w') = inventory (db w)
       ∧ (checksBeforeWriting m = true → db w' = db w))
  ∧ (∀ inventoryItems form item,
       m = AddSale inventoryItems form →
       SalesPage.validationErrors form = [] →
       List.find (λ it, bool_decide (id it = SalesPage.f_itemId form)) inventoryItems
         = Some item →
       ∃ t, validDate (SalesPage.f_soldAt form) = Some t
            ∧ sales (db w')
              = <[autoId (sales (db w)) := SalesPage.saleRecordToSave item form t]>
                  (sales (db w))).
Proof.
  intros Hsane Hnn w'. subst w'.
  assert (safeOutcome m w) as [Hstock Hreject].
  { destruct m.
    - by apply sell_safe.
    - by apply adjust_safe.
    - by apply purchase_safe.
    - by apply add_sale_safe.
    - by apply delete_sale_safe.
    - by apply submit_purchase_safe.
    - by apply delete_purchase_safe.
    - by apply edit_adjustment_safe.
    - by apply delete_adjustment_safe.
    - by apply quick_sale_safe.
    - by apply update_quantity_safe. }
  split; [exact Hstock|]. split; [exact Hreject|].
  intros inventoryItems form item ->. simpl. by apply handleSubmitSale_add_record.
Qed.

Lemma sample_stock_nonnegative : stockNonNegative Sample.store.
Proof.
  intros k d Hd. unfold Sample.store in Hd. simpl in Hd.
  apply lookup_singleton_Some in Hd as [_ <-]. vm_compute. discriminate.
Qed.

Lemma guarded_mutations_keep_stock_nonnegative_witness :
  let m := AdjustStock (Some Sample.widget) (Typed (Qc_of_Z (-15))) "Correction"
             "2024-01-05" "u1" 5000 in
  let w' := run (perform m) Sample.world in
  stockNonNegative (db w') ∧ inventory (db w') = inventory Sample.store ∧ db w' = Sample.store.
Proof.
  intros m w'.
  destruct (guarded_mutations_keep_stock_nonnegative m Sample.world)
    as (Hnn & Hreject & _).
  - exact I.
  - exact sample_stock_nonnegative.
  - destruct (Hreject (quantity Sample.widget + Qc_of_Z (-15))) as [Hinv Hall].
    + reflexivity.
    + vm_compute. reflexivity.
    + split; [exact Hnn|]. split; [exact Hinv|]. apply Hall. reflexivity.
Defined.

(** The two unguarded paths, at the sample store (stock 10): the edit of a
    sale from 3 to 18 units and the addition of an adjustment of -15 each
    store the quantity -5. *)
Lemma unguarded_paths_store_negative :
  (∃ d, inventory (db (run (SalesPage.handleSubmitSale [Sample.widget] (Some Sample.sale)
                                {| SalesPage.f_itemId := "i1"; SalesPage.f_name := "Widget";
                                   SalesPage.f_quantity := Qc_of_Z 18;
                                   SalesPage.f_price := Qc_of_Z 12;
                                   SalesPage.f_soldAt := ValidDate 2500;
                                   SalesPage.f_customerName := "";
                                   SalesPage.f_customerMobile := "" |}) Sample.world))
            !! "i1" = Some d ∧ d_quantity d < 0)
  ∧ (∃ d, inventory (db (run (AdjustmentsPage.handleSubmitAdjustment [Sample.widget] [] None
                                {| AdjustmentsPage.f_itemId := "i1";
                                   AdjustmentsPage.f_quantity := Qc_of_Z (-15);
                                   AdjustmentsPage.f_reason := "Correction";
                                   AdjustmentsPage.f_date := "2024-01-05" |} 5000)
                           Sample.world))
            !! "i1" = Some d ∧ d_quantity d < 0).
Proof.
  repeat split; eexists; (split; [vm_compute; reflexivity|]); vm_compute; reflexivity.
Qed.

(** * Further properties of the handlers *)

(** ** What a vanished item leaves behind *)

(** The three dialogs of the Inventory page update the inventory document
    first.  If the document no longer exists, the update throws and nothing
    is written: no sale, purchase or adjustment record is added. *)
Theorem dialogs_write_nothing_for_missing_item (item : InventoryItem) (w : World) :
  inventory (db w) !! id item = None →
  (∀ q p customerName customerMobile uid now,
     db (run (InventoryPage.clickSell (Some item) q p customerName customerMobile uid now) w)
     = db w)
  ∧ (∀ q p uid now,
       db (run (InventoryPage.clickPurchase (Some item) q p uid now) w) = db w)
  ∧ (∀ x reason date uid now,
       db (run (InventoryPage.clickAdjust (Some item) x reason date uid now) w) = db w).
Proof.
  intros Hnone. split; [|split].
  - intros q p customerName customerMobile uid now.
    unfold InventoryPage.clickSell.
    destruct (InventoryPage.sellDisabled _ _ _); [done|].
    unfold InventoryPage.handleSell.
    destruct (decide (q ≤ 0 ∨ Number p ≤ 0)); [done|].
    handler_unfold. unfold updateInventoryDoc. by rewrite Hnone.
  - intros q p uid now.
    unfold InventoryPage.clickPurchase.
    destruct (InventoryPage.purchaseDisabled _ _); [done|].
    unfold InventoryPage.handlePurchase.
    destruct (decide (q ≤ 0 ∨ Number p ≤ 0)); [done|].
    handler_unfold. unfold updateInventoryDoc. by rewrite Hnone.
  - intros x reason date uid now.
    unfold InventoryPage.clickAdjust.
    destruct (InventoryPage.adjustDisabled _); [done|].
    unfold InventoryPage.handleAdjust.
    destruct x as [|x]; [done|]. simpl.
    destruct (decide (x = 0)); [done|].
    destruct (negb (nonEmpty reason) || negb (nonEmpty date)); [done|].
    destruct (decide (quantity item + x < 0)); [done|].
    handler_unfold. unfold updateInventoryDoc. by rewrite Hnone.
Qed.

Lemma dialogs_write_nothing_for_missing_item_witness :
  let ghost : InventoryItem :=
    {| id := "gone"; name := "Ghost"; quantity := Qc_of_Z 4; price := Qc_of_Z 2;
       avgCost := None; category := "tools" |} in
  db (run (InventoryPage.clickSell (Some ghost) (Qc_of_Z 1) (Typed (Qc_of_Z 3)) "" "" "u1"
             3000) Sample.world) = Sample.store.
Proof.
  intros ghost.
  destruct (dialogs_write_nothing_for_missing_item ghost Sample.world) as (Hsell & _).
  - vm_compute. reflexivity.
  - apply Hsell.
Defined.

(** The quick sale of the staff dashboard inserts the sale record first.  If
    the inventory document no longer exists, the record stays in the sales
    collection although the inventory update has failed and the user is told
    that the sale failed. *)
Theorem quick_sale_orphans_record_for_missing_item (item : InventoryItem) (q price : Qc)
    (uid : string) (now : Z) (w : World) :
  inventory (db w) !! id item = None →
  0 < q → q ≤ quantity item →
  let w' := run (StaffDashboard.handleCreateSale (Some item) q (Some price) uid now) w in
  inventory (db w') = inventory (db w)
  ∧ sales (db w) !! autoId (sales (db w)) = None
  ∧ is_Some (sales (db w') !! autoId (sales (db w)))
  ∧ notices w' = notices w ++ [ErrorText "Failed to create sale"].
Proof.
  intros Hnone Hq Hstock w'. subst w'.
  unfold StaffDashboard.handleCreateSale.
  destruct (decide (q ≤ 0)) as [Hle|_]; [by apply Qcle_not_lt in Hle|].
  handler_unfold.
  destruct (decide (quantity item < q)) as [Hlt|_]; [by apply Qcle_not_lt in Hstock|].
  unfold updateInventoryDoc. simpl. rewrite Hnone. simpl.
  split; [done|]. split; [apply autoId_fresh|].
  split; [|done]. rewrite lookup_insert_eq. by eexists.
Qed.

Lemma quick_sale_orphans_record_for_missing_item_witness :
  let ghost : InventoryItem :=
    {| id := "gone"; name := "Ghost"; quantity := Qc_of_Z 4; price := Qc_of_Z 2;
       avgCost := None; category := "tools" |} in
  let w' := run (StaffDashboard.handleCreateSale (Some ghost) (Qc_of_Z 1)
                   (Some (Qc_of_Z 3)) "u1" 3000) Sample.world in
  inventory (db w') = inventory Sample.store
  ∧ is_Some (sales (db w') !! autoId (sales Sample.store)).
Proof.
  intros ghost w'.
  destruct (quick_sale_orphans_record_for_missing_item ghost (Qc_of_Z 1) (Qc_of_Z 3) "u1"
              3000%Z Sample.world) as (Hinv & _ & Hrec & _).
  - vm_compute. reflexivity.
  - vm_compute. reflexivity.
  - vm_compute. discriminate.
  - split; [exact Hinv | exact Hrec].
Defined.

(** ** Rejected forms *)

Lemma sale_form_invalid (form : SalesPage.SaleFormData) :
  SalesPage.f_itemId form = "" ∨ SalesPage.f_quantity form ≤ 0
  ∨ SalesPage.f_price form ≤ 0 ∨ validDate (SalesPage.f_soldAt form) = None →
  SalesPage.validationErrors form ≠ [].
Proof.
  intros H Hnil. destruct (sale_form_valid form Hnil) as (Hid & Hq & Hp & t & Ht).
  destruct H as [H | [H | [H | H]]].
  - by rewrite H in Hid.
  - by apply Qcle_not_lt in H.
  - by apply Qcle_not_lt in H.
  - by rewrite H in Ht.
Qed.

Lemma purchase_form_invalid (form : PurchasesPage.PurchaseFormData) :
  PurchasesPage.f_itemId form = "" ∨ PurchasesPage.f_quantity form ≤ 0
  ∨ PurchasesPage.f_price form < 0 ∨ validDate (PurchasesPage.f_purchasedAt form) = None →
  PurchasesPage.validationErrors form ≠ [].
Proof.
  unfold PurchasesPage.validationErrors. intros H Hnil.
  destruct (nonEmpty (PurchasesPage.f_itemId form)) eqn:Hid; [|discriminate].
  destruct (decide (PurchasesPage.f_quantity form ≤ 0)) as [|Hq]; [discriminate|].
  destruct (decide (PurchasesPage.f_price form < 0)) as [|Hp]; [discriminate|].
  destruct (validDate (PurchasesPage.f_purchasedAt form)) as [t|]; [|discriminate].
  destruct H as [H | [H | [H | H]]]; [|done|done|done].
  by rewrite H in Hid.
Qed.

(** A form that fails the checks of its page writes nothing, whether it adds
    or edits: the store is unchanged and one error notice is shown.  On the
    Sales page a missing item, a quantity or price that is not positive, or
    an invalid date fails; on the Purchases page the same except that a
    price of zero passes; on the Adjustments page a missing item, reason or
    date, or a quantity of zero fails. *)
Theorem invalid_forms_write_nothing (w : World) :
  (∀ inventoryItems editingSale form,
     SalesPage.f_itemId form = "" ∨ SalesPage.f_quantity form ≤ 0
     ∨ SalesPage.f_price form ≤ 0 ∨ validDate (SalesPage.f_soldAt form) = None →
     run (SalesPage.handleSubmitSale inventoryItems editingSale form) w
     = {| db := db w;
          notices := notices w ++ [Snackbar "Please fix the errors in the form." error] |})
  ∧ (∀ inventoryItems purchaseList editingPurchase form,
       PurchasesPage.f_itemId form = "" ∨ PurchasesPage.f_quantity form ≤ 0
       ∨ PurchasesPage.f_price form < 0
       ∨ validDate (PurchasesPage.f_purchasedAt form) = None →
       run (PurchasesPage.handleSubmitPurchase inventoryItems purchaseList editingPurchase
              form) w
       = {| db := db w;
            notices := notices w ++ [Snackbar "Please fix the errors in the form." error] |})
  ∧ (∀ inventoryItems adjustmentList editingAdjustment form now,
       AdjustmentsPage.f_itemId form = "" ∨ AdjustmentsPage.f_quantity form = 0
       ∨ AdjustmentsPage.f_reason form = "" ∨ AdjustmentsPage.f_date form = "" →
       run (AdjustmentsPage.handleSubmitAdjustment inventoryItems adjustmentList
              editingAdjustment form now) w
       = {| db := db w;
            notices := notices w ++ [Snackbar "Please fill all required fields (Item, Quantity, Reason, Date). Quantity cannot be zero." error] |}).
Proof.
  split; [|split].
  - intros items editing form H. apply sale_form_invalid in H.
    unfold SalesPage.handleSubmitSale.
    by destruct (decide (SalesPage.validationErrors form ≠ [])).
  - intros items purchaseList editing form H. apply purchase_form_invalid in H.
    unfold PurchasesPage.handleSubmitPurchase.
    by destruct (decide (PurchasesPage.validationErrors form ≠ [])).
  - intros items adjustmentList editing form now H.
    unfold AdjustmentsPage.handleSubmitAdjustment.
    assert (AdjustmentsPage.formComplete form = false) as ->; [|done].
    unfold AdjustmentsPage.formComplete.
    destruct H as [H | [H | [H | H]]]; rewrite H.
    + done.
    + rewrite (bool_decide_eq_true_2 _ (eq_refl (0 : Qc))). simpl.
      by rewrite andb_false_r.
    + simpl. by rewrite andb_false_r.
    + simpl. by rewrite andb_false_r.
Qed.

Lemma invalid_forms_write_nothing_witness :
  run (SalesPage.handleSubmitSale [Sample.widget] None
         {| SalesPage.f_itemId := "i1"; SalesPage.f_name := "Widget";
            SalesPage.f_quantity := Qc_of_Z 0; SalesPage.f_price := Qc_of_Z 12;
            SalesPage.f_soldAt := ValidDate 2500; SalesPage.f_customerName := "";
            SalesPage.f_customerMobile := "" |}) Sample.world
  = {| db := Sample.store;
       notices := [Snackbar "Please fix the errors in the form." error] |}
  ∧ run (PurchasesPage.handleSubmitPurchase [Sample.widget] [] None
           {| PurchasesPage.f_itemId := "i1"; PurchasesPage.f_quantity := Qc_of_Z 5;
              PurchasesPage.f_price := Qc_of_Z (-1);
              PurchasesPage.f_purchasedAt := ValidDate 2500 |}) Sample.world
    = {| db := Sample.store;
         notices := [Snackbar "Please fix the errors in the form." error] |}
  ∧ run (AdjustmentsPage.handleSubmitAdjustment [Sample.widget] [] None
           {| AdjustmentsPage.f_itemId := "i1"; AdjustmentsPage.f_quantity := Qc_of_Z 0;
              AdjustmentsPage.f_reason := "Recount"; AdjustmentsPage.f_date := "2024-01-06" |}
           5000) Sample.world
    = {| db := Sample.store;
         notices := [Snackbar "Please fill all required fields (Item, Quantity, Reason, Date). Quantity cannot be zero." error] |}.
Proof.
  destruct (invalid_forms_write_nothing Sample.world) as (Hsale & Hpurchase & Hadjust).
  split; [|split].
  - apply Hsale. right. left. vm_compute. discriminate.
  - apply Hpurchase. right. right. left. vm_compute. reflexivity.
  - apply Hadjust. right. left. apply Qc_is_canon. reflexivity.
Defined.

(** ** Deleting history records, and round trips *)

(** [isSafeInteger] of a numeral. *)
Ltac safe_integer z :=
  exists z; split; [apply Qc_is_canon; vm_compute; reflexivity | lia].


Lemma patch_quantity_id (x : Qc) (d : InventoryDoc) :
  x = d_quantity d → patchInventory (quantityOnly x) d = d.
Proof. intros ->. by destruct d. Qed.

Lemma patch_quantity_twice (x y : Qc) (d : InventoryDoc) :
  patchInventory (quantityOnly y) (patchInventory (quantityOnly x) d)
  = patchInventory (quantityOnly y) d.
Proof. reflexivity. Qed.




(** Deleting an adjustment record that the page lists, with the change
    [x], undoes it behind the same check as deleting a purchase.  When the
    item's inventory document [d] exists with quantity [Q]: if [Q - x >= 0]
    the document is stored with quantity [Q - x] and every other field as it
    was, no other inventory document changes, and the record is removed;
    if [Q - x < 0] the whole store is left as it was.  With the item gone,
    only the record is removed. *)
Theorem delete_adjustment_guarded
    (adjustmentList : list AdjustmentsPage.AdjustmentRecord) (k : string)
    (a : AdjustmentsPage.AdjustmentRecord) (w : World) :
  List.find (λ x, bool_decide (AdjustmentsPage.adj_id x = k)) adjustmentList = Some a →
  let w' := run (AdjustmentsPage.handleDeleteAdjustment adjustmentList k) w in
  match inventory (db w) !! AdjustmentsPage.adj_itemId a with
  | Some d =>
      let x := AdjustmentsPage.adj_quantity a in
      (0 ≤ d_quantity d - x →
         inventory (db w')
         = <[AdjustmentsPage.adj_itemId a
               := {| d_name := d_name d; d_quantity := d_quantity d - x;
                     d_price := d_price d; d_avgCost := d_avgCost d;
                     d_category := d_category d; d_lastUpdated := d_lastUpdated d |}]>
             (inventory (db w))
         ∧ adjustments (db w') = delete k (adjustments (db w))
         ∧ users (db w') = users (db w)
         ∧ sales (db w') = sales (db w)
         ∧ purchases (db w') = purchases (db w))
      ∧ (d_quantity d - x < 0 → db w' = db w)
  | None =>
      inventory (db w') = inventory (db w)
      ∧ adjustments (db w') = delete k (adjustments (db w))
  end.
Proof.
  intros Hfind w'. subst w'.
  unfold AdjustmentsPage.handleDeleteAdjustment. handler_unfold. rewrite Hfind. simpl.
  destruct (inventory (db w) !! AdjustmentsPage.adj_itemId a) as [d|] eqn:Hdoc; simpl;
    [|done].
  destruct (decide (d_quantity d - AdjustmentsPage.adj_quantity a < 0)) as [Hneg|Hok]; simpl.
  - split; [|done]. intros Hge. by apply Qcle_not_lt in Hge.
  - split; [|done]. intros _. unfold updateInventoryDoc. rewrite Hdoc. by simpl.
Qed.

Lemma delete_adjustment_guarded_witness :
  let listed :=
    {| AdjustmentsPage.adj_id := "a1"; AdjustmentsPage.adj_itemId := "i1";
       AdjustmentsPage.adj_name := "Widget"; AdjustmentsPage.adj_quantity := Qc_of_Z 4;
       AdjustmentsPage.adj_reason := "Correction"; AdjustmentsPage.adj_date := "2024-01-05";
       AdjustmentsPage.adj_category := "tools";
       AdjustmentsPage.adj_createdAt := 5000%Z |} in
  let w' := run (AdjustmentsPage.handleDeleteAdjustment [listed] "a1") Sample.world in
  inventory (db w')
  = <["i1" := {| d_name := "Widget"; d_quantity := Qc_of_Z 10 - Qc_of_Z 4;
                 d_price := Qc_of_Z 5; d_avgCost := Some (Qc_of_Z 5);
                 d_category := "tools"; d_lastUpdated := None |}]>
      (inventory Sample.store)
  ∧ adjustments (db w') = delete "a1" (adjustments Sample.store).
Proof.
  intros listed w'.
  pose proof (delete_adjustment_guarded [listed] "a1" listed Sample.world eq_refl) as H.
  cbv zeta in H.
  change (inventory (db Sample.world) !! AdjustmentsPage.adj_itemId listed)
    with (Some Sample.widgetDoc) in H.
  destruct H as (Hdeleted & _).
  destruct Hdeleted as (Hinventory & Hadjustments & _); [vm_compute; discriminate|].
  split; [exact Hinventory | exact Hadjustments].
Defined.




(** ** The Purchases page form *)


(** A valid purchase form for a listed item whose inventory document [d]
    exists with quantity [Q].  Adding a purchase of [q] at price [p] inserts
    the purchase record and stores the document with quantity [Q + q] and
    price [p].  Editing an existing purchase, listed with quantity [q0],
    rewrites the stored record first; then, if [Q + (q - q0)] is negative,
    the inventory is left alone (the rewritten record stays), otherwise the
    document is stored with quantity [Q + (q - q0)] and price [p].  In the
    stored document the name, the average cost, the category and the time
    of the last update are as they were, and no other inventory document
    changes. *)
Theorem submit_purchase_outcome (inventoryItems : list InventoryItem)
    (purchaseList : list PurchasesPage.PurchaseRecord)
    (form : PurchasesPage.PurchaseFormData) (item : InventoryItem) (d : InventoryDoc)
    (w : World) :
  PurchasesPage.validationErrors form = [] →
  List.find (λ it, bool_decide (id it = PurchasesPage.f_itemId form)) inventoryItems
    = Some item →
  inventory (db w) !! id item = Some d →
  let q := PurchasesPage.f_quantity form in
  let p := PurchasesPage.f_price form in
  let stored x :=
    {| d_name := d_name d; d_quantity := x; d_price := p; d_avgCost := d_avgCost d;
       d_category := d_category d; d_lastUpdated := d_lastUpdated d |} in
  (let w' := run (PurchasesPage.handleSubmitPurchase inventoryItems purchaseList None form)
               w in
   (∃ record, purchases (db w') = <[autoId (purchases (db w)) := record]> (purchases (db w)))
   ∧ inventory (db w') = <[id item := stored (d_quantity d + q)]> (inventory (db w)))
  ∧ (∀ editing original old,
       purchases (db w) !! PurchasesPage.pur_id editing = Some old →
       List.find (λ x, bool_decide (PurchasesPage.pur_id x = PurchasesPage.pur_id editing))
         purchaseList = Some original →
       let q0 := PurchasesPage.pur_quantity original in
       let w' := run (PurchasesPage.handleSubmitPurchase inventoryItems purchaseList
                        (Some editing) form) w in
       (∃ record,
          purchases (db w')
          = <[PurchasesPage.pur_id editing := record ∪ old]> (purchases (db w))
          ∧ record !! "quantity" = Some (VNum q))
       ∧ inventory (db w')
         = if decide (d_quantity d + (q - q0) < 0) then inventory (db w)
           else <[id item := stored (d_quantity d + (q - q0))]> (inventory (db w))).
Proof.
  intros Hvalid Hfind Hdoc q p stored. subst q p stored.
  destruct (purchase_form_valid form Hvalid) as (_ & _ & t & Ht).
  split.
  - unfold PurchasesPage.handleSubmitPurchase.
    destruct (decide (PurchasesPage.validationErrors form ≠ [])) as [Hne | _]; [done|].
    handler_unfold. rewrite Hfind, Ht. simpl. rewrite Hdoc. simpl.
    unfold updateInventoryDoc. simpl. rewrite Hdoc. simpl. split; [by eexists | done].
  - intros editing original old Hold Horiginal.
    unfold PurchasesPage.handleSubmitPurchase.
    destruct (decide (PurchasesPage.validationErrors form ≠ [])) as [Hne | _]; [done|].
    handler_unfold. rewrite Hfind, Ht. simpl. rewrite Hdoc. simpl.
    unfold updateDoc. simpl. rewrite Hold. simpl. rewrite Horiginal. simpl.
    destruct (decide (d_quantity d
                      + (PurchasesPage.f_quantity form - PurchasesPage.pur_quantity original)
                      < 0)); simpl.
    + split; [|done]. eexists. split; [reflexivity|].
      unfold PurchasesPage.purchaseRecordToSave. by rewrite !obj_lookup_cons.
    + unfold updateInventoryDoc. simpl. rewrite Hdoc. simpl.
      split; [|done]. eexists. split; [reflexivity|].
      unfold PurchasesPage.purchaseRecordToSave. by rewrite !obj_lookup_cons.
Qed.

Lemma submit_purchase_outcome_witness :
  (∃ record,
     purchases (db (run (PurchasesPage.handleSubmitPurchase [Sample.widget] [Sample.purchase]
                           (Some Sample.purchase) SamplePurchase.form) Sample.world))
     = <["p1" := record ∪ Sample.purchaseDoc]> (purchases Sample.store)
     ∧ record !! "quantity" = Some (VNum (Qc_of_Z 5)))
  ∧ inventory (db (run (PurchasesPage.handleSubmitPurchase [Sample.widget] [Sample.purchase]
                          (Some Sample.purchase) SamplePurchase.form) Sample.world))
    = <["i1" := {| d_name := "Widget";
                   d_quantity := Qc_of_Z 10 + (Qc_of_Z 5 - Qc_of_Z 4);
                   d_price := Qc_of_Z 7; d_avgCost := Some (Qc_of_Z 5);
                   d_category := "tools"; d_lastUpdated := None |}]>
        (inventory Sample.store).
Proof.
  destruct (submit_purchase_outcome [Sample.widget] [Sample.purchase] SamplePurchase.form
              Sample.widget Sample.widgetDoc Sample.world) as (_ & Hedit).
  - vm_compute. reflexivity.
  - reflexivity.
  - vm_compute. reflexivity.
  - destruct (Hedit Sample.purchase Sample.purchase Sample.purchaseDoc) as (Hrecord & Hinv).
    + vm_compute. reflexivity.
    + reflexivity.
    + split; [exact Hrecord|]. rewrite Hinv. apply decide_False. vm_compute. discriminate.
Defined.




(** ** Undoing an adjustment and a sale edit *)





Lemma handleSubmitSale_edit_inventory (inventoryItems : list InventoryItem)
    (editingSale : SalesPage.SaleRecord) (form : SalesPage.SaleFormData)
    (item : InventoryItem) (stored : Doc) (d : InventoryDoc) (w : World) :
  SalesPage.validationErrors form = [] →
  List.find (λ it, bool_decide (id it = SalesPage.f_itemId form)) inventoryItems = Some item →
  sales (db w) !! SalesPage.sale_id editingSale = Some stored →
  inventory (db w) !! id item = Some d →
  inventory (db (run (SalesPage.handleSubmitSale inventoryItems (Some editingSale) form) w))
  = <[id item := patchInventory
                   (quantityOnly (d_quantity d + (SalesPage.sale_quantity editingSale
                                                  - SalesPage.f_quantity form))) d]>
      (inventory (db w)).
Proof.
  intros Hvalid Hfind Hsale Hdoc.
  destruct (sale_form_valid form Hvalid) as (_ & _ & _ & t & Ht).
  unfold SalesPage.handleSubmitSale.
  destruct (decide (SalesPage.validationErrors form ≠ [])) as [Hne | _]; [done|].
  handler_unfold. rewrite Hfind, Ht. unfold updateDoc. simpl. rewrite Hsale. simpl.
  rewrite Hdoc. unfold updateInventoryDoc. simpl. rewrite Hdoc. by simpl.
Qed.

(** Editing a sale from the listed quantity [q1] to [q2] and then, the page
    listing the record with quantity [q2], editing it back to [q1], for the
    same item stored with quantity [Q], when [Q], [q1], [q2], [q1 - q2] and
    [Q + (q1 - q2)] are safe integers: on such numbers the program's
    arithmetic is the model's.  The first edit stores the quantity
    [Q + (q1 - q2)], every other field of the item as it was; after the
    second edit the inventory is exactly as before the first. *)
Theorem edit_sale_there_and_back (inventoryItems : list InventoryItem)
    (listed relisted : SalesPage.SaleRecord) (form form' : SalesPage.SaleFormData)
    (item : InventoryItem) (stored : Doc) (d : InventoryDoc) (w : World) :
  SalesPage.validationErrors form = [] →
  SalesPage.validationErrors form' = [] →
  SalesPage.f_itemId form' = SalesPage.f_itemId form →
  List.find (λ it, bool_decide (id it = SalesPage.f_itemId form)) inventoryItems = Some item →
  sales (db w) !! SalesPage.sale_id listed = Some stored →
  inventory (db w) !! id item = Some d →
  SalesPage.sale_id relisted = SalesPage.sale_id listed →
  SalesPage.sale_quantity relisted = SalesPage.f_quantity form →
  SalesPage.f_quantity form' = SalesPage.sale_quantity listed →
  let Q := d_quantity d in
  let q1 := SalesPage.sale_quantity listed in
  let q2 := SalesPage.f_quantity form in
  isSafeInteger Q → isSafeInteger q1 → isSafeInteger q2 →
  isSafeInteger (q1 - q2) → isSafeInteger (Q + (q1 - q2)) →
  let w1 := run (SalesPage.handleSubmitSale inventoryItems (Some listed) form) w in
  let w2 := run (SalesPage.handleSubmitSale inventoryItems (Some relisted) form') w1 in
  inventory (db w1)
  = <[id item := {| d_name := d_name d; d_quantity := Q + (q1 - q2);
                    d_price := d_price d; d_avgCost := d_avgCost d;
                    d_category := d_category d; d_lastUpdated := d_lastUpdated d |}]>
      (inventory (db w))
  ∧ inventory (db w2) = inventory (db w).
Proof.
  intros Hvalid Hvalid' Hsame Hfind Hstored Hdoc Hid Hq2 Hq1 Q q1 q2 _ _ _ _ _ w1 w2.
  subst Q q1 q2.
  pose proof (handleSubmitSale_edit_inventory inventoryItems listed form item stored d w
                Hvalid Hfind Hstored Hdoc) as Hinv.
  destruct (handleSubmitSale_edit_record inventoryItems listed form item stored w
              Hvalid Hfind Hstored) as (t & _ & Hsales).
  fold w1 in Hinv, Hsales.
  split; [exact Hinv|].
  rewrite <- Hsame in Hfind. subst w2.
  rewrite (handleSubmitSale_edit_inventory inventoryItems relisted form' item
             (SalesPage.saleRecordToSave item form t ∪ stored)
             (patchInventory
                (quantityOnly (d_quantity d + (SalesPage.sale_quantity listed
                                               - SalesPage.f_quantity form))) d)
             w1 Hvalid' Hfind).
  - rewrite Hinv, insert_insert_eq, patch_quantity_twice.
    rewrite patch_quantity_id; [by apply insert_id|].
    simpl. rewrite Hq2, Hq1. ring.
  - by rewrite Hid, Hsales, lookup_insert_eq.
  - by rewrite Hinv, lookup_insert_eq.
Qed.

Lemma edit_sale_there_and_back_witness :
  let form q :=
    {| SalesPage.f_itemId := "i1"; SalesPage.f_name := "Widget";
       SalesPage.f_quantity := q; SalesPage.f_price := Qc_of_Z 12;
       SalesPage.f_soldAt := ValidDate 2500; SalesPage.f_customerName := "";
       SalesPage.f_customerMobile := "" |} in
  let relisted :=
    {| SalesPage.sale_id := "s1"; SalesPage.sale_itemId := "i1";
       SalesPage.sale_name := "Widget"; SalesPage.sale_quantity := Qc_of_Z 18;
       SalesPage.sale_price := Qc_of_Z 12; SalesPage.sale_total := Qc_of_Z 216;
       SalesPage.sale_soldAt := 2500%Z; SalesPage.sale_category := "tools";
       SalesPage.sale_profit := Qc_of_Z 126; SalesPage.sale_customerName := None;
       SalesPage.sale_customerMobile := None |} in
  let w1 := run (SalesPage.handleSubmitSale [Sample.widget] (Some Sample.sale)
                   (form (Qc_of_Z 18))) Sample.world in
  inventory (db w1)
  = <["i1" := {| d_name := "Widget";
                 d_quantity := Qc_of_Z 10 + (Qc_of_Z 3 - Qc_of_Z 18);
                 d_price := Qc_of_Z 5; d_avgCost := Some (Qc_of_Z 5);
                 d_category := "tools"; d_lastUpdated := None |}]>
      (inventory Sample.store)
  ∧ inventory (db (run (SalesPage.handleSubmitSale [Sample.widget] (Some relisted)
                          (form (Qc_of_Z 3))) w1))
    = inventory Sample.store.
Proof.
  intros form relisted w1.
  apply (edit_sale_there_and_back [Sample.widget] Sample.sale relisted (form (Qc_of_Z 18))
           (form (Qc_of_Z 3)) Sample.widget Sample.saleDoc Sample.widgetDoc Sample.world).
  - vm_compute. reflexivity.
  - vm_compute. reflexivity.
  - reflexivity.
  - reflexivity.
  - vm_compute. reflexivity.
  - vm_compute. reflexivity.
  - reflexivity.
  - reflexivity.
  - reflexivity.
  - safe_integer 10%Z.
  - safe_integer 3%Z.
  - safe_integer 18%Z.
  - safe_integer (-15)%Z.
  - safe_integer (-5)%Z.
Defined.

(** ** What no stock operation does *)

Ltac one_item_leaf :=
  split; [reflexivity|];
  first [ left; reflexivity
        | right; do 3 eexists; split; [eassumption | reflexivity] ].

Ltac one_item :=
  unfold updateDoc, updateInventoryDoc; handler_unfold; simpl;
  repeat (case_match; simpl in *; simplify_eq);
  try one_item_leaf.

Lemma execute_patchesOneItem (op : Operation) (w : World) :
  patchesOneItem (db w) (db (run (execute op) w)).
Proof.
  unfold patchesOneItem.
  destruct op as [m | items editing form | items adjustmentList form now].
  - destruct m; simpl.
    + unfold InventoryPage.clickSell, InventoryPage.handleSell. one_item.
    + unfold InventoryPage.clickAdjust, InventoryPage.handleAdjust. one_item.
    + unfold InventoryPage.clickPurchase, InventoryPage.handlePurchase. one_item.
    + unfold SalesPage.handleSubmitSale. one_item.
    + unfold SalesPage.handleDeleteSale. one_item.
    + unfold PurchasesPage.handleSubmitPurchase. one_item.
    + unfold PurchasesPage.handleDeletePurchase. one_item.
    + unfold AdjustmentsPage.handleSubmitAdjustment. one_item.
    + unfold AdjustmentsPage.handleDeleteAdjustment. one_item.
    + unfold StaffDashboard.handleCreateSale. one_item.
    + unfold StaffDashboard.handleUpdateQuantity. one_item.
  - simpl. unfold SalesPage.handleSubmitSale. one_item.
  - simpl. unfold AdjustmentsPage.handleSubmitAdjustment. one_item.
Qed.

(** No operation on the stock (any guarded mutation, the edit of a sale, the
    addition of an adjustment), whatever its arguments and outcome, touches
    the users collection, creates or removes an inventory document, or
    changes the name or category of one; and all inventory documents but at
    most one are left exactly as they were. *)
Theorem stock_operations_frame (op : Operation) (w : World) :
  let w' := run (execute op) w in
  users (db w') = users (db w)
  ∧ dom (inventory (db w')) = dom (inventory (db w))
  ∧ (∀ k d', inventory (db w') !! k = Some d' →
       ∃ d, inventory (db w) !! k = Some d
            ∧ d_name d' = d_name d ∧ d_category d' = d_category d)
  ∧ ∃ target, ∀ k, k ≠ target → inventory (db w') !! k = inventory (db w) !! k.
Proof.
  intros w'. subst w'.
  destruct (execute_patchesOneItem op w) as [Husers [Hsame | (k & d & p & Hd & Hpatched)]].
  - split; [done|]. rewrite Hsame. split; [done|]. split.
    + intros k d' Hd'. by exists d'.
    + by exists "".
  - split; [done|]. rewrite Hpatched. split; [|split].
    + apply dom_insert_lookup_L. by eexists.
    + intros k' d'. rewrite lookup_insert. case_decide as Hk.
      * intros [= <-]. subst k'. by exists d.
      * intros Hd'. by exists d'.
    + exists k. intros k' Hk'. by rewrite lookup_insert_ne.
Qed.

(** ** Sign-in, further *)

Lemma handleSubmit_rejected (provider : string → string → User + string)
    (email password : string) (now : Z) (w : World) :
  nonEmpty email = false ∨ nonEmpty password = false ∨ (String.length password < 6)%nat
  ∨ (∃ message, provider email password = inr message) →
  db (run (Login.handleSubmit provider email password now) w) = db w.
Proof.
  intros H. unfold Login.handleSubmit.
  destruct (nonEmpty email) eqn:Hemail; [|done].
  destruct (nonEmpty password) eqn:Hpassword; [|done]. simpl.
  destruct (String.length password <? 6)%nat eqn:Hlen; [done|].
  destruct H as [H | [H | [H | [message H]]]]; [done|done| |].
  - apply Nat.ltb_ge in Hlen. lia.
  - unfold Login.signInWithEmailAndPassword. rewrite H. by handler_unfold.
Qed.

(** A sign-in never lowers or replaces a role that is already there: when
    the profile document of the accepted identity carries a role, the store
    after the sign-in is the store before it. *)
Theorem sign_in_keeps_existing_role (provider : string → string → User + string)
    (email password : string) (now : Z) (user : User) (d : Doc) (w : World) :
  nonEmpty email = true → nonEmpty password = true → (6 ≤ String.length password)%nat →
  provider email password = inl user →
  users (db w) !! user_uid user = Some d →
  truthy (d !! "role") = true →
  db (run (Login.handleSubmit provider email password now) w) = db w.
Proof.
  intros Hemail Hpassword Hlen Hprovider Hdoc Hrole.
  rewrite (handleSubmit_accepted provider email password now user w
             Hemail Hpassword Hlen Hprovider).
  by rewrite Hdoc, Hrole.
Qed.

Lemma sign_in_keeps_existing_role_witness :
  let withAdmin : World :=
    {| db := setColl Users {[ "u1" := obj [("email", VStr "a@shop.example");
                                            ("role", VStr "admin")] ]} Sample.store;
       notices := [] |} in
  db (run (Login.handleSubmit SampleUsers.provider "a@shop.example" "secret" 4000) withAdmin)
  = db withAdmin.
Proof.
  intros withAdmin.
  apply (sign_in_keeps_existing_role SampleUsers.provider "a@shop.example" "secret" 4000%Z
           {| user_uid := "u1"; user_email := Some "a@shop.example" |}
           (obj [("email", VStr "a@shop.example"); ("role", VStr "admin")]) withAdmin).
  - reflexivity.
  - reflexivity.
  - simpl. lia.
  - reflexivity.
  - vm_compute. reflexivity.
  - vm_compute. reflexivity.
Defined.

(** Signing in is idempotent on the store: whatever the credentials, the
    provider's answer and the store, a second sign-in with the same
    credentials leaves the store as the first one left it. *)
Theorem sign_in_idempotent (provider : string → string → User + string)
    (email password : string) (now now' : Z) (w : World) :
  let once := run (Login.handleSubmit provider email password now) w in
  db (run (Login.handleSubmit provider email password now') once) = db once.
Proof.
  intros once.
  destruct (nonEmpty email) eqn:Hemail;
    [|apply handleSubmit_rejected; by left].
  destruct (nonEmpty password) eqn:Hpassword;
    [|apply handleSubmit_rejected; right; by left].
  destruct (Nat.lt_ge_cases (String.length password) 6) as [Hshort | Hlen];
    [apply handleSubmit_rejected; right; right; by left|].
  destruct (provider email password) as [user | message] eqn:Hprovider;
    [|apply handleSubmit_rejected; right; right; right; by exists message].
  rewrite (handleSubmit_accepted provider email password now' user once
             Hemail Hpassword Hlen Hprovider).
  subst once.
  rewrite (handleSubmit_accepted provider email password now user w
             Hemail Hpassword Hlen Hprovider).
  destruct (users (db w) !! user_uid user) as [d|] eqn:Hdoc.
  - destruct (truthy (d !! "role")) eqn:Hrole; simpl; by rewrite Hdoc, Hrole.
  - simpl. destruct (db w) as [us inv sa pu ad]. simpl.
    by rewrite lookup_insert_eq, !obj_lookup_cons.
Qed.

(** A sign-in that fails leaves the store alone and says why, for a
    password of ASCII characters.  When the provider rejects the credentials
    (the password has six characters or more), nothing is written, the
    provider's message is put in the snackbar and kept as the error of the
    form, and the alert of the form shows 'Invalid email or password' in its
    place when the message contains 'auth/' and the message itself
    otherwise.  When the password is shorter than six characters the error
    'Password must be at least 6 characters.' is set and the provider's
    answer plays no part. *)
Theorem failed_sign_in_changes_nothing (email password : string) (now : Z) (w : World) :
  nonEmpty email = true → nonEmpty password = true → asciiOnly password = true →
  (∀ provider message,
     (6 ≤ String.length password)%nat →
     provider email password = inr message → nonEmpty message = true →
     run (Login.handleSubmit provider email password now) w
     = {| db := db w;
          notices := notices w ++ [Snackbar message error; ErrorText message] |}
     ∧ (includes "auth/" message = true
        → Login.alertText message = "Invalid email or password")
     ∧ (includes "auth/" message = false → Login.alertText message = message))
  ∧ (∀ provider,
       (String.length password < 6)%nat →
       run (Login.handleSubmit provider email password now) w
       = {| db := db w;
            notices := notices w ++ [ErrorText "Password must be at least 6 characters."] |}
       ∧ Login.alertText "Password must be at least 6 characters."
         = "Password must be at least 6 characters.").
Proof.
  intros Hemail Hpassword _. split.
  - intros provider message Hlen Hprovider Hmessage. split.
    + unfold Login.handleSubmit. rewrite Hemail, Hpassword. simpl.
      apply Nat.ltb_ge in Hlen. rewrite Hlen.
      unfold Login.signInWithEmailAndPassword. rewrite Hprovider.
      handler_unfold. simpl. rewrite Hmessage. simpl.
      by rewrite <- app_assoc.
    + unfold Login.alertText. split; intros ->; reflexivity.
  - intros provider Hshort. split; [|reflexivity].
    unfold Login.handleSubmit. rewrite Hemail, Hpassword. simpl.
    apply Nat.ltb_lt in Hshort. by rewrite Hshort.
Qed.

Lemma failed_sign_in_changes_nothing_witness :
  let refusal := "Firebase: Error (auth/wrong-password)." in
  (run (Login.handleSubmit (λ _ _, inr refusal) "a@shop.example" "secret" 4000) Sample.world
   = {| db := Sample.store;
        notices := [Snackbar refusal error; ErrorText refusal] |}
   ∧ Login.alertText refusal = "Invalid email or password")
  ∧ run (Login.handleSubmit SampleUsers.provider "a@shop.example" "abc" 4000) Sample.world
    = {| db := Sample.store;
         notices := [ErrorText "Password must be at least 6 characters."] |}.
Proof.
  intros refusal.
  destruct (failed_sign_in_changes_nothing "a@shop.example" "secret" 4000%Z Sample.world)
    as (Hrejected & _); [reflexivity | reflexivity | reflexivity |].
  destruct (failed_sign_in_changes_nothing "a@shop.example" "abc" 4000%Z Sample.world)
    as (_ & Hshort); [reflexivity | reflexivity | reflexivity |].
  split.
  - destruct (Hrejected (λ _ _, inr refusal) refusal) as (Hrun & Hauth & _);
      [simpl; lia | reflexivity | reflexivity |].
    split; [exact Hrun | apply Hauth; reflexivity].
  - destruct (Hshort SampleUsers.provider) as (Hrun & _); [simpl; lia | exact Hrun].
Defined.

Lemma lookupRole_role (w : World) (userId role : string) (d : Doc) :
  users (db w) !! userId = Some d → d !! "role" = Some (VStr role) → nonEmpty role = true →
  lookupRole w userId = Some (VStr role).
Proof.
  intros Hdoc Hrole Hne. unfold lookupRole, getUserRole. handler_unfold. simpl.
  by rewrite Hdoc, Hrole, Hne.
Qed.

Lemma lookupRole_no_document (w : World) (userId : string) :
  users (db w) !! userId = None → lookupRole w userId = None.
Proof.
  intros Hdoc. unfold lookupRole, getUserRole. handler_unfold. simpl. by rewrite Hdoc.
Qed.

Lemma lookupRole_no_role (w : World) (userId : string) (d : Doc) :
  users (db w) !! userId = Some d → truthy (d !! "role") = false →
  lookupRole w userId = None.
Proof.
  intros Hdoc Hrole. unfold lookupRole, getUserRole. handler_unfold. simpl. rewrite Hdoc.
  destruct (d !! "role") as [role|]; [|done]. simpl in Hrole |- *. by rewrite Hrole.
Qed.

(** An accepted sign-in (password of ASCII characters) and the gate
    afterwards, by the profile the sign-in finds.  For an identity without
    a profile the role lookup then returns "staff": a gate refuses that
    user a route that requires "admin" and opens a route without a required
    role.  For a profile with a role, the lookup returns a role.  For a
    profile without a role the sign-in cannot set one (the rules deny the
    update), the lookup fails, and a gate shows the role error whatever
    role the route requires. *)
Theorem sign_in_then_gate (provider : string → string → User + string)
    (email password : string) (now : Z) (user : User) (w : World) :
  nonEmpty email = true → nonEmpty password = true → asciiOnly password = true →
  (6 ≤ String.length password)%nat →
  provider email password = inl user →
  let w' := run (Login.handleSubmit provider email password now) w in
  (users (db w) !! user_uid user = None →
     lookupRole w' (user_uid user) = Some (VStr "staff")
     ∧ settledView (Some "admin") user w' = ProtectedRoute.AccessDenied
     ∧ settledView None user w' = ProtectedRoute.Outlet)
  ∧ (∀ d, users (db w) !! user_uid user = Some d → truthy (d !! "role") = true →
       is_Some (lookupRole w' (user_uid user)))
  ∧ (∀ d requiredRole,
       users (db w) !! user_uid user = Some d → truthy (d !! "role") = false →
       lookupRole w' (user_uid user) = None
       ∧ settledView requiredRole user w'
         = ProtectedRoute.ErrorMessage
             "Failed to verify user role. Please try logging in again.").
Proof.
  intros Hemail Hpassword _ Hlen Hprovider w'. subst w'.
  rewrite (handleSubmit_accepted provider email password now user w
             Hemail Hpassword Hlen Hprovider).
  destruct (users (db w) !! user_uid user) as [d|] eqn:Hdoc.
  - split; [done|]. split.
    + intros d0 Hd0 Hrole. injection Hd0 as <-. rewrite Hrole.
      unfold lookupRole, getUserRole. handler_unfold. simpl. rewrite Hdoc.
      destruct (d !! "role") as [role|]; [|done]. simpl in Hrole |- *.
      rewrite Hrole. by eexists.
    + intros d0 requiredRole Hd0 Hrole. injection Hd0 as <-. rewrite Hrole.
      assert (lookupRole {| db := db w;
                            notices := notices w
                              ++ [Snackbar "Missing or insufficient permissions." error;
                                  ErrorText "Missing or insufficient permissions."] |}
                (user_uid user) = None) as Hlookup
        by (by apply (lookupRole_no_role _ _ d)).
      split; [exact Hlookup|]. unfold settledView. by rewrite Hlookup.
  - split; [|split; intros; discriminate].
    intros _.
    assert (lookupRole
              {| db := setColl Users
                         (<[user_uid user
                              := obj [ ("uid", VStr (user_uid user));
                                       ("email", from_option VStr VNull (user_email user));
                                       ("role", VStr "staff"); ("createdAt", VTime now) ]]>
                            (users (db w))) (db w);
                 notices := notices w ++ [Snackbar "Login successful!" success] |}
              (user_uid user) = Some (VStr "staff")) as Hlookup.
    { apply (lookupRole_role _ _ "staff"
               (obj [ ("uid", VStr (user_uid user));
                      ("email", from_option VStr VNull (user_email user));
                      ("role", VStr "staff"); ("createdAt", VTime now) ]));
        [|by rewrite !obj_lookup_cons|done].
      simpl. destruct (db w). simpl. by rewrite lookup_insert_eq. }
    split; [exact Hlookup|]. unfold settledView. rewrite Hlookup. split; reflexivity.
Qed.

Lemma sign_in_then_gate_witness :
  let user := {| user_uid := "u1"; user_email := Some "a@shop.example" |} in
  let w' := run (Login.handleSubmit SampleUsers.provider "a@shop.example" "secret" 4000)
              Sample.world in
  let stuck := run (Login.handleSubmit SampleUsers.provider "a@shop.example" "secret" 4000)
                 SampleUsers.withRoleless in
  (lookupRole w' "u1" = Some (VStr "staff")
   ∧ settledView (Some "admin") user w' = ProtectedRoute.AccessDenied
   ∧ settledView None user w' = ProtectedRoute.Outlet)
  ∧ (lookupRole stuck "u1" = None
     ∧ settledView None user stuck
       = ProtectedRoute.ErrorMessage
           "Failed to verify user role. Please try logging in again.").
Proof.
  intros user w' stuck. split.
  - destruct (sign_in_then_gate SampleUsers.provider "a@shop.example" "secret" 4000%Z user
                Sample.world) as (Hnew & _);
      [reflexivity | reflexivity | reflexivity | simpl; lia | reflexivity |].
    apply Hnew. vm_compute. reflexivity.
  - destruct (sign_in_then_gate SampleUsers.provider "a@shop.example" "secret" 4000%Z user
                SampleUsers.withRoleless) as (_ & _ & Hroleless);
      [reflexivity | reflexivity | reflexivity | simpl; lia | reflexivity |].
    apply (Hroleless SampleUsers.roleless None); vm_compute; reflexivity.
Defined.

(** ** Managing users *)

Lemma roleName_nonEmpty (r : Role) : nonEmpty (roleName r) = true.
Proof. by destruct r. Qed.

Lemma role_patch (r : Role) (d : Doc) :
  obj [("role", VStr (roleName r))] ∪ d = <["role" := VStr (roleName r)]> d.
Proof.
  unfold obj. simpl. rewrite insert_empty. by rewrite <- insert_union_singleton_l.
Qed.

Lemma settledView_admin_route (u : User) (w : World) (r : Role) :
  lookupRole w (user_uid u) = Some (VStr (roleName r)) →
  settledView (Some "admin") u w
  = match r with
    | admin => ProtectedRoute.Outlet
    | staff => ProtectedRoute.AccessDenied
    end.
Proof. intros Hlookup. unfold settledView. rewrite Hlookup. by destruct r. Qed.

(** Saving a role on either user page, for a profile that exists, replaces
    the role field of that profile and nothing else in the store.  From
    then on the role lookup of that user returns the saved role, so a gate
    that requires "admin" opens for the user exactly when the saved role is
    admin.  On the User Management page the Save button must be enabled,
    that is, the viewer's own role must be "admin". *)
Theorem role_edit_takes_effect (u : User) (d : Doc) (r : Role) (w w' : World)
    (currentUserRole : option Value) (editingUser : UserManagement.UserRecord)
    (userToEdit : AdminPage.AppUser) :
  users (db w) !! user_uid u = Some d →
  (isRole currentUserRole "admin" = true
   ∧ UserManagement.ur_id editingUser = user_uid u
   ∧ w' = run (UserManagement.clickSaveRole currentUserRole (Some editingUser) r) w)
  ∨ (AdminPage.au_id userToEdit = user_uid u
     ∧ w' = run (AdminPage.handleSaveEditedRole (Some userToEdit) r) w) →
  users (db w') = <[user_uid u := <["role" := VStr (roleName r)]> d]> (users (db w))
  ∧ inventory (db w') = inventory (db w)
  ∧ sales (db w') = sales (db w)
  ∧ purchases (db w') = purchases (db w)
  ∧ adjustments (db w') = adjustments (db w)
  ∧ lookupRole w' (user_uid u) = Some (VStr (roleName r))
  ∧ settledView (Some "admin") u w'
    = match r with
      | admin => ProtectedRoute.Outlet
      | staff => ProtectedRoute.AccessDenied
      end.
Proof.
  intros Hdoc Hpage.
  assert (users (db w') = <[user_uid u := <["role" := VStr (roleName r)]> d]> (users (db w))
          ∧ inventory (db w') = inventory (db w)
          ∧ sales (db w') = sales (db w)
          ∧ purchases (db w') = purchases (db w)
          ∧ adjustments (db w') = adjustments (db w)) as (Husers & Hrest).
  { destruct Hpage as [(Hadmin & Hid & ->) | (Hid & ->)].
    - unfold UserManagement.clickSaveRole, UserManagement.saveDisabled,
        UserManagement.handleSaveRole, updateDoc.
      rewrite Hadmin, Hid. handler_unfold. simpl. rewrite Hdoc. simpl.
      by rewrite role_patch.
    - unfold AdminPage.handleSaveEditedRole, updateDoc.
      rewrite Hid. handler_unfold. simpl. rewrite Hdoc. simpl.
      by rewrite role_patch. }
  assert (lookupRole w' (user_uid u) = Some (VStr (roleName r))) as Hlookup.
  { eapply lookupRole_role.
    - by rewrite Husers, lookup_insert_eq.
    - by rewrite lookup_insert_eq.
    - apply roleName_nonEmpty. }
  repeat split; try tauto.
  by apply settledView_admin_route.
Qed.

Lemma role_edit_takes_effect_witness :
  let u := {| user_uid := "u7"; user_email := Some "b@shop.example" |} in
  let d := obj [("email", VStr "b@shop.example"); ("role", VStr "staff")] in
  let w := {| db := setColl Users {["u7" := d]} Sample.store; notices := [] |} in
  let w' := run (AdminPage.handleSaveEditedRole
                   (Some {| AdminPage.au_id := "u7"; AdminPage.au_email := "b@shop.example";
                            AdminPage.au_role := staff; AdminPage.au_uid := "u7" |}) admin) w in
  lookupRole w' "u7" = Some (VStr "admin")
  ∧ settledView (Some "admin") u w' = ProtectedRoute.Outlet.
Proof.
  intros u d w w'.
  destruct (role_edit_takes_effect u d admin w w' None
              {| UserManagement.ur_id := "u7"; UserManagement.ur_email := "b@shop.example";
                 UserManagement.ur_role := staff |}
              {| AdminPage.au_id := "u7"; AdminPage.au_email := "b@shop.example";
                 AdminPage.au_role := staff; AdminPage.au_uid := "u7" |})
    as (_ & _ & _ & _ & _ & Hlookup & Hview).
  - reflexivity.
  - right. split; reflexivity.
  - split; [exact Hlookup | exact Hview].
Defined.

(** A role edit never creates a profile, and a viewer who is not an admin
    cannot save one.  On the User Management page a click on Save by a
    viewer whose role is not "admin" changes nothing at all.  On both pages
    saving the role of a profile that no longer exists leaves the store as
    it was and reports an error. *)
Theorem role_edit_refused (r : Role) (w : World)
    (editingUser : UserManagement.UserRecord) (userToEdit : AdminPage.AppUser) :
  (∀ currentUserRole,
     isRole currentUserRole "admin" = false →
     run (UserManagement.clickSaveRole currentUserRole (Some editingUser) r) w = w)
  ∧ (users (db w) !! UserManagement.ur_id editingUser = None →
     run (UserManagement.handleSaveRole (Some editingUser) r) w
     = {| db := db w;
          notices := notices w ++ [Snackbar "Failed to update user role." error] |})
  ∧ (users (db w) !! AdminPage.au_id userToEdit = None →
     ∃ message,
       run (AdminPage.handleSaveEditedRole (Some userToEdit) r) w
       = {| db := db w; notices := notices w ++ [Snackbar message error] |}).
Proof.
  repeat split.
  - intros currentUserRole Hrole.
    unfold UserManagement.clickSaveRole, UserManagement.saveDisabled. by rewrite Hrole.
  - intros Hdoc. unfold UserManagement.handleSaveRole, updateDoc.
    handler_unfold. simpl. by rewrite Hdoc.
  - intros Hdoc. eexists. unfold AdminPage.handleSaveEditedRole, updateDoc.
    handler_unfold. simpl. by rewrite Hdoc.
Qed.

Lemma role_edit_refused_witness :
  run (UserManagement.clickSaveRole (Some (VStr "staff"))
         (Some {| UserManagement.ur_id := "u7"; UserManagement.ur_email := "b@shop.example";
                  UserManagement.ur_role := staff |}) admin) Sample.world
  = Sample.world
  ∧ run (UserManagement.handleSaveRole
           (Some {| UserManagement.ur_id := "u7"; UserManagement.ur_email := "b@shop.example";
                    UserManagement.ur_role := staff |}) admin) Sample.world
    = {| db := Sample.store;
         notices := [Snackbar "Failed to update user role." error] |}.
Proof.
  destruct (role_edit_refused admin Sample.world
              {| UserManagement.ur_id := "u7"; UserManagement.ur_email := "b@shop.example";
                 UserManagement.ur_role := staff |}
              {| AdminPage.au_id := "u7"; AdminPage.au_email := "b@shop.example";
                 AdminPage.au_role := staff; AdminPage.au_uid := "u7" |})
    as (Hviewer & Hmissing & _).
  split.
  - apply Hviewer. reflexivity.
  - apply Hmissing. vm_compute. reflexivity.
Defined.

Lemma created_profile_users (provider : string → string → User + string)
    (email password : string) (r : Role) (user : User) (w w' : World) :
  provider email password = inl user →
  (nonEmpty email = true ∧ nonEmpty password = true
   ∧ w' = run (AdminPage.handleCreateUser provider
                 {| AdminPage.nu_email := email; AdminPage.nu_password := password;
                    AdminPage.nu_role := r |}) w)
  ∨ w' = run (UserManagement.handleAddNewUser provider email password r) w →
  ∃ profile,
    profile !! "role" = Some (VStr (roleName r))
    ∧ profile !! "email" = Some (VStr email)
    ∧ users (db w') = <[user_uid user := profile]> (users (db w))
    ∧ inventory (db w') = inventory (db w)
    ∧ sales (db w') = sales (db w)
    ∧ purchases (db w') = purchases (db w)
    ∧ adjustments (db w') = adjustments (db w).
Proof.
  intros Hprovider [(Hemail & Hpassword & ->) | ->].
  - unfold AdminPage.handleCreateUser, createUserWithEmailAndPassword. simpl.
    rewrite Hemail, Hpassword, Hprovider. handler_unfold. simpl.
    eexists. repeat split; by rewrite ?obj_lookup_cons.
  - unfold UserManagement.handleAddNewUser, createUserWithEmailAndPassword.
    rewrite Hprovider. handler_unfold. simpl.
    eexists. repeat split; by rewrite ?obj_lookup_cons.
Qed.

(** An account created on either user page, once the provider has issued
    its identity, has a profile with the chosen role and the typed email;
    no other profile and no other collection changes.  The role lookup of
    the new user returns the chosen role, so a gate that requires "admin"
    opens for the user exactly when the chosen role is admin, and a later
    accepted sign-in of that user leaves the store as it is: the chosen role
    is not reset to "staff".  On the Admin page the form must carry an email
    and a password. *)
Theorem created_user_has_chosen_role (provider : string → string → User + string)
    (email password : string) (r : Role) (user : User) (w w' : World) :
  provider email password = inl user →
  (nonEmpty email = true ∧ nonEmpty password = true
   ∧ w' = run (AdminPage.handleCreateUser provider
                 {| AdminPage.nu_email := email; AdminPage.nu_password := password;
                    AdminPage.nu_role := r |}) w)
  ∨ w' = run (UserManagement.handleAddNewUser provider email password r) w →
  (∀ k, k ≠ user_uid user → users (db w') !! k = users (db w) !! k)
  ∧ inventory (db w') = inventory (db w)
  ∧ sales (db w') = sales (db w)
  ∧ purchases (db w') = purchases (db w)
  ∧ adjustments (db w') = adjustments (db w)
  ∧ lookupRole w' (user_uid user) = Some (VStr (roleName r))
  ∧ settledView (Some "admin") user w'
    = match r with
      | admin => ProtectedRoute.Outlet
      | staff => ProtectedRoute.AccessDenied
      end
  ∧ (∀ signIn email' password' now,
       nonEmpty email' = true → nonEmpty password' = true →
       (6 ≤ String.length password')%nat →
       signIn email' password' = inl user →
       db (run (Login.handleSubmit signIn email' password' now) w') = db w').
Proof.
  intros Hprovider Hpage.
  destruct (created_profile_users provider email password r user w w' Hprovider Hpage)
    as (profile & Hrole & _ & Husers & Hinventory & Hsales & Hpurchases & Hadjustments).
  assert (users (db w') !! user_uid user = Some profile) as Hprofile
    by (by rewrite Husers, lookup_insert_eq).
  assert (lookupRole w' (user_uid user) = Some (VStr (roleName r))) as Hlookup.
  { eapply lookupRole_role; [exact Hprofile | exact Hrole | apply roleName_nonEmpty]. }
  repeat split; try done.
  - intros k Hk. by rewrite Husers, lookup_insert_ne.
  - by apply settledView_admin_route.
  - intros signIn email' password' now Hemail' Hpassword' Hlen Haccepted.
    rewrite (handleSubmit_accepted signIn email' password' now user w'
               Hemail' Hpassword' Hlen Haccepted).
    rewrite Hprofile, Hrole. simpl. by rewrite roleName_nonEmpty.
Qed.

Lemma created_user_has_chosen_role_witness :
  let provider := λ _ _ : string, inl {| user_uid := "u9"; user_email := Some "c@shop.example" |} in
  let w' := run (UserManagement.handleAddNewUser provider "c@shop.example" "secret" admin)
              Sample.world in
  lookupRole w' "u9" = Some (VStr "admin")
  ∧ db (run (Login.handleSubmit provider "c@shop.example" "secret" 5000) w') = db w'.
Proof.
  intros provider w'.
  destruct (created_user_has_chosen_role provider "c@shop.example" "secret" admin
              {| user_uid := "u9"; user_email := Some "c@shop.example" |} Sample.world w')
    as (_ & _ & _ & _ & _ & Hlookup & _ & Hsign_in).
  - reflexivity.
  - right. reflexivity.
  - split; [exact Hlookup|].
    apply Hsign_in; [reflexivity | reflexivity | simpl; lia | reflexivity].
Defined.

(** When the provider refuses to create the account, neither user page
    writes a profile: the store is unchanged and the provider's message is
    shown.  The Admin page does not even ask the provider when the email or
    the password is empty; the User Management page has no such check. *)
Theorem refused_account_writes_no_profile (email password : string) (r : Role) (w : World) :
  (∀ provider message,
     provider email password = inr message →
     run (UserManagement.handleAddNewUser provider email password r) w
     = {| db := db w;
          notices := notices w ++ [Snackbar ("Failed to add user: " ++ message) error] |}
     ∧ (nonEmpty email = true → nonEmpty password = true →
        run (AdminPage.handleCreateUser provider
               {| AdminPage.nu_email := email; AdminPage.nu_password := password;
                  AdminPage.nu_role := r |}) w
        = {| db := db w;
             notices := notices w ++ [Snackbar ("Error creating user: " ++ message) error] |}))
  ∧ (∀ provider,
       nonEmpty email = false ∨ nonEmpty password = false →
       run (AdminPage.handleCreateUser provider
              {| AdminPage.nu_email := email; AdminPage.nu_password := password;
                 AdminPage.nu_role := r |}) w
       = {| db := db w;
            notices := notices w ++ [Snackbar "Please fill in all fields" error] |}).
Proof.
  split.
  - intros provider message Hprovider. split.
    + unfold UserManagement.handleAddNewUser, createUserWithEmailAndPassword.
      rewrite Hprovider. by handler_unfold.
    + intros Hemail Hpassword.
      unfold AdminPage.handleCreateUser, createUserWithEmailAndPassword. simpl.
      rewrite Hemail, Hpassword, Hprovider. by handler_unfold.
  - intros provider Hempty. unfold AdminPage.handleCreateUser. simpl.
    destruct Hempty as [-> | ->]; simpl; rewrite ?orb_true_r; by handler_unfold.
Qed.

Lemma refused_account_writes_no_profile_witness :
  run (UserManagement.handleAddNewUser (λ _ _, inr "Email already in use.")
         "c@shop.example" "secret" staff) Sample.world
  = {| db := Sample.store;
       notices := [Snackbar "Failed to add user: Email already in use." error] |}
  ∧ run (AdminPage.handleCreateUser SampleUsers.provider
           {| AdminPage.nu_email := ""; AdminPage.nu_password := "secret";
              AdminPage.nu_role := staff |}) Sample.world
    = {| db := Sample.store; notices := [Snackbar "Please fill in all fields" error] |}.
Proof.
  split.
  - destruct (refused_account_writes_no_profile "c@shop.example" "secret" staff Sample.world)
      as (Hrefused & _).
    destruct (Hrefused (λ _ _, inr "Email already in use.") "Email already in use." eq_refl)
      as (Hadd & _).
    exact Hadd.
  - destruct (refused_account_writes_no_profile "" "secret" staff Sample.world)
      as (_ & Hempty).
    apply Hempty. left. reflexivity.
Defined.

(** Deleting a profile on the Admin page removes that document and nothing
    else.  The account itself is not touched: a gate then shows the role
    error to that user whatever role the route requires, and the next
    accepted sign-in of the user creates a fresh profile with the role
    "staff", whatever the role of the deleted profile was. *)
Theorem deleted_profile_returns_as_staff (userToDelete : AdminPage.AppUser) (w : World) :
  let w' := run (AdminPage.handleDeleteUser (Some userToDelete)) w in
  users (db w') = delete (AdminPage.au_id userToDelete) (users (db w))
  ∧ inventory (db w') = inventory (db w)
  ∧ sales (db w') = sales (db w)
  ∧ purchases (db w') = purchases (db w)
  ∧ adjustments (db w') = adjustments (db w)
  ∧ (∀ u requiredRole,
       user_uid u = AdminPage.au_id userToDelete →
       settledView requiredRole u w'
       = ProtectedRoute.ErrorMessage
           "Failed to verify user role. Please try logging in again.")
  ∧ (∀ u provider email password now,
       user_uid u = AdminPage.au_id userToDelete →
       nonEmpty email = true → nonEmpty password = true →
       (6 ≤ String.length password)%nat →
       provider email password = inl u →
       lookupRole (run (Login.handleSubmit provider email password now) w') (user_uid u)
       = Some (VStr "staff")).
Proof.
  intros w'.
  assert (users (db w') = delete (AdminPage.au_id userToDelete) (users (db w))) as Husers
    by reflexivity.
  repeat split; try done.
  - intros u requiredRole Hid. unfold settledView.
    rewrite lookupRole_no_document; [done|].
    by rewrite Husers, Hid, lookup_delete_eq.
  - intros u provider email password now Hid Hemail Hpassword Hlen Hprovider.
    rewrite (handleSubmit_accepted provider email password now u w'
               Hemail Hpassword Hlen Hprovider).
    rewrite Husers, Hid, lookup_delete_eq. rewrite <- Hid.
    apply (lookupRole_role _ _ "staff"
             (obj [ ("uid", VStr (user_uid u));
                    ("email", from_option VStr VNull (user_email u));
                    ("role", VStr "staff"); ("createdAt", VTime now) ]));
      [|by rewrite !obj_lookup_cons|done].
    simpl. by rewrite lookup_insert_eq.
Qed.

Lemma deleted_profile_returns_as_staff_witness :
  let u := {| user_uid := "u7"; user_email := Some "b@shop.example" |} in
  let d := obj [("email", VStr "b@shop.example"); ("role", VStr "admin")] in
  let w := {| db := setColl Users {["u7" := d]} Sample.store; notices := [] |} in
  let w' := run (AdminPage.handleDeleteUser
                   (Some {| AdminPage.au_id := "u7"; AdminPage.au_email := "b@shop.example";
                            AdminPage.au_role := admin; AdminPage.au_uid := "u7" |})) w in
  lookupRole w "u7" = Some (VStr "admin")
  ∧ lookupRole (run (Login.handleSubmit (λ _ _, inl u) "b@shop.example" "secret" 6000) w') "u7"
    = Some (VStr "staff").
Proof.
  intros u d w w'. split; [reflexivity|].
  destruct (deleted_profile_returns_as_staff
              {| AdminPage.au_id := "u7"; AdminPage.au_email := "b@shop.example";
                 AdminPage.au_role := admin; AdminPage.au_uid := "u7" |} w)
    as (_ & _ & _ & _ & _ & _ & Hsign_in).
  apply (Hsign_in u (λ _ _, inl u) "b@shop.example" "secret" 6000%Z);
    [reflexivity | reflexivity | reflexivity | simpl; lia | reflexivity].
Defined.

(** ** The gate, over every run *)

Lemma steps_snoc (s : ProtectedRoute.State) (es : list ProtectedRoute.Event)
    (e : ProtectedRoute.Event) :
  ProtectedRoute.steps s (es ++ [e]) = ProtectedRoute.step (ProtectedRoute.steps s es) e.
Proof. unfold ProtectedRoute.steps. by rewrite foldl_app. Qed.

(** The role the gate holds is the result of a lookup that settled. *)
Lemma gate_role_from_lookup (user0 : option User) (loading0 : bool)
    (es : list ProtectedRoute.Event) :
  let s := ProtectedRoute.steps (ProtectedRoute.mount user0 loading0) es in
  ProtectedRoute.userRole s = None
  ∨ ProtectedRoute.RoleLookupSettled (ProtectedRoute.userRole s) ∈ es.
Proof.
  induction es as [|e es IH] using rev_ind; simpl.
  - left. by destruct user0.
  - rewrite steps_snoc.
    destruct e as [u|result]; simpl.
    + destruct u as [u|]; simpl; [|by left].
      destruct IH as [IH|IH]; [by left|]. right. apply elem_of_app. by left.
    + destruct (ProtectedRoute.lookupInFlight _) eqn:Hflight.
      * destruct result as [role|]; simpl; [|by left].
        right. apply elem_of_app. right. by apply list_elem_of_singleton.
      * destruct IH as [IH|IH]; [by left|]. right. apply elem_of_app. by left.
Qed.

(** While the gate waits for a role there is a lookup in flight. *)
Lemma gate_waits_for_lookup (user0 : option User) (loading0 : bool)
    (es : list ProtectedRoute.Event) :
  let s := ProtectedRoute.steps (ProtectedRoute.mount user0 loading0) es in
  ProtectedRoute.isRoleLoading s = true → ProtectedRoute.lookupInFlight s = true.
Proof.
  induction es as [|e es IH] using rev_ind; simpl.
  - by destruct user0.
  - rewrite steps_snoc.
    destruct e as [u|result]; simpl.
    + by destruct u.
    + destruct (ProtectedRoute.lookupInFlight _) eqn:Hflight.
      * by destruct result.
      * intros Hloading. apply IH in Hloading. congruence.
Qed.

(** However the gate was mounted and whatever events reached it since, it
    shows the page of a route that requires a role only if one of the role
    lookups among those events settled with exactly that role. *)
Theorem gate_opens_only_after_lookup (required : string) (user0 : option User)
    (loading0 : bool) (es : list ProtectedRoute.Event) :
  nonEmpty required = true →
  ProtectedRoute.render (Some required)
    (ProtectedRoute.steps (ProtectedRoute.mount user0 loading0) es)
  = ProtectedRoute.Outlet →
  ProtectedRoute.RoleLookupSettled (Some (VStr required)) ∈ es.
Proof.
  intros Hrequired Hview.
  pose proof (gate_role_from_lookup user0 loading0 es) as Hrole. cbv zeta in Hrole.
  set (s := ProtectedRoute.steps (ProtectedRoute.mount user0 loading0) es) in *.
  unfold ProtectedRoute.render in Hview. rewrite Hrequired in Hview. simpl in Hview.
  destruct (ProtectedRoute.loading s || ProtectedRoute.isRoleLoading s); [discriminate|].
  destruct (nonEmpty (default "" (ProtectedRoute.roleError s))); [discriminate|].
  destruct (ProtectedRoute.user s); [|discriminate].
  destruct (isRole (ProtectedRoute.userRole s) required) eqn:His; [|discriminate].
  unfold isRole in His.
  destruct (ProtectedRoute.userRole s) as [[| |role| | |]|] eqn:Hheld; try discriminate.
  apply bool_decide_eq_true in His. subst role.
  destruct Hrole as [Hrole|Hrole]; [discriminate|exact Hrole].
Qed.

Lemma gate_opens_only_after_lookup_witness :
  ProtectedRoute.RoleLookupSettled (Some (VStr "admin"))
  ∈ [ProtectedRoute.AuthStateChanged (Some SampleGate.admin);
     ProtectedRoute.RoleLookupSettled (Some (VStr "admin"))].
Proof.
  apply (gate_opens_only_after_lookup "admin" None true); reflexivity.
Defined.

(** The gate cannot stay on the spinner: once the auth state has been
    delivered and no role lookup is in flight, it shows something else,
    however it was mounted and whatever events reached it. *)
Theorem gate_spinner_ends (requiredRole : option string) (user0 : option User)
    (loading0 : bool) (es : list ProtectedRoute.Event) :
  let s := ProtectedRoute.steps (ProtectedRoute.mount user0 loading0) es in
  ProtectedRoute.loading s = false →
  ProtectedRoute.lookupInFlight s = false →
  ProtectedRoute.render requiredRole s ≠ ProtectedRoute.Spinner.
Proof.
  intros s Hloading Hflight.
  pose proof (gate_waits_for_lookup user0 loading0 es) as Hwait. cbv zeta in Hwait.
  fold s in Hwait.
  assert (ProtectedRoute.isRoleLoading s = false) as Hrole.
  { destruct (ProtectedRoute.isRoleLoading s); [|done].
    rewrite Hwait in Hflight; [discriminate|done]. }
  unfold ProtectedRoute.render. rewrite Hloading, Hrole. simpl.
  repeat case_match; discriminate.
Qed.

Lemma gate_spinner_ends_witness :
  let s := ProtectedRoute.steps (ProtectedRoute.mount None true)
             [ProtectedRoute.AuthStateChanged (Some SampleGate.admin);
              ProtectedRoute.RoleLookupSettled None] in
  ProtectedRoute.lookupInFlight s = false
  ∧ ProtectedRoute.render (Some "admin") s ≠ ProtectedRoute.Spinner.
Proof.
  split; [reflexivity|].
  apply (gate_spinner_ends (Some "admin") None true
           [ProtectedRoute.AuthStateChanged (Some SampleGate.admin);
            ProtectedRoute.RoleLookupSettled None]); reflexivity.
Defined.

(** ** Sorting and paging the tables *)

Lemma ltb_asymmetric (x y : string) : String.ltb x y = true → String.ltb y x = false.
Proof.
  unfold String.ltb. rewrite (String.compare_antisym y x).
  by destruct (String.compare x y).
Qed.

Lemma ltb_neither (x y : string) :
  String.ltb x y = false → String.ltb y x = false → x = y.
Proof.
  unfold String.ltb. rewrite (String.compare_antisym y x).
  destruct (String.compare x y) eqn:Hcompare; simpl; try discriminate.
  intros _ _. by apply String.compare_eq_iff.
Qed.

Lemma ltb_irreflexive (x : string) : String.ltb x x = false.
Proof.
  destruct (String.ltb x x) eqn:Hlt; [|done].
  pose proof (ltb_asymmetric x x Hlt). congruence.
Qed.

Lemma Qc_of_Z_flip (x y : Z) : Qc_of_Z (x - y) = - Qc_of_Z (y - x).
Proof.
  apply Qc_is_canon. unfold Qc_of_Z, Qcopp, Q2Qc. simpl.
  rewrite !Qred_correct. unfold Qeq. simpl. lia.
Qed.

(** The comparator of the sale, purchase and adjustment tables is
    antisymmetric on all rows, whatever their fields hold, and the
    descending order is the mirror of the ascending one: sorting in the
    other direction reverses the outcome of every comparison. *)
Theorem history_comparator_mirrors (timestampColumn orderBy : string)
    (order : ListViews.Order) (a b : Doc) :
  ListViews.comparator timestampColumn order orderBy b a
  = - ListViews.comparator timestampColumn order orderBy a b
  ∧ ListViews.comparator timestampColumn ListViews.desc orderBy a b
    = - ListViews.comparator timestampColumn ListViews.asc orderBy a b.
Proof.
  unfold ListViews.comparator. cbv zeta.
  destruct (ListViews.isNullish (a !! orderBy)), (ListViews.isNullish (b !! orderBy));
    simpl; try (destruct order; split; apply Qc_is_canon; reflexivity).
  destruct (bool_decide (orderBy = timestampColumn)).
  { destruct order; split; apply Qc_of_Z_flip. }
  destruct (a !! orderBy) as [[|x|x| | |]|], (b !! orderBy) as [[|y|y| | |]|];
    try (destruct order; split; apply Qc_is_canon; reflexivity).
  - destruct order; split; ring.
  - destruct (String.ltb (ListViews.toLowerCase y) (ListViews.toLowerCase x)) eqn:Hyx.
    + rewrite (ltb_asymmetric _ _ Hyx).
      destruct order; split; apply Qc_is_canon; reflexivity.
    + destruct (String.ltb (ListViews.toLowerCase x) (ListViews.toLowerCase y));
        destruct order; split; apply Qc_is_canon; reflexivity.
Qed.

(** The comparator of the users table of the Admin page, on the rows as
    they come from the store.  On two rows that hold strings in the sort
    column it is antisymmetric, its descending order mirrors the ascending
    one, and it ranks the two rows as equal exactly when the two strings
    are equal.  A row without the sort column (a profile written without
    that field) compares as equal to every row that holds a string there or
    lacks the column too, in both directions and in both orders: such a row
    is not ordered against the others. *)
Theorem users_comparator_orders_by_field (orderBy : string) (a b : Doc) :
  (∀ x y, a !! orderBy = Some (VStr x) → b !! orderBy = Some (VStr y) →
     ∃ c : Z,
       AdminPage.comparator ListViews.asc orderBy a b = Some c
       ∧ AdminPage.comparator ListViews.asc orderBy b a = Some (- c)%Z
       ∧ AdminPage.comparator ListViews.desc orderBy a b = Some (- c)%Z
       ∧ AdminPage.comparator ListViews.desc orderBy b a = Some c
       ∧ (c = 0%Z ↔ x = y))
  ∧ (a !! orderBy = None →
     b !! orderBy = None ∨ (∃ y, b !! orderBy = Some (VStr y)) →
     ∀ order,
       AdminPage.comparator order orderBy a b = Some 0%Z
       ∧ AdminPage.comparator order orderBy b a = Some 0%Z).
Proof.
  split.
  - intros x y Ha Hb. unfold AdminPage.comparator, AdminPage.lessThan. rewrite Ha, Hb.
    cbv zeta.
    destruct (String.ltb y x) eqn:Hyx.
    + rewrite (ltb_asymmetric _ _ Hyx). exists 1%Z. repeat split; try done.
      intros ->. rewrite ltb_irreflexive in Hyx. discriminate.
    + destruct (String.ltb x y) eqn:Hxy.
      * exists (-1)%Z. repeat split; try done.
        intros ->. rewrite ltb_irreflexive in Hxy. discriminate.
      * exists 0%Z. repeat split; try done. intros _. by apply ltb_neither.
  - intros Ha Hb order. unfold AdminPage.comparator, AdminPage.lessThan. rewrite Ha.
    destruct Hb as [-> | [y ->]]; by destruct order.
Qed.

Lemma users_comparator_orders_by_field_witness :
  let added : Doc := obj [("email", VStr "b@shop.example"); ("role", VStr "staff")] in
  let created : Doc :=
    obj [("uid", VStr "u1"); ("email", VStr "a@shop.example"); ("role", VStr "admin")] in
  (AdminPage.comparator ListViews.asc "uid" added created = Some 0%Z
   ∧ AdminPage.comparator ListViews.asc "uid" created added = Some 0%Z)
  ∧ ∃ c : Z, AdminPage.comparator ListViews.asc "email" created added = Some c
             ∧ AdminPage.comparator ListViews.desc "email" created added = Some (- c)%Z.
Proof.
  intros added created. split.
  - destruct (users_comparator_orders_by_field "uid" added created) as (_ & Habsent).
    apply (Habsent eq_refl); right; by exists "u1".
  - destruct (users_comparator_orders_by_field "email" created added) as (Hstrings & _).
    destruct (Hstrings "a@shop.example" "b@shop.example" eq_refl eq_refl)
      as (c & Hasc & _ & Hdesc & _).
    exists c. split; [exact Hasc | exact Hdesc].
Defined.

(** A click on a column header makes that column the sort column.  A click
    on another column than the current one sorts ascending.  A second click
    on the same header mirrors every comparison of the history tables, and
    a third click brings back the state after the first. *)
Theorem header_click_toggles {K : Type} `{EqDecision K} (s : TableView.SortState K)
    (property : K) :
  let s1 := TableView.handleRequestSort s property in
  let s2 := TableView.handleRequestSort s1 property in
  TableView.orderBy s1 = property
  ∧ (TableView.orderBy s ≠ property → TableView.order s1 = ListViews.asc)
  ∧ TableView.handleRequestSort s2 property = s1
  ∧ (∀ (timestampColumn column : string) (a b : Doc),
       ListViews.comparator timestampColumn (TableView.order s2) column a b
       = - ListViews.comparator timestampColumn (TableView.order s1) column a b).
Proof.
  intros s1 s2. subst s1 s2. unfold TableView.handleRequestSort. simpl.
  rewrite (bool_decide_eq_true_2 (property = property) eq_refl). simpl.
  repeat split.
  - intros Hother. by rewrite (bool_decide_eq_false_2 _ Hother).
  - by destruct (bool_decide _ && _).
  - intros timestampColumn column a b.
    assert (∀ o, ListViews.comparator timestampColumn
                   (match o with ListViews.asc => ListViews.desc | ListViews.desc => ListViews.asc end)
                   column a b
                 = - ListViews.comparator timestampColumn o column a b) as Hmirror.
    { intros o. unfold ListViews.comparator. cbv zeta.
      destruct (ListViews.isNullish (a !! column)), (ListViews.isNullish (b !! column));
        simpl; try (destruct o; apply Qc_is_canon; reflexivity).
      destruct (bool_decide (column = timestampColumn)).
      { destruct o; apply Qc_of_Z_flip. }
      destruct (a !! column) as [[|x|x| | |]|], (b !! column) as [[|y|y| | |]|];
        try (destruct o; apply Qc_is_canon; reflexivity).
      - destruct o; ring.
      - destruct o; simpl; repeat case_match; apply Qc_is_canon; reflexivity. }
    destruct (bool_decide _ && _); simpl.
    + apply (Hmirror ListViews.desc).
    + apply (Hmirror ListViews.asc).
Qed.

Lemma header_click_toggles_witness :
  TableView.order
    (TableView.handleRequestSort {| TableView.order := ListViews.desc;
                                    TableView.orderBy := "name" |} "quantity")
  = ListViews.asc.
Proof.
  destruct (header_click_toggles {| TableView.order := ListViews.desc;
                                     TableView.orderBy := "name" |} "quantity")
    as (_ & Hother & _).
  apply Hother. discriminate.
Defined.

(** Paging loses no row and shows none twice: the pages of a table, read
    in order, are its rows.  A page never holds more rows than the page
    size. *)
Theorem pages_partition_rows {A : Type} (rowsPerPage pages : nat) (rows : list A) :
  (length rows ≤ pages * rowsPerPage)%nat →
  concat (map (λ page, TableView.visibleRows page rowsPerPage rows) (seq 0 pages)) = rows
  ∧ (∀ page, length (TableView.visibleRows page rowsPerPage rows) ≤ rowsPerPage)%nat.
Proof.
  intros Hfit. split.
  - assert (∀ n, concat (map (λ page, TableView.visibleRows page rowsPerPage rows) (seq 0 n))
                 = take (n * rowsPerPage) rows) as Htake.
    { induction n as [|n IH]; [done|].
      rewrite seq_S, map_app, concat_app, IH. simpl. rewrite app_nil_r.
      unfold TableView.visibleRows, TableView.slice.
      replace (n * rowsPerPage + rowsPerPage - n * rowsPerPage)%nat with rowsPerPage by lia.
      rewrite take_take_drop. f_equal. lia. }
    rewrite Htake. by apply take_ge.
  - intros page. unfold TableView.visibleRows, TableView.slice.
    rewrite length_take. lia.
Qed.

Lemma pages_partition_rows_witness :
  concat (map (λ page, TableView.visibleRows page 5 (seq 0 12)) (seq 0 3)) = seq 0 12.
Proof.
  apply (pages_partition_rows 5 3 (seq 0 12)). simpl. lia.
Defined.

(** ** The item form *)

Lemma fresh_item_id (m : gmap string InventoryDoc) : m !! fresh (dom m) = None.
Proof. apply not_elem_of_dom, is_fresh. Qed.



(** Stock entered through the item form carries no cost.  The form stores
    the new item under an unused identifier, with the typed price and no
    average cost.  A first purchase of [q] units at [p] through the purchase
    dialog, the entered quantity [Q] and [q] not adding up to zero, then
    averages the entered stock in at cost zero: the average cost becomes
    [p * q / (Q + q)], whatever price was typed in the form.  A sale of [q]
    of the entered units at [p] through the sell dialog records the whole
    revenue [p * q] as profit. *)
Theorem form_stock_enters_at_no_cost (formData : InventoryForm.FormData) (q p : Qc)
    (customerName customerMobile uid : string) (now : Z) (w : World) :
  0 < q → 0 < p →
  InventoryForm.form_quantity formData + q ≠ 0 →
  let k := fresh (dom (inventory (db w))) in
  let w1 := run (InventoryForm.handleSubmit None formData) w in
  let item := InventoryForm.row k (InventoryForm.added formData) in
  inventory (db w) !! k = None
  ∧ inventory (db w1) = <[k := InventoryForm.added formData]> (inventory (db w))
  ∧ (∃ d', inventory (db (run (InventoryPage.clickPurchase (Some item) q (Typed p) uid now) w1))
             !! k = Some d'
           ∧ d_quantity d' = InventoryForm.form_quantity formData + q
           ∧ d_avgCost d' = Some (p * q / (InventoryForm.form_quantity formData + q))
           ∧ d_price d' = InventoryForm.form_price formData)
  ∧ (q ≤ InventoryForm.form_quantity formData →
     ∃ record,
       sales (db (run (InventoryPage.clickSell (Some item) q (Typed p) customerName
                         customerMobile uid now) w1)) !! autoId (sales (db w))
       = Some record
       ∧ record !! "profit" = Some (VNum (p * q))).
Proof.
  intros Hq Hp _ k w1 item.
  assert (q ≠ 0) as Hq0 by (intros ->; by apply Qclt_not_eq in Hq).
  assert (inventory (db w1) = <[k := InventoryForm.added formData]> (inventory (db w)))
    as Hadded by reflexivity.
  assert (inventory (db w1) !! id item = Some (InventoryForm.added formData)) as Hdoc
    by (by rewrite Hadded; simpl; rewrite lookup_insert_eq).
  split; [apply fresh_item_id|]. split; [exact Hadded|]. split.
  - unfold InventoryPage.clickPurchase, InventoryPage.purchaseDisabled.
    rewrite (bool_decide_eq_false_2 _ Hq0). simpl.
    destruct (handlePurchase_blend item q (Typed p) uid now _ w1 Hq Hp Hdoc)
      as (d' & Hd' & Hquantity & Hcost & Hprice).
    exists d'. split; [exact Hd'|]. split; [exact Hquantity|]. split; [|exact Hprice].
    rewrite Hcost. f_equal. unfold spec_avgCost. simpl. unfold Qcdiv. ring.
  - intros Hstock.
    unfold InventoryPage.clickSell, InventoryPage.sellDisabled.
    rewrite (bool_decide_eq_false_2 _ Hq0), orZero_quantity.
    rewrite bool_decide_eq_false_2 by (by apply Qcle_not_lt).
    simpl.
    destruct (handleSell_record item q (Typed p) customerName customerMobile uid now _ w1
                Hq Hp Hdoc) as (record & Hrecord & Hprofit).
    exists record. split; [exact Hrecord | exact Hprofit].
Qed.

Lemma form_stock_enters_at_no_cost_witness :
  let formData := {| InventoryForm.form_name := "gadget";
                     InventoryForm.form_quantity := Qc_of_Z 10;
                     InventoryForm.form_price := Qc_of_Z 5;
                     InventoryForm.form_category := "tools" |} in
  let k := fresh (dom (inventory Sample.store)) in
  let w1 := run (InventoryForm.handleSubmit None formData) Sample.world in
  let item := InventoryForm.row k (InventoryForm.added formData) in
  ∃ d', inventory (db (run (InventoryPage.clickPurchase (Some item) (Qc_of_Z 5)
                              (Typed (Qc_of_Z 6)) "u1" 7000) w1)) !! k = Some d'
        ∧ d_avgCost d' = Some (Qc_of_Z 6 * Qc_of_Z 5 / (Qc_of_Z 10 + Qc_of_Z 5)).
Proof.
  intros formData k w1 item.
  pose proof (form_stock_enters_at_no_cost formData (Qc_of_Z 5) (Qc_of_Z 6) "" "" "u1"
                7000%Z Sample.world) as H.
  cbv zeta in H.
  destruct H as (_ & _ & (d' & Hd' & _ & Hcost & _) & _);
    [reflexivity | reflexivity | vm_compute; discriminate |].
  exists d'. split; [exact Hd' | exact Hcost].
Defined.

(** ** The stock counts of the dashboard *)

Lemma dashboard_item_counts (x : Qc) :
  0 ≤ x →
  (bool_decide (0 < x) = negb (bool_decide (x = 0)))
  ∧ (bool_decide (x < Qc_of_Z 10)
     = (bool_decide (x < Qc_of_Z 10) && bool_decide (0 < x)) || bool_decide (x = 0)).
Proof.
  intros Hx.
  destruct (decide (x = 0)) as [Hzero | Hne].
  - rewrite (bool_decide_eq_true_2 _ Hzero).
    rewrite (bool_decide_eq_false_2 (0 < x)).
    2:{ intros Hlt. apply Qclt_not_eq in Hlt. congruence. }
    split; [done|]. rewrite andb_false_r. simpl.
    apply bool_decide_eq_true_2. by rewrite Hzero.
  - rewrite (bool_decide_eq_false_2 _ Hne).
    rewrite (bool_decide_eq_true_2 (0 < x)).
    2:{ destruct (Qcle_lt_or_eq _ _ Hx) as [Hlt | Heq]; [done | by symmetry in Heq]. }
    split; [done|]. by rewrite andb_true_r, orb_false_r.
Qed.

(** On a store without negative stock the counts of the dashboard fit
    together as follows.  Every item is either in stock or out of stock.
    The low-stock items of the card are among the in-stock items, so the
    three slices of the pie chart add up to the number of items plus the
    low-stock count.  The "Low Stock" bar of the bar chart counts the
    low-stock items of the card together with the out-of-stock items. *)
Theorem dashboard_counts (s : Firestore) :
  stockNonNegative s →
  let items := Dashboard.items s in
  (Dashboard.pieInStock items + Dashboard.outOfStock items = Dashboard.totalItems items)%nat
  ∧ (Dashboard.lowStock items ≤ Dashboard.pieInStock items)%nat
  ∧ (Dashboard.pieInStock items + Dashboard.lowStock items + Dashboard.outOfStock items
     = Dashboard.totalItems items + Dashboard.lowStock items)%nat
  ∧ (Dashboard.barLowStock items = Dashboard.lowStock items + Dashboard.outOfStock items)%nat.
Proof.
  intros Hstock items.
  assert (Forall (λ item, 0 ≤ Dashboard.quantityOf item) items) as Hitems.
  { apply list.Forall_forall. intros item Hitem.
    apply list_elem_of_fmap in Hitem as ([k d] & -> & Hitem).
    apply elem_of_map_to_list in Hitem. simpl.
    unfold Dashboard.quantityOf. rewrite orZero_quantity. by apply (Hstock k). }
  clearbody items.
  unfold Dashboard.pieInStock, Dashboard.outOfStock, Dashboard.lowStock,
    Dashboard.barLowStock, Dashboard.totalItems, Dashboard.count.
  induction Hitems as [|item items Hitem _ IH]; [done|].
  destruct (dashboard_item_counts _ Hitem) as (Hpositive & Hbar).
  simpl. rewrite Hbar, Hpositive.
  destruct (bool_decide (Dashboard.quantityOf item = 0)),
    (bool_decide (Dashboard.quantityOf item < Qc_of_Z 10)); simpl; lia.
Qed.

Lemma dashboard_counts_witness :
  (Dashboard.barLowStock (Dashboard.items Sample.store)
   = Dashboard.lowStock (Dashboard.items Sample.store)
     + Dashboard.outOfStock (Dashboard.items Sample.store))%nat.
Proof.
  pose proof (dashboard_counts Sample.store) as H. cbv zeta in H.
  destruct H as (_ & _ & _ & Hbar); [|exact Hbar].
  intros k d Hd. unfold Sample.store in Hd. simpl in Hd.
  apply lookup_singleton_Some in Hd as [_ <-]. vm_compute. discriminate.
Defined.
